(** * DoodleDash backend: rooms, rounds, guesses and scoring

    A shallow embedding of the session layer of the DoodleDash backend
    (Go): the room model ([internal/models]), the game engine and the
    room manager ([internal/services]), the message payloads
    ([pkg/websocket]) and the game and websocket handlers
    ([internal/handlers]), with the helpers of [pkg/utils] and the
    configuration ([internal/config]), followed by the properties of the
    specification that concern them and by further properties of the
    code.

    Conventions of the embedding.
    - A Go [int] is a [Z]; additions and multiplications wrap to 64 bits
      ([wrap]).  A [float64] is a primitive binary64 float, so the
      scoring code computes here exactly as it does in Go.
    - A Go [string] is a [string] of ASCII characters; the functions of
      package [strings] are the ASCII restrictions of the Go ones.
    - [time.Time] is a number of nanoseconds ([Z]), the zero time being
      [0]; every operation that reads the clock takes [now].
    - [map[string]*User] is a [gmap string User].  A [*User] is shared by
      a client and by the rooms the client has joined; a room reaches
      its users through [Players] only, so the map holds the records,
      and a change made to a user from outside the room is a transition
      of its own ([step_user]).  Where Go ranges over a map and the
      order shows in the result, the order is the argument [range_order]
      (Go leaves it unspecified, and may choose another at every loop;
      the properties hold for every order).
    - [NewRoom] and [NewUser] take the identifier (and the code) of the
      object as arguments.  The generators of the source,
      [generateRoomID] and [generateRoomCode], are placeholders that
      return constants; they are embedded as they are, and
      [CreateRoom_generated] is [CreateRoom] with what they return.
    - The handlers are functions: a handler, or a tick of the round
      timer, runs from its first statement to its last, and [step] and
      [reachable] speak of such runs.  In the source the timer is a
      goroutine of its own; where a property depends on what it may do
      between two statements of a handler, the handler is split at that
      point ([ValidateGuess_begin], [ValidateGuess_end]).
    - A handler returns the new state with the frames it emits, in order
      ([Effect]); a nil dereference is the outcome [Panic]. *)

From Stdlib Require Import ZArith Ascii Floats.
From stdpp Require Import gmap strings list sorting.

Local Open Scope string_scope.
Local Open Scope list_scope.
Local Open Scope Z_scope.

(** ** The Go runtime *)

Module Go.

(** Two's complement wrap-around of a 64-bit [int]. *)
Definition wrap (z : Z) : Z := (z + 2 ^ 63) `mod` 2 ^ 64 - 2 ^ 63.

Definition add (a b : Z) : Z := wrap (a + b).
Definition sub (a b : Z) : Z := wrap (a - b).
Definition mul (a b : Z) : Z := wrap (a * b).

(** [len] of a slice, a string or a map. *)
Definition len {A} (l : list A) : Z := Z.of_nat (length l).

(** [float64(n)] for an [int] [n] (rounded to nearest for |n| > 2^53;
    [- 2^63] is twice [- 2^62]). *)
Definition float64 (n : Z) : float :=
  if n =? - 2 ^ 63
  then PrimFloat.mul (PrimFloat.opp (PrimFloat.of_uint63 (Uint63.of_Z (2 ^ 62))))
                     (PrimFloat.of_uint63 (Uint63.of_Z 2))
  else if n <? 0 then PrimFloat.opp (PrimFloat.of_uint63 (Uint63.of_Z (- n)))
  else PrimFloat.of_uint63 (Uint63.of_Z n).

(** [int(f)] for a [float64] [f]: the fraction is discarded (truncation
    toward zero).  Go leaves the result to the implementation when the
    value does not fit: NaN and the infinities give 0 here, and a finite
    value outside the 64 bits keeps its integer part. *)
Definition int (f : float) : Z :=
  match Prim2SF f with
  | S754_finite s m e =>
      let v := if 0 <=? e then Z.shiftl (Z.pos m) e
               else Z.shiftr (Z.pos m) (- e) in
      if s then - v else v
  | _ => 0
  end.

(** [math.IsNaN(f) || math.IsInf(f, 0)]: the values [encoding/json]
    refuses to marshal. *)
Definition not_finite (f : float) : bool :=
  match Prim2SF f with
  | S754_nan | S754_infinity _ => true
  | _ => false
  end.

(** [time.Second], in nanoseconds, and [Duration.Seconds]. *)
Definition Second : Z := 1000000000.

(** [time.Minute]. *)
Definition Minute : Z := 60 * Second.

(** [t.Sub(u)], [time.Since(u)] at time [t] and [time.Until(t)] at time
    [u]: the duration [t - u], or the greatest (the least) [Duration]
    when it does not fit. *)
Definition Sub (t u : Z) : Z := Z.max (- 2 ^ 63) (Z.min (2 ^ 63 - 1) (t - u)).

Definition Seconds (d : Z) : float :=
  PrimFloat.add (float64 (Z.quot d Second))
                (PrimFloat.div (float64 (Z.rem d Second)) (float64 Second)).

(** [for i, x := range l { if x == v { ... break } }]: the index of the
    first [v] in [l]. *)
Fixpoint index_of (v : string) (l : list string) : option nat :=
  match l with
  | [] => None
  | x :: l' => if decide (x = v) then Some O else S <$> index_of v l'
  end.

(** [l = append(l[:i], l[i+1:]...)] at the first [i] with [l[i] == v]. *)
Fixpoint remove_first (v : string) (l : list string) : list string :=
  match l with
  | [] => []
  | x :: l' => if decide (x = v) then l' else x :: remove_first v l'
  end.

(** [for _, x := range l { if x == v { return true } }; return false]. *)
Definition contains (l : list string) (v : string) : bool :=
  bool_decide (v ∈ l).

End Go.

(** Package [strings], on ASCII strings. *)

Module strings.

Definition to_lower (c : ascii) : ascii :=
  let n := nat_of_ascii c in
  if (65 <=? n)%nat && (n <=? 90)%nat then ascii_of_nat (n + 32) else c.

Definition to_upper (c : ascii) : ascii :=
  let n := nat_of_ascii c in
  if (97 <=? n)%nat && (n <=? 122)%nat then ascii_of_nat (n - 32) else c.

Fixpoint map_string (f : ascii -> ascii) (s : string) : string :=
  match s with
  | EmptyString => EmptyString
  | String c s' => String (f c) (map_string f s')
  end.

Definition ToLower (s : string) : string := map_string to_lower s.
Definition ToUpper (s : string) : string := map_string to_upper s.

(** White space as [unicode.IsSpace] sees it below U+0080:
    tab, line feed, vertical tab, form feed, carriage return, space. *)
Definition is_space (c : ascii) : bool :=
  let n := nat_of_ascii c in
  ((9 <=? n)%nat && (n <=? 13)%nat) || (n =? 32)%nat.

Fixpoint trim_left (s : string) : string :=
  match s with
  | String c s' => if is_space c then trim_left s' else s
  | EmptyString => EmptyString
  end.

(** Drops the trailing white space: a character is kept when it is not
    a space or when something is kept after it. *)
Fixpoint trim_right (s : string) : string :=
  match s with
  | EmptyString => EmptyString
  | String c s' =>
      match trim_right s' with
      | EmptyString => if is_space c then EmptyString else String c EmptyString
      | r => String c r
      end
  end.

Definition TrimSpace (s : string) : string := trim_right (trim_left s).

(** [strings.ReplaceAll(s, old, new)] for a non-empty [old]: the
    non-overlapping occurrences of [old], from the left.  [skip] counts
    the characters of an occurrence still to be dropped. *)
Fixpoint replace_from (skip : nat) (s old new : string) : string :=
  match s with
  | EmptyString => EmptyString
  | String c s' =>
      match skip with
      | S k => replace_from k s' old new
      | O =>
          if String.prefix old s
          then new +:+ replace_from (String.length old - 1) s' old new
          else String c (replace_from 0 s' old new)
      end
  end.

Definition ReplaceAll (s old new : string) : string := replace_from 0 s old new.

(** [strings.Repeat(s, n)]. *)
Fixpoint Repeat (s : string) (n : nat) : string :=
  match n with
  | O => EmptyString
  | S k => s +:+ Repeat s k
  end.

(** [strings.Contains(s, sub)]. *)
Fixpoint Contains (s sub : string) : bool :=
  String.prefix sub s ||
  match s with
  | EmptyString => false
  | String _ s' => Contains s' sub
  end.

(** [strings.ContainsRune(s, c)] for an ASCII [c]. *)
Fixpoint ContainsRune (s : string) (c : ascii) : bool :=
  match s with
  | EmptyString => false
  | String d s' => if Ascii.eqb c d then true else ContainsRune s' c
  end.

(** [s[i]] for [i < len(s)]; the index is in range wherever it is used. *)
Definition index (s : string) (i : nat) : ascii :=
  match String.get i s with
  | Some c => c
  | None => Ascii.zero
  end.

End strings.

(** ** Package [models] *)

Module models.

(** *** [user.go] *)

Module User.

Record t : Type := mk {
ID : string;
Username : string;
Avatar : string;
Score : Z;
IsReady : bool;
IsConnected : bool;
LastActivity : Z;
JoinedAt : Z;
GuestUser : bool;
HasGuessedThisRound : bool;
GuessTime : Z;
GuessOrder : Z;
RoundsWon : Z;
TotalGuesses : Z;
CorrectGuesses : Z;
TimesDrawer : Z
}.

Definition set_Username (v : string) (r : t) : t :=
let '(mk x0 x1 x2 x3 x4 x5 x6 x7 x8 x9 x10 x11 x12 x13 x14 x15) := r in mk x0 v x2 x3 x4 x5 x6 x7 x8 x9 x10 x11 x12 x13 x14 x15.
Definition set_Avatar (v : string) (r : t) : t :=
let '(mk x0 x1 x2 x3 x4 x5 x6 x7 x8 x9 x10 x11 x12 x13 x14 x15) := r in mk x0 x1 v x3 x4 x5 x6 x7 x8 x9 x10 x11 x12 x13 x14 x15.
Definition set_Score (v : Z) (r : t) : t :=
let '(mk x0 x1 x2 x3 x4 x5 x6 x7 x8 x9 x10 x11 x12 x13 x14 x15) := r in mk x0 x1 x2 v x4 x5 x6 x7 x8 x9 x10 x11 x12 x13 x14 x15.
Definition set_IsReady (v : bool) (r : t) : t :=
let '(mk x0 x1 x2 x3 x4 x5 x6 x7 x8 x9 x10 x11 x12 x13 x14 x15) := r in mk x0 x1 x2 x3 v x5 x6 x7 x8 x9 x10 x11 x12 x13 x14 x15.
Definition set_IsConnected (v : bool) (r : t) : t :=
let '(mk x0 x1 x2 x3 x4 x5 x6 x7 x8 x9 x10 x11 x12 x13 x14 x15) := r in mk x0 x1 x2 x3 x4 v x6 x7 x8 x9 x10 x11 x12 x13 x14 x15.
Definition set_LastActivity (v : Z) (r : t) : t :=
let '(mk x0 x1 x2 x3 x4 x5 x6 x7 x8 x9 x10 x11 x12 x13 x14 x15) := r in mk x0 x1 x2 x3 x4 x5 v x7 x8 x9 x10 x11 x12 x13 x14 x15.
Definition set_GuestUser (v : bool) (r : t) : t :=
let '(mk x0 x1 x2 x3 x4 x5 x6 x7 x8 x9 x10 x11 x12 x13 x14 x15) := r in mk x0 x1 x2 x3 x4 x5 x6 x7 v x9 x10 x11 x12 x13 x14 x15.
Definition set_HasGuessedThisRound (v : bool) (r : t) : t :=
let '(mk x0 x1 x2 x3 x4 x5 x6 x7 x8 x9 x10 x11 x12 x13 x14 x15) := r in mk x0 x1 x2 x3 x4 x5 x6 x7 x8 v x10 x11 x12 x13 x14 x15.
Definition set_GuessTime (v : Z) (r : t) : t :=
let '(mk x0 x1 x2 x3 x4 x5 x6 x7 x8 x9 x10 x11 x12 x13 x14 x15) := r in mk x0 x1 x2 x3 x4 x5 x6 x7 x8 x9 v x11 x12 x13 x14 x15.
Definition set_GuessOrder (v : Z) (r : t) : t :=
let '(mk x0 x1 x2 x3 x4 x5 x6 x7 x8 x9 x10 x11 x12 x13 x14 x15) := r in mk x0 x1 x2 x3 x4 x5 x6 x7 x8 x9 x10 v x12 x13 x14 x15.
Definition set_TotalGuesses (v : Z) (r : t) : t :=
let '(mk x0 x1 x2 x3 x4 x5 x6 x7 x8 x9 x10 x11 x12 x13 x14 x15) := r in mk x0 x1 x2 x3 x4 x5 x6 x7 x8 x9 x10 x11 x12 v x14 x15.
Definition set_CorrectGuesses (v : Z) (r : t) : t :=
let '(mk x0 x1 x2 x3 x4 x5 x6 x7 x8 x9 x10 x11 x12 x13 x14 x15) := r in mk x0 x1 x2 x3 x4 x5 x6 x7 x8 x9 x10 x11 x12 x13 v x15.
Definition set_TimesDrawer (v : Z) (r : t) : t :=
let '(mk x0 x1 x2 x3 x4 x5 x6 x7 x8 x9 x10 x11 x12 x13 x14 x15) := r in mk x0 x1 x2 x3 x4 x5 x6 x7 x8 x9 x10 x11 x12 x13 x14 v.

(** [AddScore]: [u.Score += points]. *)
Definition AddScore (points : Z) (u : t) : t :=
set_Score (Go.add (Score u) points) u.

Definition SetReady (ready : bool) (u : t) : t := set_IsReady ready u.

Definition UpdateActivity (now : Z) (u : t) : t := set_LastActivity now u.

(** [RecordGuess]: the guess is counted, and marked on the user,
  whether it was correct or not. *)
Definition RecordGuess (now : Z) (correct : bool) (guessOrder : Z) (u : t) : t :=
let u := set_HasGuessedThisRound true u in
let u := set_GuessTime now u in
let u := set_TotalGuesses (Go.add (TotalGuesses u) 1) u in
if correct
then set_GuessOrder guessOrder (set_CorrectGuesses (Go.add (CorrectGuesses u) 1) u)
else u.

Definition RecordDrawerTurn (u : t) : t :=
set_TimesDrawer (Go.add (TimesDrawer u) 1) u.

Definition ResetRoundData (u : t) : t :=
set_IsReady false
  (set_GuessOrder 0 (set_GuessTime 0 (set_HasGuessedThisRound false u))).

(** [GetAccuracy]: the share of correct guesses, in percent. *)
Definition GetAccuracy (u : t) : float :=
if TotalGuesses u =? 0 then PrimFloat.zero
else PrimFloat.mul
       (PrimFloat.div (Go.float64 (CorrectGuesses u)) (Go.float64 (TotalGuesses u)))
       (Go.float64 100).

End User.

Module PublicUser.

Record t : Type := mk {
ID : string;
Username : string;
Avatar : string;
Score : Z;
IsReady : bool;
IsConnected : bool;
HasGuessedThisRound : bool;
RoundsWon : Z;
Accuracy : float
}.


End PublicUser.

(** [ToPublicUser]: the view of a user that other players receive. *)
Definition ToPublicUser (u : User.t) : PublicUser.t :=
{| PublicUser.ID := User.ID u;
   PublicUser.Username := User.Username u;
   PublicUser.Avatar := User.Avatar u;
   PublicUser.Score := User.Score u;
   PublicUser.IsReady := User.IsReady u;
   PublicUser.IsConnected := User.IsConnected u;
   PublicUser.HasGuessedThisRound := User.HasGuessedThisRound u;
   PublicUser.RoundsWon := User.RoundsWon u;
   PublicUser.Accuracy := User.GetAccuracy u |}.

(** [NewUser].  The identifier comes from [generateUserID] and is an
  input here. *)
Definition NewUser (id : string) (now : Z) (username avatar : string) : User.t :=
{| User.ID := id; User.Username := username; User.Avatar := avatar;
   User.Score := 0; User.IsReady := false; User.IsConnected := true;
   User.LastActivity := now; User.JoinedAt := now; User.GuestUser := true;
   User.HasGuessedThisRound := false; User.GuessTime := 0; User.GuessOrder := 0;
   User.RoundsWon := 0; User.TotalGuesses := 0; User.CorrectGuesses := 0;
   User.TimesDrawer := 0 |}.

(** *** [message.go] *)

Module CreateRoomData.

Record t : Type := mk {
RoomName : string;
RoomType : string;  (* public or private *)
MaxPlayers : Z;
RoundTime : Z;
MaxRounds : Z;
Difficulty : string;  (* easy, medium, hard *)
CustomWords : list string
}.


End CreateRoomData.

(** *** [room.go] *)

Inductive RoomType : Type := RoomTypePublic | RoomTypePrivate.

Inductive GameState : Type :=
GameStateLobby | GameStateStarting | GameStatePlaying | GameStateEnded.

Inductive GamePhase : Type :=
GamePhaseWaiting | GamePhaseDrawing | GamePhaseGuessing | GamePhaseResults.

#[global] Instance RoomType_eq_dec : EqDecision RoomType.
Proof. solve_decision. Defined.
#[global] Instance GameState_eq_dec : EqDecision GameState.
Proof. solve_decision. Defined.
#[global] Instance GamePhase_eq_dec : EqDecision GamePhase.
Proof. solve_decision. Defined.

Module DrawCommand.

Record t : Type := mk {
Type_ : string;  (* [Type]: start, move, end, clear *)
X : float;
Y : float;
Color : string;
Size : float;
Timestamp : Z
}.

Definition set_Timestamp (v : Z) (r : t) : t :=
let '(mk x0 x1 x2 x3 x4 x5) := r in mk x0 x1 x2 x3 x4 v.

End DrawCommand.

Module Room.

Record t : Type := mk {
ID : string;
Code : string;
Name : string;
Type_ : RoomType;  (* [Type] *)
HostID : string;
CreatedAt : Z;
LastActivity : Z;
MaxPlayers : Z;
RoundTime : Z;  (* seconds *)
MaxRounds : Z;
Difficulty : string;
CustomWords : list string;
State : GameState;
Phase : GamePhase;
CurrentRound : Z;
RoundStartTime : Z;
Players : gmap string User.t;
PlayerOrder : list string;  (* for drawer rotation *)
CurrentDrawer : string;
CurrentWord : string;
WordHint : string;
GuessedPlayers : list string;
RoundEndTime : Z;
DrawingData : list DrawCommand.t
}.

Definition set_HostID (v : string) (r : t) : t :=
let '(mk x0 x1 x2 x3 x4 x5 x6 x7 x8 x9 x10 x11 x12 x13 x14 x15 x16 x17 x18 x19 x20 x21 x22 x23) := r in mk x0 x1 x2 x3 v x5 x6 x7 x8 x9 x10 x11 x12 x13 x14 x15 x16 x17 x18 x19 x20 x21 x22 x23.
Definition set_LastActivity (v : Z) (r : t) : t :=
let '(mk x0 x1 x2 x3 x4 x5 x6 x7 x8 x9 x10 x11 x12 x13 x14 x15 x16 x17 x18 x19 x20 x21 x22 x23) := r in mk x0 x1 x2 x3 x4 x5 v x7 x8 x9 x10 x11 x12 x13 x14 x15 x16 x17 x18 x19 x20 x21 x22 x23.
Definition set_State (v : GameState) (r : t) : t :=
let '(mk x0 x1 x2 x3 x4 x5 x6 x7 x8 x9 x10 x11 x12 x13 x14 x15 x16 x17 x18 x19 x20 x21 x22 x23) := r in mk x0 x1 x2 x3 x4 x5 x6 x7 x8 x9 x10 x11 v x13 x14 x15 x16 x17 x18 x19 x20 x21 x22 x23.
Definition set_Phase (v : GamePhase) (r : t) : t :=
let '(mk x0 x1 x2 x3 x4 x5 x6 x7 x8 x9 x10 x11 x12 x13 x14 x15 x16 x17 x18 x19 x20 x21 x22 x23) := r in mk x0 x1 x2 x3 x4 x5 x6 x7 x8 x9 x10 x11 x12 v x14 x15 x16 x17 x18 x19 x20 x21 x22 x23.
Definition set_CurrentRound (v : Z) (r : t) : t :=
let '(mk x0 x1 x2 x3 x4 x5 x6 x7 x8 x9 x10 x11 x12 x13 x14 x15 x16 x17 x18 x19 x20 x21 x22 x23) := r in mk x0 x1 x2 x3 x4 x5 x6 x7 x8 x9 x10 x11 x12 x13 v x15 x16 x17 x18 x19 x20 x21 x22 x23.
Definition set_RoundStartTime (v : Z) (r : t) : t :=
let '(mk x0 x1 x2 x3 x4 x5 x6 x7 x8 x9 x10 x11 x12 x13 x14 x15 x16 x17 x18 x19 x20 x21 x22 x23) := r in mk x0 x1 x2 x3 x4 x5 x6 x7 x8 x9 x10 x11 x12 x13 x14 v x16 x17 x18 x19 x20 x21 x22 x23.
Definition set_Players (v : gmap string User.t) (r : t) : t :=
let '(mk x0 x1 x2 x3 x4 x5 x6 x7 x8 x9 x10 x11 x12 x13 x14 x15 x16 x17 x18 x19 x20 x21 x22 x23) := r in mk x0 x1 x2 x3 x4 x5 x6 x7 x8 x9 x10 x11 x12 x13 x14 x15 v x17 x18 x19 x20 x21 x22 x23.
Definition set_PlayerOrder (v : list string) (r : t) : t :=
let '(mk x0 x1 x2 x3 x4 x5 x6 x7 x8 x9 x10 x11 x12 x13 x14 x15 x16 x17 x18 x19 x20 x21 x22 x23) := r in mk x0 x1 x2 x3 x4 x5 x6 x7 x8 x9 x10 x11 x12 x13 x14 x15 x16 v x18 x19 x20 x21 x22 x23.
Definition set_CurrentDrawer (v : string) (r : t) : t :=
let '(mk x0 x1 x2 x3 x4 x5 x6 x7 x8 x9 x10 x11 x12 x13 x14 x15 x16 x17 x18 x19 x20 x21 x22 x23) := r in mk x0 x1 x2 x3 x4 x5 x6 x7 x8 x9 x10 x11 x12 x13 x14 x15 x16 x17 v x19 x20 x21 x22 x23.
Definition set_CurrentWord (v : string) (r : t) : t :=
let '(mk x0 x1 x2 x3 x4 x5 x6 x7 x8 x9 x10 x11 x12 x13 x14 x15 x16 x17 x18 x19 x20 x21 x22 x23) := r in mk x0 x1 x2 x3 x4 x5 x6 x7 x8 x9 x10 x11 x12 x13 x14 x15 x16 x17 x18 v x20 x21 x22 x23.
Definition set_WordHint (v : string) (r : t) : t :=
let '(mk x0 x1 x2 x3 x4 x5 x6 x7 x8 x9 x10 x11 x12 x13 x14 x15 x16 x17 x18 x19 x20 x21 x22 x23) := r in mk x0 x1 x2 x3 x4 x5 x6 x7 x8 x9 x10 x11 x12 x13 x14 x15 x16 x17 x18 x19 v x21 x22 x23.
Definition set_GuessedPlayers (v : list string) (r : t) : t :=
let '(mk x0 x1 x2 x3 x4 x5 x6 x7 x8 x9 x10 x11 x12 x13 x14 x15 x16 x17 x18 x19 x20 x21 x22 x23) := r in mk x0 x1 x2 x3 x4 x5 x6 x7 x8 x9 x10 x11 x12 x13 x14 x15 x16 x17 x18 x19 x20 v x22 x23.
Definition set_RoundEndTime (v : Z) (r : t) : t :=
let '(mk x0 x1 x2 x3 x4 x5 x6 x7 x8 x9 x10 x11 x12 x13 x14 x15 x16 x17 x18 x19 x20 x21 x22 x23) := r in mk x0 x1 x2 x3 x4 x5 x6 x7 x8 x9 x10 x11 x12 x13 x14 x15 x16 x17 x18 x19 x20 x21 v x23.
Definition set_DrawingData (v : list DrawCommand.t) (r : t) : t :=
let '(mk x0 x1 x2 x3 x4 x5 x6 x7 x8 x9 x10 x11 x12 x13 x14 x15 x16 x17 x18 x19 x20 x21 x22 x23) := r in mk x0 x1 x2 x3 x4 x5 x6 x7 x8 x9 x10 x11 x12 x13 x14 x15 x16 x17 x18 x19 x20 x21 x22 v.

Definition len_Players (r : t) : Z := Z.of_nat (size (Players r)).

(** [NewRoom].  The identifier and the code come from [generateRoomID]
  and [generateRoomCode]; they are inputs here. *)
Definition NewRoom (id code : string) (now : Z) (hostID : string)
  (roomType : RoomType) (roomName : string) (settings : CreateRoomData.t) : t :=
{| ID := id; Code := code; Name := roomName; Type_ := roomType;
   HostID := hostID; CreatedAt := now; LastActivity := now;
   MaxPlayers := CreateRoomData.MaxPlayers settings;
   RoundTime := CreateRoomData.RoundTime settings;
   MaxRounds := CreateRoomData.MaxRounds settings;
   Difficulty := CreateRoomData.Difficulty settings;
   CustomWords := CreateRoomData.CustomWords settings;
   State := GameStateLobby; Phase := GamePhaseWaiting; CurrentRound := 0;
   RoundStartTime := 0;
   Players := ∅; PlayerOrder := [];
   CurrentDrawer := ""; CurrentWord := ""; WordHint := "";
   GuessedPlayers := []; RoundEndTime := 0;
   DrawingData := [] |}.

(** [AddPlayer]: the room after the call and the value returned. *)
Definition AddPlayer (now : Z) (user : User.t) (r : t) : t * bool :=
if len_Players r >=? MaxPlayers r then (r, false)
else if bool_decide (is_Some (Players r !! User.ID user)) then (r, false)
else
  let r := set_Players (<[User.ID user := user]> (Players r)) r in
  let r := set_PlayerOrder (PlayerOrder r ++ [User.ID user]) r in
  (set_LastActivity now r, true).

(** The first player of [PlayerOrder] still in [Players] becomes host. *)
Definition assignNewHost (r : t) : t :=
if len_Players r =? 0 then set_HostID "" r
else
  match list_find (λ playerID, is_Some (Players r !! playerID)) (PlayerOrder r) with
  | Some (_, playerID) => set_HostID playerID r
  | None => r
  end.

Definition RemovePlayer (now : Z) (userID : string) (r : t) : t * bool :=
if bool_decide (is_Some (Players r !! userID)) then
  let r := set_Players (delete userID (Players r)) r in
  let r := set_PlayerOrder (Go.remove_first userID (PlayerOrder r)) r in
  let r := set_GuessedPlayers (Go.remove_first userID (GuessedPlayers r)) r in
  let r := if bool_decide (HostID r = userID) && (0 <? len_Players r)
           then assignNewHost r else r in
  (set_LastActivity now r, true)
else (r, false).

Definition GetPlayer (userID : string) (r : t) : option User.t :=
Players r !! userID.

Definition GetPlayerCount (r : t) : Z := len_Players r.

Definition IsFull (r : t) : bool := len_Players r >=? MaxPlayers r.

Definition CanStart (r : t) : bool :=
if negb (bool_decide (State r = GameStateLobby)) then false
else if len_Players r <? 2 then false
else bool_decide (map_Forall (λ _ player, User.IsReady player = true) (Players r)).

(** [player.ResetRoundData()] for every player of the room. *)
Definition reset_players (r : t) : t :=
set_Players (User.ResetRoundData <$> Players r) r.

Definition StartGame (now : Z) (r : t) : t :=
let r := set_State GameStatePlaying r in
let r := set_Phase GamePhaseDrawing r in
let r := set_CurrentRound 1 r in
let r := set_LastActivity now r in
let r := reset_players r in
(* Set first drawer (usually the host) *)
match PlayerOrder r with
| first :: _ => set_CurrentDrawer first r
| [] => r
end.

(** The drawer after the current one in [PlayerOrder], wrapping around;
  a current drawer that is not in [PlayerOrder] has index [-1]. *)
Definition selectNextDrawer (r : t) : t :=
match PlayerOrder r with
| [] => r
| _ =>
    let currentIndex :=
      match Go.index_of (CurrentDrawer r) (PlayerOrder r) with
      | Some i => Z.of_nat i
      | None => -1
      end in
    let nextIndex := Z.rem (currentIndex + 1) (Go.len (PlayerOrder r)) in
    match PlayerOrder r !! Z.to_nat nextIndex with
    | Some playerID => set_CurrentDrawer playerID r
    | None => r
    end
end.

Definition StartNewRound (now : Z) (word hint : string) (r : t) : t :=
let r := set_CurrentRound (Go.add (CurrentRound r) 1) r in
let r := set_Phase GamePhaseDrawing r in
let r := set_CurrentWord word r in
let r := set_WordHint hint r in
let r := set_RoundStartTime now r in
let r := set_RoundEndTime (now + Go.mul (RoundTime r) Go.Second) r in
let r := set_GuessedPlayers [] r in
let r := set_DrawingData [] r in
let r := set_LastActivity now r in
let r := reset_players r in
selectNextDrawer r.

Definition EndRound (now : Z) (r : t) : t :=
set_LastActivity now (set_Phase GamePhaseResults r).

Definition EndGame (now : Z) (r : t) : t :=
let r := set_State GameStateLobby r in
let r := set_Phase GamePhaseWaiting r in
let r := set_CurrentRound 0 r in
let r := set_CurrentDrawer "" r in
let r := set_CurrentWord "" r in
let r := set_WordHint "" r in
let r := set_GuessedPlayers [] r in
let r := set_DrawingData [] r in
let r := set_LastActivity now r in
set_Players ((λ player, User.SetReady false (User.ResetRoundData player))
               <$> Players r) r.

Definition AddGuess (now : Z) (userID : string) (r : t) : t * bool :=
if Go.contains (GuessedPlayers r) userID then (r, false)
else
  (set_LastActivity now (set_GuessedPlayers (GuessedPlayers r ++ [userID]) r),
   true).

(** [GetTimeLeft]: the whole seconds left in the round. *)
Definition GetTimeLeft (now : Z) (r : t) : Z :=
if RoundEndTime r =? 0 then 0
else
  let timeLeft := Go.Seconds (Go.Sub (RoundEndTime r) now) in
  if PrimFloat.ltb timeLeft PrimFloat.zero then 0 else Go.int timeLeft.

Definition AddDrawCommand (now : Z) (cmd : DrawCommand.t) (r : t) : t :=
set_LastActivity now
  (set_DrawingData (DrawingData r ++ [DrawCommand.set_Timestamp now cmd]) r).

Definition ClearDrawing (now : Z) (r : t) : t :=
set_LastActivity now (set_DrawingData [] r).

Definition IsActive (now timeout : Z) (r : t) : bool :=
Go.Sub now (LastActivity r) <=? timeout.

(** [for _, player := range r.Players]: the players in the order in
  which the range visits the keys. *)
Definition range_Players (range_order : gmap string User.t → list string)
  (r : t) : list User.t :=
omap (λ k, Players r !! k) (range_order (Players r)).

End Room.

Module PublicRoomInfo.

Record t : Type := mk {
ID : string;
Code : string;
Name : string;
Type_ : string;  (* [Type] *)
PlayerCount : Z;
MaxPlayers : Z;
State : GameState;
Phase : GamePhase;
CurrentRound : Z;
MaxRounds : Z;
RoundTime : Z;
Difficulty : string;
Players : list PublicUser.t;
TimeLeft : Z;
CanJoin : bool
}.

End PublicRoomInfo.

(** [GetPublicRoomInfo]: the projection of a room that carries neither
  the word nor the hint. *)
Definition GetPublicRoomInfo (range_order : gmap string User.t → list string)
  (now : Z) (r : Room.t) : PublicRoomInfo.t :=
{| PublicRoomInfo.ID := Room.ID r;
   PublicRoomInfo.Code := Room.Code r;
   PublicRoomInfo.Name := Room.Name r;
   PublicRoomInfo.Type_ :=
     match Room.Type_ r with
     | RoomTypePublic => "public"
     | RoomTypePrivate => "private"
     end;
   PublicRoomInfo.PlayerCount := Room.len_Players r;
   PublicRoomInfo.MaxPlayers := Room.MaxPlayers r;
   PublicRoomInfo.State := Room.State r;
   PublicRoomInfo.Phase := Room.Phase r;
   PublicRoomInfo.CurrentRound := Room.CurrentRound r;
   PublicRoomInfo.MaxRounds := Room.MaxRounds r;
   PublicRoomInfo.RoundTime := Room.RoundTime r;
   PublicRoomInfo.Difficulty := Room.Difficulty r;
   PublicRoomInfo.Players := ToPublicUser <$> Room.range_Players range_order r;
   PublicRoomInfo.TimeLeft := Room.GetTimeLeft now r;
   PublicRoomInfo.CanJoin :=
     bool_decide (Room.State r = GameStateLobby) && negb (Room.IsFull r) |}.






End models.

(** ** Package [utils] *)

Module utils.

(** Characters allowed in room codes (avoiding confusing characters
    like 0, O, I, 1). *)
Definition roomCodeChars : string := "ABCDEFGHIJKLMNPQRSTUVWXYZ23456789".
Definition roomCodeLength : Z := 6.

Fixpoint all_chars (P : ascii → bool) (s : string) : bool :=
  match s with
  | EmptyString => true
  | String c s' => P c && all_chars P s'
  end.

Definition ValidateRoomCode (code : string) : bool :=
  if negb (Z.of_nat (String.length code) =? roomCodeLength) then false
  else
    let code := strings.ToUpper code in
    all_chars (strings.ContainsRune roomCodeChars) code.

Definition NormalizeRoomCode (code : string) : string :=
  strings.ToUpper (strings.TrimSpace code).

(** [SanitizeInput]: the characters [<], [>], [&], the double and the
    single quote are removed, then the white space around is trimmed. *)
Definition SanitizeInput (input : string) : string :=
  let input := strings.ReplaceAll input "<" "" in
  let input := strings.ReplaceAll input ">" "" in
  let input := strings.ReplaceAll input "&" "" in
  let input := strings.ReplaceAll input (String (ascii_of_nat 34) EmptyString) "" in
  let input := strings.ReplaceAll input "'" "" in
  strings.TrimSpace input.

(** The regular expression [^[a-zA-Z0-9_]+$] of [ValidateUserName]. *)
Definition is_word_char (c : ascii) : bool :=
  let n := nat_of_ascii c in
  ((97 <=? n)%nat && (n <=? 122)%nat) || ((65 <=? n)%nat && (n <=? 90)%nat)
  || ((48 <=? n)%nat && (n <=? 57)%nat) || (n =? 95)%nat.

Definition allowed_MatchString (name : string) : bool :=
  match name with
  | EmptyString => false
  | _ => all_chars is_word_char name
  end.

Definition badWords : list string := ["admin"; "system"; "root"].

(** [ValidateUserName] validates a username. *)
Definition ValidateUserName (name : string) : bool :=
  let len := Z.of_nat (String.length name) in
  if (len <? 3) || (len >? 20) then false
  (* Check for allowed characters *)
  else if negb (allowed_MatchString name) then false
  else
    (* Check for inappropriate words (simplified) *)
    let nameLower := strings.ToLower name in
    negb (existsb (λ word, strings.Contains nameLower word) badWords).

(** [s[i]] for an [int] [i]: [None] is the panic of an index out of
    range. *)
Definition byte_at (s : string) (i : Z) : option ascii :=
  if i <? 0 then None else String.get (Z.to_nat i) s.

(** [generateTimeBasedRoomCode]: the fallback of [GenerateRoomCode],
    from [timestamp = time.Now().UnixNano()].  [%] is the remainder of
    Go, which has the sign of the dividend. *)
Definition generateTimeBasedRoomCode (timestamp : Z) : option string :=
  String.string_of_list_ascii <$>
    mapM (λ i : nat,
            byte_at roomCodeChars
              (Z.rem (Z.shiftr timestamp (Z.of_nat i * 5))
                     (Z.of_nat (String.length roomCodeChars))))
         (seq 0 (Z.to_nat roomCodeLength)).

(** [GenerateRoomCode] generates a 6-character room code.  [read i] is
    the byte that the [i]-th call of [rand.Read] delivers, [None] when
    the call fails. *)
Definition GenerateRoomCode (read : nat → option Z) (timestamp : Z) : option string :=
  match mapM read (seq 0 (Z.to_nat roomCodeLength)) with
  | None =>
      (* Fallback to time-based generation if crypto/rand fails *)
      generateTimeBasedRoomCode timestamp
  | Some randomBytes =>
      String.string_of_list_ascii <$>
        mapM (λ randomByte,
                byte_at roomCodeChars
                  (Z.rem randomByte (Z.of_nat (String.length roomCodeChars))))
             randomBytes
  end.

End utils.

(** ** Package [config] *)

Module config.

Module PointsConfig.

Record t : Type := mk {
  BaseGuessPoints : Z;
  MaxOrderBonus : Z;
  MaxDifficultyBonus : Z;
  MaxTimeBonus : Z;
  DrawerBasePoints : Z;
  DrawerBonusPerGuesser : Z
}.

End PointsConfig.

(** The [Points] section of [GetDefaultConfig]. *)
Definition DefaultPoints : PointsConfig.t :=
  {| PointsConfig.BaseGuessPoints := 100;
     PointsConfig.MaxOrderBonus := 50;
     PointsConfig.MaxDifficultyBonus := 100;
     PointsConfig.MaxTimeBonus := 25;
     PointsConfig.DrawerBasePoints := 20;
     PointsConfig.DrawerBonusPerGuesser := 15 |}.

Module ServerConfig.

Record t : Type := mk {
  Port : string;
  ReadTimeout : Z;
  WriteTimeout : Z;
  IdleTimeout : Z
}.

End ServerConfig.

Module WebSocketConfig.

Record t : Type := mk {
  ReadBufferSize : Z;
  WriteBufferSize : Z;
  MaxMessageSize : Z;
  PongWait : Z;
  PingPeriod : Z;
  WriteWait : Z
}.

End WebSocketConfig.

Module GameConfig.

Record t : Type := mk {
  MaxPlayersPerRoom : Z;
  MinPlayersToStart : Z;
  RoundDuration : Z;
  MaxRounds : Z;
  RoomCleanupInterval : Z;
  InactiveRoomTimeout : Z
}.

End GameConfig.

Module RateLimitConfig.

Record t : Type := mk {
  RequestsPerMinute : Z;
  BurstSize : Z
}.

End RateLimitConfig.

Module CORSConfig.

Record t : Type := mk {
  AllowedOrigins : list string;
  AllowedMethods : list string;
  AllowedHeaders : list string
}.

End CORSConfig.

Module WordBankConfig.

Record t : Type := mk {
  EasyWordsFile : string;
  MediumWordsFile : string;
  HardWordsFile : string
}.

End WordBankConfig.

Module Config.

Record t : Type := mk {
  Server : ServerConfig.t;
  WebSocket : WebSocketConfig.t;
  Game : GameConfig.t;
  Points : PointsConfig.t;
  RateLimit : RateLimitConfig.t;
  CORS : CORSConfig.t;
  WordBank : WordBankConfig.t
}.

Definition set_Game (g : GameConfig.t) (c : t) : t :=
  mk (Server c) (WebSocket c) g (Points c) (RateLimit c) (CORS c) (WordBank c).
Definition set_Points (p : PointsConfig.t) (c : t) : t :=
  mk (Server c) (WebSocket c) (Game c) p (RateLimit c) (CORS c) (WordBank c).

End Config.

(** [GetDefaultConfig] returns the default configuration. *)
Definition GetDefaultConfig : Config.t :=
  {| Config.Server :=
       {| ServerConfig.Port := ":8080";
          ServerConfig.ReadTimeout := 15 * Go.Second;
          ServerConfig.WriteTimeout := 15 * Go.Second;
          ServerConfig.IdleTimeout := 60 * Go.Second |};
     Config.WebSocket :=
       {| WebSocketConfig.ReadBufferSize := 1024;
          WebSocketConfig.WriteBufferSize := 1024;
          WebSocketConfig.MaxMessageSize := 512;
          WebSocketConfig.PongWait := 60 * Go.Second;
          WebSocketConfig.PingPeriod := 54 * Go.Second;
          WebSocketConfig.WriteWait := 10 * Go.Second |};
     Config.Game :=
       {| GameConfig.MaxPlayersPerRoom := 8;
          GameConfig.MinPlayersToStart := 2;
          GameConfig.RoundDuration := 60 * Go.Second;
          GameConfig.MaxRounds := 5;
          GameConfig.RoomCleanupInterval := 5 * Go.Minute;
          GameConfig.InactiveRoomTimeout := 30 * Go.Minute |};
     Config.Points := DefaultPoints;
     Config.RateLimit :=
       {| RateLimitConfig.RequestsPerMinute := 60;
          RateLimitConfig.BurstSize := 10 |};
     Config.CORS :=
       {| CORSConfig.AllowedOrigins :=
            ["http://localhost:3000"; "http://localhost:8080";
             "https://yourdomain.com"];
          CORSConfig.AllowedMethods := ["GET"; "POST"; "PUT"; "DELETE"; "OPTIONS"];
          CORSConfig.AllowedHeaders :=
            ["Origin"; "Content-Type"; "Accept"; "Authorization"] |};
     Config.WordBank :=
       {| WordBankConfig.EasyWordsFile := "data/words.json";
          WordBankConfig.MediumWordsFile := "data/words.json";
          WordBankConfig.HardWordsFile := "data/words.json" |} |}.

(** [validateConfig] validates the configuration values: the error, or
    [None] for [nil]. *)
Definition validateConfig (config : Config.t) : option string :=
  (* Validate server config *)
  if String.eqb (ServerConfig.Port (Config.Server config)) ""
  then Some "server port cannot be empty"
  (* Validate game config *)
  else if GameConfig.MaxPlayersPerRoom (Config.Game config) <? 2
  then Some "max players per room must be at least 2"
  else if GameConfig.MinPlayersToStart (Config.Game config) <? 2
  then Some "min players to start must be at least 2"
  else if GameConfig.MinPlayersToStart (Config.Game config)
          >? GameConfig.MaxPlayersPerRoom (Config.Game config)
  then Some "min players to start cannot be greater than max players per room"
  else if GameConfig.RoundDuration (Config.Game config) <=? 0
  then Some "round duration must be positive"
  else if GameConfig.MaxRounds (Config.Game config) <=? 0
  then Some "max rounds must be positive"
  (* Validate points config *)
  else if PointsConfig.BaseGuessPoints (Config.Points config) <=? 0
  then Some "base guess points must be positive"
  (* Validate WebSocket config *)
  else if WebSocketConfig.ReadBufferSize (Config.WebSocket config) <=? 0
  then Some "WebSocket read buffer size must be positive"
  else if WebSocketConfig.WriteBufferSize (Config.WebSocket config) <=? 0
  then Some "WebSocket write buffer size must be positive"
  else if WebSocketConfig.MaxMessageSize (Config.WebSocket config) <=? 0
  then Some "WebSocket max message size must be positive"
  (* Validate rate limit config *)
  else if RateLimitConfig.RequestsPerMinute (Config.RateLimit config) <=? 0
  then Some "requests per minute must be positive"
  else if RateLimitConfig.BurstSize (Config.RateLimit config) <=? 0
  then Some "burst size must be positive"
  else None.

(** The functions below read and write the global [AppConfig], a
    pointer that is [nil] at first: they take its value and return the
    new one. *)

(** [LoadConfig] loads configuration from a YAML file.  [file] is what
    [loadConfigFromFile] makes of the file, [None] when it cannot be read
    or parsed.  The result is the configuration or the error. *)
Definition LoadConfig (file : option Config.t) (AppConfig : option Config.t)
    : option Config.t * (Config.t + string) :=
  let config := match file with
                | Some config => config
                | None => GetDefaultConfig
                end in
  match validateConfig config with
  | Some err => (AppConfig, inr ("invalid configuration: " +:+ err))
  | None => (Some config, inl config)
  end.

(** [GetConfig] returns the current configuration. *)
Definition GetConfig (AppConfig : option Config.t) : option Config.t * Config.t :=
  match AppConfig with
  | None => (Some GetDefaultConfig, GetDefaultConfig)
  | Some config => (AppConfig, config)
  end.

(** [IsDevelopment] and [IsProduction]. *)
Definition IsDevelopment : bool := true.
Definition IsProduction : bool := negb IsDevelopment.

(** [GetServerAddress] returns the full server address; [None] is the
    panic of [Port[0]] on an empty string. *)
Definition GetServerAddress (AppConfig : option Config.t)
    : option Config.t * option string :=
  let '(AppConfig, config) := GetConfig AppConfig in
  let Port := ServerConfig.Port (Config.Server config) in
  (AppConfig,
   c ← utils.byte_at Port 0;
   if negb (Ascii.eqb c ":") then Some (":" +:+ Port) else Some Port).

(** [GetWebSocketURL] returns the WebSocket URL for clients. *)
Definition GetWebSocketURL (AppConfig : option Config.t) : option Config.t * string :=
  let '(AppConfig, config) := GetConfig AppConfig in
  let scheme := if IsProduction then "wss" else "ws" in
  let host := if IsProduction then "yourdomain.com" else "localhost" in
  (AppConfig,
   scheme +:+ "://" +:+ host +:+ ServerConfig.Port (Config.Server config) +:+ "/ws").

(** [UpdateGameConfig] updates game configuration at runtime; the
    second component is the error. *)
Definition UpdateGameConfig (updates : GameConfig.t) (AppConfig : option Config.t)
    : option Config.t * option string :=
  let '(AppConfig, config) := GetConfig AppConfig in
  (* Validate updates *)
  let tempConfig := Config.set_Game updates config in
  match validateConfig tempConfig with
  | Some err => (AppConfig, Some err)
  | None => (Some (Config.set_Game updates config), None)
  end.

(** [UpdatePointsConfig] updates points configuration at runtime. *)
Definition UpdatePointsConfig (updates : PointsConfig.t) (AppConfig : option Config.t)
    : option Config.t * option string :=
  let '(AppConfig, config) := GetConfig AppConfig in
  (* Validate updates *)
  let tempConfig := Config.set_Points updates config in
  match validateConfig tempConfig with
  | Some err => (AppConfig, Some err)
  | None => (Some (Config.set_Points updates config), None)
  end.

End config.

(** ** Package [websocket]: payloads, messages and the hub *)

Module websocket.

Import models.

(** *** Payloads ([models/message.go] and [websocket] messages) *)

Module ErrorData.

Record t : Type := mk {
  Message : string;
  Code : string
}.

End ErrorData.
Module ChatMessageData.

Record t : Type := mk {
  Message : string;
  Username : string;
  IsSystem : bool
}.

End ChatMessageData.
Module PointsAwardedData.

Record t : Type := mk {
  UserID : string;
  Username : string;
  Points : Z;
  TotalScore : Z;
  Reason : string
}.

End PointsAwardedData.
Module TimerData.

Record t : Type := mk {
  TimeLeft : Z;
  Phase : GamePhase
}.

End TimerData.
Module NewRoundData.

Record t : Type := mk {
  Round : Z;
  MaxRounds : Z;
  DrawerID : string;
  DrawerName : string;
  WordHint : string;
  TimeLimit : Z;
  Word : string  (* only sent to drawer; omitted from the JSON when empty *)
}.

End NewRoundData.
Module GuesserResult.

Record t : Type := mk {
  UserID : string;
  Username : string;
  Guessed : bool;
  Points : Z;
  GuessOrder : Z;
  GuessTime : Z  (* seconds from round start *)
}.

End GuesserResult.
Module RoundEndData.

Record t : Type := mk {
  Word : string;
  DrawerID : string;
  DrawerName : string;
  DrawerPoints : Z;
  Guessers : list GuesserResult.t;
  Leaderboard : list PublicUser.t;
  NextRound : Z
}.

End RoundEndData.
Module PlayerStats.

Record t : Type := mk {
  CorrectGuesses : Z;
  TotalGuesses : Z;
  Accuracy : float;
  TimesDrawer : Z;
  AveragePoints : float
}.

End PlayerStats.
Module GameStats.

Record t : Type := mk {
  TotalRounds : Z;
  TotalPlayers : Z;
  AverageScore : float;
  HighestScore : Z;
  PlayerStats : gmap string PlayerStats.t
}.

End GameStats.
Module GameEndData.

Record t : Type := mk {
  Winner : option PublicUser.t;  (* a nil pointer is [None] *)
  Leaderboard : list PublicUser.t;
  GameStats : GameStats.t
}.

End GameEndData.
Module GuessResultData.

Record t : Type := mk {
  Correct : bool;
  Word : string;  (* only if correct *)
  Points : Z;
  TotalScore : Z;
  GuessOrder : Z;
  Bonus : Z;
  TimeBonus : Z;
  OrderBonus : Z;
  RoundEnding : bool
}.

End GuessResultData.
Module LeaderboardData.

Record t : Type := mk {
  Players : list PublicUser.t;
  CurrentRound : Z;
  MaxRounds : Z
}.

End LeaderboardData.
Module PublicRoomsListData.

Record t : Type := mk {
  Rooms : list PublicRoomInfo.t;
  Total : Z
}.

End PublicRoomsListData.
Module DrawDataMessage.

Record t : Type := mk {
  Type_ : string;  (* [Type]: start, move, end, clear *)
  X : float;
  Y : float;
  Color : string;
  Size : float;
  UserID : string
}.

End DrawDataMessage.

(** The [data] of a message: what [json.Marshal] is given. *)
Inductive Data : Type :=
| DataError (d : ErrorData.t)
| DataChat (d : ChatMessageData.t)
| DataPoints (d : PointsAwardedData.t)
| DataTimer (d : TimerData.t)
| DataRoom (d : PublicRoomInfo.t)
| DataUser (d : PublicUser.t)
| DataNewRound (d : NewRoundData.t)
| DataRoundEnd (d : RoundEndData.t)
| DataGameEnd (d : GameEndData.t)
| DataGuessResult (d : GuessResultData.t)
| DataLeaderboard (d : LeaderboardData.t)
| DataPublicRooms (d : PublicRoomsListData.t)
| DataDraw (d : DrawDataMessage.t).

Module Message.

Record t : Type := mk {
  Type_ : string;  (* [Type] *)
  Data_ : Data;  (* [Data] *)
  Timestamp : Z
}.

End Message.

Definition NewMessage (now : Z) (msgType : string) (data : Data) : Message.t :=
  {| Message.Type_ := msgType; Message.Data_ := data; Message.Timestamp := now |}.

Definition NewErrorMessage (now : Z) (errorMsg code : string) : Message.t :=
  NewMessage now "error"
    (DataError {| ErrorData.Message := errorMsg; ErrorData.Code := code |}).

Definition NewChatMessage (now : Z) (username message : string) (isSystem : bool)
    : Message.t :=
  NewMessage now "chat_message"
    (DataChat {| ChatMessageData.Username := username;
                 ChatMessageData.Message := message;
                 ChatMessageData.IsSystem := isSystem |}).

Definition NewPointsMessage (now : Z) (userID username : string)
    (points totalScore : Z) (reason : string) : Message.t :=
  NewMessage now "points_awarded"
    (DataPoints {| PointsAwardedData.UserID := userID;
                   PointsAwardedData.Username := username;
                   PointsAwardedData.Points := points;
                   PointsAwardedData.TotalScore := totalScore;
                   PointsAwardedData.Reason := reason |}).

Definition NewTimerMessage (now : Z) (timeLeft : Z) (phase : GamePhase) : Message.t :=
  NewMessage now "timer"
    (DataTimer {| TimerData.TimeLeft := timeLeft; TimerData.Phase := phase |}).

Definition NewRoomCreatedMessage (now : Z) (room : PublicRoomInfo.t) : Message.t :=
  NewMessage now "room_created" (DataRoom room).

Definition NewRoomJoinedMessage (now : Z) (room : PublicRoomInfo.t) : Message.t :=
  NewMessage now "room_joined" (DataRoom room).

Definition NewPlayerJoinedMessage (now : Z) (user : PublicUser.t) : Message.t :=
  NewMessage now "player_joined" (DataUser user).

Definition NewPlayerLeftMessage (now : Z) (user : PublicUser.t) : Message.t :=
  NewMessage now "player_left" (DataUser user).

Definition NewGameStartedMessage (now : Z) (room : PublicRoomInfo.t) : Message.t :=
  NewMessage now "game_started" (DataRoom room).

Definition NewNewRoundMessage (now : Z) (data : NewRoundData.t) : Message.t :=
  NewMessage now "new_round" (DataNewRound data).

Definition NewRoundEndedMessage (now : Z) (data : RoundEndData.t) : Message.t :=
  NewMessage now "round_ended" (DataRoundEnd data).

(** [NewGameEndedMessage]: [json.Marshal] fails on a NaN or an
    infinity, which the averages can be. *)
Definition NewGameEndedMessage (now : Z) (data : GameEndData.t) : option Message.t :=
  let stats := GameEndData.GameStats data in
  if Go.not_finite (GameStats.AverageScore stats)
     || bool_decide (map_Exists (λ _ p, Go.not_finite (PlayerStats.AveragePoints p) = true
                                        ∨ Go.not_finite (PlayerStats.Accuracy p) = true)
                       (GameStats.PlayerStats stats))
  then None
  else Some (NewMessage now "game_ended" (DataGameEnd data)).

Definition NewGuessResultMessage (now : Z) (data : GuessResultData.t) : Message.t :=
  NewMessage now "guess_result" (DataGuessResult data).

Definition NewPublicRoomsListMessage (now : Z) (rooms : list PublicRoomInfo.t)
    : Message.t :=
  NewMessage now "public_rooms_list"
    (DataPublicRooms {| PublicRoomsListData.Rooms := rooms;
                        PublicRoomsListData.Total := Go.len rooms |}).

Definition NewDrawDataMessage (now : Z) (drawData : DrawDataMessage.t) : Message.t :=
  NewMessage now "draw_data" (DataDraw drawData).

Definition NewLeaderboardMessage (now : Z) (players : list PublicUser.t)
    (currentRound maxRounds : Z) : Message.t :=
  NewMessage now "leaderboard"
    (DataLeaderboard {| LeaderboardData.Players := players;
                        LeaderboardData.CurrentRound := currentRound;
                        LeaderboardData.MaxRounds := maxRounds |}).

(** *** The hub

    A client is named by the identifier of its user.  [clientsByUserID]
    holds the users with a connected client, [clientsByRoom] the
    clients of every room. *)
Module Hub.

Record t : Type := mk {
  clientsByUserID : gset string;
  clientsByRoom : gmap string (gset string)
}.

End Hub.

(** What a handler asks of the hub and of its clients, in order. *)
Inductive Effect : Type :=
| SendMessage (client : string) (m : Message.t)
    (* [client.SendMessage(m)] *)
| BroadcastToRoom (roomID : string) (m : Message.t) (exclude : option string)
    (* [hub.BroadcastToRoom(roomID, m, exclude)] *)
| BroadcastToAll (m : Message.t)
    (* [hub.BroadcastToAll(m)] *)
| GoRoundTimer (roomID : string)
    (* [go runRoundTimer(hub, roomManager, gameEngine, roomID)] *).

(** [GetClientByUserID]: the client and whether it exists (and is
    connected). *)
Definition GetClientByUserID (hub : Hub.t) (userID : string) : option string :=
  if bool_decide (userID ∈ Hub.clientsByUserID hub) then Some userID else None.

(** [broadcastToRoom]: the clients of the room, without the excluded
    one. *)
Definition room_recipients (hub : Hub.t) (roomID : string) (exclude : option string)
    : gset string :=
  let roomClients := default ∅ (Hub.clientsByRoom hub !! roomID) in
  match exclude with
  | Some c => roomClients ∖ {[c]}
  | None => roomClients
  end.

(** The clients on whose send queue an effect puts a frame. *)
Definition recipients (hub : Hub.t) (e : Effect) : gset string :=
  match e with
  | SendMessage client _ => {[client]}
  | BroadcastToRoom roomID _ exclude => room_recipients hub roomID exclude
  | BroadcastToAll _ => Hub.clientsByUserID hub
  | GoRoundTimer _ => ∅
  end.

Definition frame (e : Effect) : option Message.t :=
  match e with
  | SendMessage _ m | BroadcastToRoom _ m _ | BroadcastToAll m => Some m
  | GoRoundTimer _ => None
  end.

End websocket.

(** ** Package [services] *)

Module services.

Import models websocket.

(** *** The word bank *)

Module WordBank.

Record t : Type := mk {
  easyWords : list string;
  mediumWords : list string;
  hardWords : list string;
  usedWords : gset string
}.

(** [GetRandomWord]: the first word of the list that has not been
    used; when all have been, the used words are forgotten and the
    first word is taken. *)
Definition GetRandomWord (difficulty : string) (wb : t) : string * t :=
  let words :=
    if String.eqb difficulty "easy" then easyWords wb
    else if String.eqb difficulty "medium" then mediumWords wb
    else if String.eqb difficulty "hard" then hardWords wb
    else easyWords wb in
  match words with
  | [] => ("default", wb)
  | first :: _ =>
      match list_find (λ word, word ∉ usedWords wb) words with
      | Some (_, word) =>
          (word, mk (easyWords wb) (mediumWords wb) (hardWords wb)
                    ({[word]} ∪ usedWords wb))
      | None =>
          (first, mk (easyWords wb) (mediumWords wb) (hardWords wb) {[first]})
      end
  end.

End WordBank.

(** *** The game engine *)

Module GameEngine.

Record t : Type := mk {
  wordBank : WordBank.t;
  config : config.PointsConfig.t
}.

End GameEngine.

(** [B * (1.0 - float64(a)/float64(b))], truncated: the shape of the
    three bonuses. *)
Definition bonus (B a b : Z) : float :=
  PrimFloat.mul (Go.float64 B)
    (PrimFloat.sub PrimFloat.one (PrimFloat.div (Go.float64 a) (Go.float64 b))).

(** [CalculateGuesserPoints] calculates points for a correct guess. *)
Definition CalculateGuesserPoints (ge : GameEngine.t)
    (guessOrder totalGuessers guessTime roundDuration totalPlayers : Z)
    (difficulty : string) : Z :=
  let cfg := GameEngine.config ge in
  let points := config.PointsConfig.BaseGuessPoints cfg in
  (* Order bonus: first to guess gets more points *)
  let orderBonus :=
    bonus (config.PointsConfig.MaxOrderBonus cfg) (Go.sub guessOrder 1) totalPlayers in
  let points := Go.add points (Go.int orderBonus) in
  (* Difficulty bonus: fewer correct guesses = more points *)
  let difficultyBonus :=
    bonus (config.PointsConfig.MaxDifficultyBonus cfg) totalGuessers totalPlayers in
  let points := Go.add points (Go.int difficultyBonus) in
  (* Time bonus: faster guesses = more points *)
  let timeBonus :=
    bonus (config.PointsConfig.MaxTimeBonus cfg) guessTime roundDuration in
  let points := Go.add points (Go.int timeBonus) in
  (* Difficulty multiplier *)
  if String.eqb difficulty "medium"
  then Go.int (PrimFloat.mul (Go.float64 points) 1.25%float)
  else if String.eqb difficulty "hard"
  then Go.int (PrimFloat.mul (Go.float64 points) 1.5%float)
  else points.

(** [CalculateDrawerPoints] calculates points for the drawer. *)
Definition CalculateDrawerPoints (ge : GameEngine.t)
    (totalGuessers totalPlayers roundDuration : Z) : Z :=
  let cfg := GameEngine.config ge in
  Go.add (config.PointsConfig.DrawerBasePoints cfg)
         (Go.mul totalGuessers (config.PointsConfig.DrawerBonusPerGuesser cfg)).

Definition incorrect : GuessResultData.t :=
  {| GuessResultData.Correct := false; GuessResultData.Word := "";
     GuessResultData.Points := 0; GuessResultData.TotalScore := 0;
     GuessResultData.GuessOrder := 0; GuessResultData.Bonus := 0;
     GuessResultData.TimeBonus := 0; GuessResultData.OrderBonus := 0;
     GuessResultData.RoundEnding := false |}.

(** [user.M()] for the player [userID] of the room: the user is
    reached through [Players]. *)
Definition update_player (userID : string) (f : User.t → User.t) (room : Room.t)
    : Room.t :=
  Room.set_Players (alter f userID (Room.Players room)) room.

(** [ValidateGuess] checks if a guess is correct and calculates
    points: the room after the call and the result returned. *)
Definition ValidateGuess (ge : GameEngine.t) (now : Z) (room : Room.t)
    (userID guess : string) : Room.t * GuessResultData.t :=
  match Room.GetPlayer userID room with
  | None => (room, incorrect)
  | Some user =>
      if User.HasGuessedThisRound user || bool_decide (userID = Room.CurrentDrawer room)
      then (room, incorrect)
      else
        let guess := strings.ToLower (strings.TrimSpace guess) in
        let correctWord := strings.ToLower (strings.TrimSpace (Room.CurrentWord room)) in
        if negb (String.eqb guess correctWord)
        then (update_player userID (User.RecordGuess now false 0) room, incorrect)
        else
          (* Correct guess *)
          let guessOrder := Go.add (Go.len (Room.GuessedPlayers room)) 1 in
          let guessTime :=
            Go.int (Go.Seconds (Go.Sub now (Room.RoundStartTime room))) in
          let points :=
            CalculateGuesserPoints ge guessOrder
              (Go.add (Go.len (Room.GuessedPlayers room)) 1)
              guessTime (Room.RoundTime room) (Room.len_Players room)
              (Room.Difficulty room) in
          let room := update_player userID (User.RecordGuess now true guessOrder) room in
          let room := update_player userID (User.AddScore points) room in
          let room := (Room.AddGuess now userID room).1 in
          (* Calculate bonuses *)
          let cfg := GameEngine.config ge in
          let orderBonus :=
            Go.int (bonus (config.PointsConfig.MaxOrderBonus cfg)
                          (Go.sub guessOrder 1) (Room.len_Players room)) in
          let difficultyBonus :=
            Go.int (bonus (config.PointsConfig.MaxDifficultyBonus cfg)
                          (Go.len (Room.GuessedPlayers room)) (Room.len_Players room)) in
          let timeBonus :=
            Go.int (bonus (config.PointsConfig.MaxTimeBonus cfg)
                          guessTime (Room.RoundTime room)) in
          let roundEnding :=
            (Go.len (Room.GuessedPlayers room) =? Go.sub (Room.len_Players room) 1)
            || (Room.GetTimeLeft now room <=? 0) in
          (room,
           {| GuessResultData.Correct := true;
              GuessResultData.Word := Room.CurrentWord room;
              GuessResultData.Points := points;
              GuessResultData.TotalScore :=
                from_option User.Score 0 (Room.Players room !! userID);
              GuessResultData.GuessOrder := guessOrder;
              GuessResultData.Bonus := difficultyBonus;
              GuessResultData.TimeBonus := timeBonus;
              GuessResultData.OrderBonus := orderBonus;
              GuessResultData.RoundEnding := roundEnding |})
  end.

(** [ValidateGuess] in two parts.  The function holds no lock of its
    own: the room is locked inside [GetPlayer], [AddGuess] and
    [GetTimeLeft] only, so that another goroutine (the round timer) can
    run between two of its statements.  [ValidateGuess_begin] is the
    function down to [user.AddScore(points)]: it returns the room, and
    the result when the function has returned by then, the local
    variables [guessOrder], [guessTime] and [points] when it has not.
    [ValidateGuess_end] is the function from [room.AddGuess(userID)]
    on, in the room as it is when that statement runs. *)
Definition ValidateGuess_begin (ge : GameEngine.t) (now : Z) (room : Room.t)
    (userID guess : string) : Room.t * (GuessResultData.t + Z * Z * Z) :=
  match Room.GetPlayer userID room with
  | None => (room, inl incorrect)
  | Some user =>
      if User.HasGuessedThisRound user || bool_decide (userID = Room.CurrentDrawer room)
      then (room, inl incorrect)
      else
        let guess := strings.ToLower (strings.TrimSpace guess) in
        let correctWord := strings.ToLower (strings.TrimSpace (Room.CurrentWord room)) in
        if negb (String.eqb guess correctWord)
        then (update_player userID (User.RecordGuess now false 0) room, inl incorrect)
        else
          (* Correct guess *)
          let guessOrder := Go.add (Go.len (Room.GuessedPlayers room)) 1 in
          let guessTime :=
            Go.int (Go.Seconds (Go.Sub now (Room.RoundStartTime room))) in
          let points :=
            CalculateGuesserPoints ge guessOrder
              (Go.add (Go.len (Room.GuessedPlayers room)) 1)
              guessTime (Room.RoundTime room) (Room.len_Players room)
              (Room.Difficulty room) in
          let room := update_player userID (User.RecordGuess now true guessOrder) room in
          let room := update_player userID (User.AddScore points) room in
          (room, inr (guessOrder, guessTime, points))
  end.

Definition ValidateGuess_end (ge : GameEngine.t) (now : Z) (room : Room.t)
    (userID : string) (locals : Z * Z * Z) : Room.t * GuessResultData.t :=
  let '(guessOrder, guessTime, points) := locals in
  let room := (Room.AddGuess now userID room).1 in
  (* Calculate bonuses *)
  let cfg := GameEngine.config ge in
  let orderBonus :=
    Go.int (bonus (config.PointsConfig.MaxOrderBonus cfg)
                  (Go.sub guessOrder 1) (Room.len_Players room)) in
  let difficultyBonus :=
    Go.int (bonus (config.PointsConfig.MaxDifficultyBonus cfg)
                  (Go.len (Room.GuessedPlayers room)) (Room.len_Players room)) in
  let timeBonus :=
    Go.int (bonus (config.PointsConfig.MaxTimeBonus cfg)
                  guessTime (Room.RoundTime room)) in
  let roundEnding :=
    (Go.len (Room.GuessedPlayers room) =? Go.sub (Room.len_Players room) 1)
    || (Room.GetTimeLeft now room <=? 0) in
  (room,
   {| GuessResultData.Correct := true;
      GuessResultData.Word := Room.CurrentWord room;
      GuessResultData.Points := points;
      GuessResultData.TotalScore :=
        from_option User.Score 0 (Room.Players room !! userID);
      GuessResultData.GuessOrder := guessOrder;
      GuessResultData.Bonus := difficultyBonus;
      GuessResultData.TimeBonus := timeBonus;
      GuessResultData.OrderBonus := orderBonus;
      GuessResultData.RoundEnding := roundEnding |}).

(** [GetWordHint] creates a hint for the word. *)
Definition underscores (word : string) : string :=
  strings.Repeat "_ " (String.length word).

(** [strings.Join(strings.Split(s, ""), " ")]. *)
Fixpoint spaced (s : string) : string :=
  match s with
  | EmptyString => EmptyString
  | String c EmptyString => s
  | String c s' => String c (String " " (spaced s'))
  end.

Definition GetWordHint (word difficulty : string) : string :=
  if String.eqb difficulty "easy" then underscores word
  else if String.eqb difficulty "medium" then
    if (String.length word <=? 2)%nat then underscores word
    else
      spaced (String.string_of_list_ascii
        ((λ i, if (i =? 0)%nat || (i =? String.length word - 1)%nat
               then strings.index word i else "_"%char)
           <$> seq 0 (String.length word)))
  else if String.eqb difficulty "hard" then
    (* Simple category-based hints *)
    if strings.Contains word "cat" || strings.Contains word "dog"
       || strings.Contains word "bird"
    then "Animal" else "Object"
  else underscores word.

(** [GetRandomWord] selects a random word and hint. *)
Definition GetRandomWord (difficulty : string) (ge : GameEngine.t)
    : string * string * GameEngine.t :=
  let '(word, wb) := WordBank.GetRandomWord difficulty (GameEngine.wordBank ge) in
  (word, GetWordHint word difficulty, GameEngine.mk wb (GameEngine.config ge)).

(** *** The room manager

    A [*Room] is an index into [store], the rooms allocated so far;
    [rooms] and [roomByCode] hold such pointers, so that a room reached
    by its code and by its identifier is one object. *)

Module RoomManager.

Record t : Type := mk {
  store : list Room.t;
  rooms : gmap string nat;
  roomByCode : gmap string nat
}.

Definition NewRoomManager : t := mk [] ∅ ∅.

(** [CreateRoom] creates a new room; [id] and [code] are what
    [NewRoom] generates. *)
Definition CreateRoom (id code : string) (now : Z) (hostID : string)
    (roomType : RoomType) (roomName : string) (settings : CreateRoomData.t)
    (rm : t) : t * nat :=
  let room := Room.NewRoom id code now hostID roomType roomName settings in
  let p := length (store rm) in
  (mk (store rm ++ [room])
      (<[Room.ID room := p]> (rooms rm))
      (<[Room.Code room := p]> (roomByCode rm)),
   p).


(** [GetRoom] returns a room by ID. *)
Definition GetRoom (roomID : string) (rm : t) : option nat := rooms rm !! roomID.

(** [GetRoomByCode] returns a room by its code. *)
Definition GetRoomByCode (code : string) (rm : t) : option nat :=
  roomByCode rm !! code.

(** The room a pointer points to. *)
Definition deref (rm : t) (p : nat) : option Room.t := store rm !! p.

Definition assign (p : nat) (room : Room.t) (rm : t) : t :=
  mk (<[p := room]> (store rm)) (rooms rm) (roomByCode rm).

(** [JoinRoom] adds a player to a room. *)
Definition JoinRoom (now : Z) (roomID userID : string) (user : User.t) (rm : t)
    : t * bool :=
  match GetRoom roomID rm with
  | None => (rm, false)
  | Some p =>
      match deref rm p with
      | None => (rm, false)
      | Some room =>
          if Room.IsFull room then (rm, false)
          else
            let '(room, ok) := Room.AddPlayer now user room in
            (assign p room rm, ok)
      end
  end.

(** [LeaveRoom] removes a player from a room; an empty room leaves
    both indexes. *)
Definition LeaveRoom (now : Z) (roomID userID : string) (rm : t) : t * bool :=
  match GetRoom roomID rm with
  | None => (rm, false)
  | Some p =>
      match deref rm p with
      | None => (rm, false)
      | Some room =>
          let '(room, removed) := Room.RemovePlayer now userID room in
          let rm := assign p room rm in
          if removed then
            if Room.GetPlayerCount room =? 0
            then (mk (store rm) (delete roomID (rooms rm))
                     (delete (Room.Code room) (roomByCode rm)), true)
            else (rm, true)
          else (rm, false)
      end
  end.

(** [IsRoomFull] checks if a room is full. *)
Definition IsRoomFull (roomID : string) (rm : t) : bool :=
  match GetRoom roomID rm ≫= deref rm with
  | None => true
  | Some room => Room.IsFull room
  end.

(** The rooms of the registry: those [rooms] points to. *)
Definition live_rooms (rm : t) : list Room.t :=
  omap (λ kp, deref rm kp.2) (map_to_list (rooms rm)).


(** [GetPublicRooms] returns all public rooms (that are active).
    [range_rooms] is the order in which Go ranges over [rm.rooms], and
    [timeout] is [rm.config.Game.InactiveRoomTimeout]. *)
Definition GetPublicRooms (range_rooms : gmap string nat → list string)
    (range_order : gmap string User.t → list string) (now timeout : Z) (rm : t)
    : list PublicRoomInfo.t :=
  omap (λ roomID,
          room ← rooms rm !! roomID ≫= deref rm;
          if bool_decide (Room.Type_ room = RoomTypePublic)
             && Room.IsActive now timeout room
          then Some (GetPublicRoomInfo range_order now room) else None)
       (range_rooms (rooms rm)).

(** [cleanupInactiveRooms] removes rooms that have been inactive for
    too long: one turn of the loop over [rm.rooms], and the loop. *)
Definition cleanup_room (now timeout : Z) (rm : t) (roomID : string) : t :=
  match rooms rm !! roomID ≫= deref rm with
  | None => rm
  | Some room =>
      if negb (Room.IsActive now timeout room)
      then mk (store rm) (delete roomID (rooms rm))
              (delete (Room.Code room) (roomByCode rm))
      else rm
  end.

Definition cleanupInactiveRooms (range_rooms : gmap string nat → list string)
    (now timeout : Z) (rm : t) : t :=
  foldl (cleanup_room now timeout) rm (range_rooms (rooms rm)).

End RoomManager.

End services.

(** ** Package [handlers]: the game handlers *)

Module handlers.

Import models websocket services.

(** What a handler reads from outside the state: the clock, and the
    order in which a [range] over a map of players visits the keys. *)
Module Env.

Record t : Type := mk {
  now : Z;
  range_order : gmap string User.t → list string
}.

End Env.

(** The state after a handler with the effects in order; [Panic] is a
    nil dereference (the effects are those before it); [OutOfFuel]
    bounds the mutual calls of [HandleRoundEnd] and [HandleNewRound]. *)
Inductive Outcome (S : Type) : Type :=
| Done (s : S) (effects : list Effect)
| Panic (effects : list Effect)
| OutOfFuel.

Arguments Done {S} s effects.
Arguments Panic {S} effects.
Arguments OutOfFuel {S}.

(** The effects [es], then the handler [o]. *)
Definition emit {S} (es : list Effect) (o : Outcome S) : Outcome S :=
  match o with
  | Done s es' => Done s (es ++ es')
  | Panic es' => Panic (es ++ es')
  | OutOfFuel => OutOfFuel
  end.

Definition effects_of {S} (o : Outcome S) : list Effect :=
  match o with
  | Done _ es | Panic es => es
  | OutOfFuel => []
  end.

(** [sort.Slice(data, less)], as the insertion sort that Go runs on a
    slice of at most 12 elements: every element in turn moves left
    while it is [less] than its left neighbour.  [sorted_rev] is the
    sorted prefix, last element first. *)
Fixpoint insert_left {A} (less : A → A → bool) (x : A) (sorted_rev : list A) : list A :=
  match sorted_rev with
  | [] => [x]
  | y :: rest => if less x y then y :: insert_left less x rest else x :: y :: rest
  end.

Definition sort_Slice {A} (less : A → A → bool) (data : list A) : list A :=
  reverse (foldl (λ sorted_rev x, insert_left less x sorted_rev) [] data).

(** [getLeaderboard] generates leaderboard from room players. *)
Definition getLeaderboard (env : Env.t) (room : Room.t) : list PublicUser.t :=
  let players := ToPublicUser <$> Room.range_Players (Env.range_order env) room in
  (* Sort by score descending *)
  sort_Slice (λ pi pj, PublicUser.Score pi >? PublicUser.Score pj) players.

Definition State : Type := Room.t * GameEngine.t.

(** [HandleGameEnd] ends the game. *)
Definition game_stats_step (room : Room.t)
    (acc : Z * Z * option PublicUser.t * gmap string PlayerStats.t) (player : User.t)
    : Z * Z * option PublicUser.t * gmap string PlayerStats.t :=
  let '(totalScore, highestScore, winner, playerStats) := acc in
  let totalScore := Go.add totalScore (User.Score player) in
  let '(highestScore, winner) :=
    if User.Score player >? highestScore
    then (User.Score player, Some (ToPublicUser player))
    else (highestScore, winner) in
  (totalScore, highestScore, winner,
   <[User.ID player :=
       {| PlayerStats.CorrectGuesses := User.CorrectGuesses player;
          PlayerStats.TotalGuesses := User.TotalGuesses player;
          PlayerStats.Accuracy := User.GetAccuracy player;
          PlayerStats.TimesDrawer := User.TimesDrawer player;
          PlayerStats.AveragePoints :=
            PrimFloat.div (Go.float64 (User.Score player))
                          (Go.float64 (Room.CurrentRound room)) |}]> playerStats).

Definition game_end_data (env : Env.t) (room : Room.t) : GameEndData.t :=
  let leaderboard := getLeaderboard env room in
  let '(totalScore, highestScore, winner, playerStats) :=
    foldl (game_stats_step room) (0, 0, None, ∅)
          (Room.range_Players (Env.range_order env) room) in
  {| GameEndData.Winner := winner;
     GameEndData.Leaderboard := leaderboard;
     GameEndData.GameStats :=
       {| GameStats.TotalRounds := Room.CurrentRound room;
          GameStats.TotalPlayers := Room.len_Players room;
          GameStats.AverageScore :=
            PrimFloat.div (Go.float64 totalScore) (Go.float64 (Room.len_Players room));
          GameStats.HighestScore := highestScore;
          GameStats.PlayerStats := playerStats |} |}.

Definition HandleGameEnd (env : Env.t) (hub : Hub.t) (room : Room.t)
    (ge : GameEngine.t) : Outcome State :=
  let now := Env.now env in
  (* Calculate game statistics *)
  let gameEndData := game_end_data env room in
  let room := Room.EndGame now room in
  (* Send game end message *)
  match NewGameEndedMessage now gameEndData with
  | None => Done (room, ge) []
  | Some msg => Done (room, ge) [BroadcastToRoom (Room.ID room) msg None]
  end.

(** The entry of [round_ended] for a player who guessed. *)
Definition guesser_result (ge : GameEngine.t) (room : Room.t) (player : User.t)
    : GuesserResult.t :=
  let guessTime :=
    Go.int (Go.Seconds (Go.Sub (User.GuessTime player) (Room.RoundStartTime room))) in
  let points :=
    if User.GuessOrder player >? 0
    then CalculateGuesserPoints ge (User.GuessOrder player)
           (Go.len (Room.GuessedPlayers room)) guessTime
           (Room.RoundTime room) (Room.len_Players room) (Room.Difficulty room)
    else 0 in
  {| GuesserResult.UserID := User.ID player;
     GuesserResult.Username := User.Username player;
     GuesserResult.Guessed := true;
     GuesserResult.Points := points;
     GuesserResult.GuessOrder := User.GuessOrder player;
     GuesserResult.GuessTime := guessTime |}.

Definition non_guesser_result (player : User.t) : GuesserResult.t :=
  {| GuesserResult.UserID := User.ID player;
     GuesserResult.Username := User.Username player;
     GuesserResult.Guessed := false;
     GuesserResult.Points := 0;
     GuesserResult.GuessOrder := 0;
     GuesserResult.GuessTime := 0 |}.

Definition round_guessers (env : Env.t) (ge : GameEngine.t) (room : Room.t)
    : list GuesserResult.t :=
  (* the players who guessed, in the order of their guesses *)
  (guesser_result ge room <$>
     omap (λ userID, Room.GetPlayer userID room) (Room.GuessedPlayers room))
  (* Include non-guessers *)
  ++ omap (λ userID,
             player ← Room.Players room !! userID;
             if negb (Go.contains (Room.GuessedPlayers room) userID)
                && negb (bool_decide (userID = Room.CurrentDrawer room))
             then Some (non_guesser_result player) else None)
          (Env.range_order env (Room.Players room)).

(** [HandleNewRound] starts a new round; [roundEnd] is [HandleRoundEnd]. *)
Definition HandleNewRound_with (roundEnd : Room.t → GameEngine.t → Outcome State)
    (env : Env.t) (hub : Hub.t) (room : Room.t) (ge : GameEngine.t) : Outcome State :=
  let now := Env.now env in
  let '(word, hint, ge) := GetRandomWord (Room.Difficulty room) ge in
  let room := Room.StartNewRound now word hint room in
  match Room.GetPlayer (Room.CurrentDrawer room) room with
  | None => roundEnd room ge
  | Some drawer =>
      (* Send new round message to drawer (with actual word) *)
      let drawerData :=
        {| NewRoundData.Round := Room.CurrentRound room;
           NewRoundData.MaxRounds := Room.MaxRounds room;
           NewRoundData.DrawerID := Room.CurrentDrawer room;
           NewRoundData.DrawerName := User.Username drawer;
           NewRoundData.WordHint := Room.WordHint room;
           NewRoundData.TimeLimit := Room.RoundTime room;
           NewRoundData.Word := Room.CurrentWord room |} in
      let drawerMsg := NewNewRoundMessage now drawerData in
      let toDrawer :=
        match GetClientByUserID hub (Room.CurrentDrawer room) with
        | Some client => [SendMessage client drawerMsg]
        | None => []
        end in
      (* Send new round message to others (with hint only) *)
      let othersData :=
        {| NewRoundData.Round := Room.CurrentRound room;
           NewRoundData.MaxRounds := Room.MaxRounds room;
           NewRoundData.DrawerID := Room.CurrentDrawer room;
           NewRoundData.DrawerName := User.Username drawer;
           NewRoundData.WordHint := Room.WordHint room;
           NewRoundData.TimeLimit := Room.RoundTime room;
           NewRoundData.Word := "" |} in
      let othersMsg := NewNewRoundMessage now othersData in
      let excludeClient := GetClientByUserID hub (Room.CurrentDrawer room) in
      Done (room, ge)
        (toDrawer
         ++ [BroadcastToRoom (Room.ID room) othersMsg excludeClient;
             (* Start timer *)
             GoRoundTimer (Room.ID room)])
  end.

(** [HandleRoundEnd] ends the current round. *)
Fixpoint HandleRoundEnd (fuel : nat) (env : Env.t) (hub : Hub.t) (room : Room.t)
    (ge : GameEngine.t) : Outcome State :=
  match fuel with
  | O => OutOfFuel
  | S fuel =>
      let now := Env.now env in
      (* Award drawer points *)
      let drawerPoints :=
        CalculateDrawerPoints ge (Go.len (Room.GuessedPlayers room))
          (Room.len_Players room) (Room.RoundTime room) in
      let room :=
        update_player (Room.CurrentDrawer room)
          (λ drawer, User.RecordDrawerTurn (User.AddScore drawerPoints drawer)) room in
      (* Prepare round end data *)
      let guessers := round_guessers env ge room in
      match Room.GetPlayer (Room.CurrentDrawer room) room with
      | None => Panic []  (* [drawer.Username] with a nil [drawer] *)
      | Some drawer =>
          let lastRound := Room.CurrentRound room >=? Room.MaxRounds room in
          let roundEndData :=
            {| RoundEndData.Word := Room.CurrentWord room;
               RoundEndData.DrawerID := Room.CurrentDrawer room;
               RoundEndData.DrawerName := User.Username drawer;
               RoundEndData.DrawerPoints := drawerPoints;
               RoundEndData.Guessers := guessers;
               RoundEndData.Leaderboard := getLeaderboard env room;
               RoundEndData.NextRound :=
                 (* Check if this is the last round *)
                 if lastRound then 0 (* Indicate game is ending *)
                 else Go.add (Room.CurrentRound room) 1 |} in
          let room := Room.EndRound now room in
          let room := Room.EndRound now room in  (* [gameEngine.EndRound(room)] *)
          (* Send round end message *)
          emit [BroadcastToRoom (Room.ID room) (NewRoundEndedMessage now roundEndData) None]
            (* Check if game should end *)
            (if lastRound
             then HandleGameEnd env hub room ge
             else HandleNewRound_with (HandleRoundEnd fuel env hub) env hub room ge)
      end
  end.

Definition HandleNewRound (fuel : nat) (env : Env.t) (hub : Hub.t) (room : Room.t)
    (ge : GameEngine.t) : Outcome State :=
  HandleNewRound_with (HandleRoundEnd fuel env hub) env hub room ge.

(** [HandleGameStart] starts a new game. *)
Definition HandleGameStart (fuel : nat) (env : Env.t) (hub : Hub.t) (room : Room.t)
    (ge : GameEngine.t) : Outcome State :=
  let now := Env.now env in
  let room := Room.StartGame now room in
  let room := Room.StartGame now room in  (* [gameEngine.StartGame(room)] *)
  (* Notify players *)
  let roomInfo := GetPublicRoomInfo (Env.range_order env) now room in
  emit [BroadcastToRoom (Room.ID room) (NewGameStartedMessage now roomInfo) None]
    (* Start first round *)
    (HandleNewRound fuel env hub room ge).

(** ** Package [handlers]: the websocket handlers

    A handler is given the decoded data of the message and, where the
    source starts with
    [roomID := client.GetRoomID(); room := roomManager.GetRoom(roomID)],
    the room found ([in_room] is that lookup). *)

Module Client.

Record t : Type := mk {
  user : User.t;
  roomID : string
}.

End Client.

(** The client as a recipient: clients are named by their user. *)
Definition client_id (client : Client.t) : string := User.ID (Client.user client).

(** [client.GetUser()]: once the client has joined the room, the
    object the room holds under the user's identifier. *)
Definition GetUser (client : Client.t) (room : Room.t) : User.t :=
  default (Client.user client) (Room.Players room !! client_id client).

Definition sendClientError (now : Z) (client : Client.t) (message code : string)
    : Effect :=
  SendMessage (client_id client) (NewErrorMessage now message code).

(** [client.SendSystemMessage(message)]. *)
Definition SendSystemMessage (now : Z) (client : Client.t) (message : string) : Effect :=
  SendMessage (client_id client) (NewChatMessage now "System" message true).

(** What [handleConnect] writes into the user of the client.  The user
    is the object that the rooms the client has joined hold: there it
    is [update_player (client_id client) (connect_user ...)]. *)
Definition connect_user (now : Z) (username avatar : string) (user : User.t) : User.t :=
  User.UpdateActivity now
    (User.set_GuestUser false (User.set_Avatar avatar (User.set_Username username user))).

(** [handleConnect] processes a connection message. *)
Definition handleConnect (env : Env.t) (client : Client.t) (username avatar : string)
    : Outcome Client.t :=
  let now := Env.now env in
  (* Validate and sanitize username *)
  if negb (utils.ValidateUserName username)
  then Done client [sendClientError now client "Invalid username" "INVALID_USERNAME"]
  else
    let username := utils.SanitizeInput username in
    (* Update user information *)
    let client :=
      Client.mk (connect_user now username avatar (Client.user client))
                (Client.roomID client) in
    Done client [SendSystemMessage now client "Successfully connected to the server"].

(** [handleStartGame] processes game start request. *)
Definition handleStartGame (fuel : nat) (env : Env.t) (hub : Hub.t) (room : Room.t)
    (ge : GameEngine.t) (client : Client.t) : Outcome State :=
  let now := Env.now env in
  if negb (bool_decide (Room.HostID room = client_id client))
  then Done (room, ge) [sendClientError now client "Only host can start game" "NOT_HOST"]
  else if negb (Room.CanStart room)
  then Done (room, ge)
         [sendClientError now client "Not enough players or not all ready" "CANNOT_START"]
  else HandleGameStart fuel env hub room ge.

(** [handleDrawStart], [handleDrawMove], [handleDrawEnd]: the command
    is logged and relayed to the other clients of the room. *)
Definition handleDraw (env : Env.t) (room : Room.t) (ge : GameEngine.t)
    (client : Client.t) (cmd : DrawCommand.t) : Outcome State :=
  let now := Env.now env in
  if negb (bool_decide (Room.CurrentDrawer room = client_id client))
  then Done (room, ge) [sendClientError now client "Not your turn to draw" "NOT_DRAWER"]
  else
    let room := Room.AddDrawCommand now cmd room in
    let drawMsg :=
      NewDrawDataMessage now
        {| DrawDataMessage.Type_ := DrawCommand.Type_ cmd;
           DrawDataMessage.X := DrawCommand.X cmd;
           DrawDataMessage.Y := DrawCommand.Y cmd;
           DrawDataMessage.Color := DrawCommand.Color cmd;
           DrawDataMessage.Size := DrawCommand.Size cmd;
           DrawDataMessage.UserID := client_id client |} in
    Done (room, ge) [BroadcastToRoom (Room.ID room) drawMsg (Some (client_id client))].

Definition handleDrawStart (env : Env.t) (room : Room.t) (ge : GameEngine.t)
    (client : Client.t) (x y : float) (color : string) (size : float) : Outcome State :=
  handleDraw env room ge client (DrawCommand.mk "start" x y color size 0).

Definition handleDrawMove (env : Env.t) (room : Room.t) (ge : GameEngine.t)
    (client : Client.t) (x y : float) : Outcome State :=
  handleDraw env room ge client (DrawCommand.mk "move" x y "" PrimFloat.zero 0).

Definition handleDrawEnd (env : Env.t) (room : Room.t) (ge : GameEngine.t)
    (client : Client.t) (x y : float) : Outcome State :=
  handleDraw env room ge client (DrawCommand.mk "end" x y "" PrimFloat.zero 0).

(** [handleSendGuess] processes a player's guess. *)
Definition handleSendGuess (fuel : nat) (env : Env.t) (hub : Hub.t) (room : Room.t)
    (ge : GameEngine.t) (client : Client.t) (guess : string) : Outcome State :=
  let now := Env.now env in
  if negb (bool_decide (Room.State room = GameStatePlaying))
     || negb (bool_decide (Room.Phase room = GamePhaseDrawing))
  then Done (room, ge) [sendClientError now client "Game not in progress" "INVALID_STATE"]
  else
    let guess := utils.SanitizeInput guess in
    (* Broadcast guess as chat message *)
    let chatMsg := NewChatMessage now (User.Username (GetUser client room)) guess false in
    (* Validate guess *)
    let '(room, result) := ValidateGuess ge now room (client_id client) guess in
    emit [BroadcastToRoom (Room.ID room) chatMsg None]
      (if negb (GuessResultData.Correct result) then Done (room, ge) []
       else
         (* Send guess result to player *)
         let resultMsg := NewGuessResultMessage now result in
         (* Broadcast points awarded *)
         let pointsMsg :=
           NewPointsMessage now (client_id client) (User.Username (GetUser client room))
             (GuessResultData.Points result) (User.Score (GetUser client room))
             "Correct guess" in
         (* Update leaderboard *)
         let leaderboardMsg :=
           NewLeaderboardMessage now (getLeaderboard env room)
             (Room.CurrentRound room) (Room.MaxRounds room) in
         emit [SendMessage (client_id client) resultMsg;
               BroadcastToRoom (Room.ID room) pointsMsg None;
               BroadcastToRoom (Room.ID room) leaderboardMsg None]
           (* Check if round should end *)
           (if GuessResultData.RoundEnding result
            then HandleRoundEnd fuel env hub room ge
            else Done (room, ge) [])).

(** One tick of [runRoundTimer]: the time left is broadcast, and the
    round ends when none is. *)
Definition roundTimerTick (fuel : nat) (env : Env.t) (hub : Hub.t) (room : Room.t)
    (ge : GameEngine.t) : Outcome State :=
  let now := Env.now env in
  let timeLeft := Room.GetTimeLeft now room in
  emit [BroadcastToRoom (Room.ID room) (NewTimerMessage now timeLeft (Room.Phase room)) None]
    (if timeLeft <=? 0 then HandleRoundEnd fuel env hub room ge
     else Done (room, ge) []).

(** The lookup that starts the handlers above. *)
Definition in_room (env : Env.t) (rm : RoomManager.t) (ge : GameEngine.t)
    (client : Client.t) (handler : Room.t → Outcome State)
    : Outcome (RoomManager.t * GameEngine.t) :=
  let now := Env.now env in
  if String.eqb (Client.roomID client) ""
  then Done (rm, ge) [sendClientError now client "Not in a room" "NOT_IN_ROOM"]
  else
    match RoomManager.GetRoom (Client.roomID client) rm with
    | None => Done (rm, ge) [sendClientError now client "Room not found" "ROOM_NOT_FOUND"]
    | Some p =>
        match RoomManager.deref rm p with
        | None => Done (rm, ge) [sendClientError now client "Room not found" "ROOM_NOT_FOUND"]
        | Some room =>
            match handler room with
            | Done (room, ge) es => Done (RoomManager.assign p room rm, ge) es
            | Panic es => Panic es
            | OutOfFuel => OutOfFuel
            end
        end
    end.

(** [AddClientToRoom]: the client enters the room's set and records
    the room. *)
Definition AddClientToRoom (hub : Hub.t) (client : Client.t) (roomID : string)
    : Hub.t * Client.t :=
  (Hub.mk (Hub.clientsByUserID hub)
          (<[roomID := {[client_id client]} ∪ default ∅ (Hub.clientsByRoom hub !! roomID)]>
             (Hub.clientsByRoom hub)),
   Client.mk (Client.user client) roomID).

(** [handleJoinRoom] processes joining a room. *)
Definition handleJoinRoom (env : Env.t) (hub : Hub.t) (rm : RoomManager.t)
    (client : Client.t) (roomCode : string)
    : Outcome (Hub.t * RoomManager.t * Client.t) :=
  let now := Env.now env in
  (* Validate room code *)
  let roomCode := utils.NormalizeRoomCode roomCode in
  if negb (utils.ValidateRoomCode roomCode)
  then Done (hub, rm, client) [sendClientError now client "Invalid room code" "INVALID_ROOM_CODE"]
  else
    (* Find room by code *)
    match RoomManager.GetRoomByCode roomCode rm ≫= RoomManager.deref rm with
    | None => Done (hub, rm, client) [sendClientError now client "Room not found" "ROOM_NOT_FOUND"]
    | Some room =>
        (* Join room *)
        let '(rm', joined) :=
          RoomManager.JoinRoom now (Room.ID room) (client_id client)
            (Client.user client) rm in
        if negb joined
        then Done (hub, rm', client)
               [sendClientError now client "Failed to join room" "JOIN_FAILED"]
        else
          (* Update client *)
          let '(hub, client) := AddClientToRoom hub client (Room.ID room) in
          (* Send room joined message to client *)
          let roomInfo :=
            from_option (GetPublicRoomInfo (Env.range_order env) now)
              (GetPublicRoomInfo (Env.range_order env) now room)
              (RoomManager.GetRoomByCode roomCode rm' ≫= RoomManager.deref rm') in
          (* Notify other players *)
          Done (hub, rm', client)
            [SendMessage (client_id client) (NewRoomJoinedMessage now roomInfo);
             BroadcastToRoom (Room.ID room)
               (NewPlayerJoinedMessage now (ToPublicUser (Client.user client)))
               (Some (client_id client))]
    end.

End handlers.

(** * The vocabulary of the properties

    What the operations leave alone, the points of the specification in
    exact arithmetic, how the frames that a handler emits are read, the
    rooms that can be reached, and a game on which the code is run. *)

Import models websocket services handlers.

(** ** What an operation leaves alone *)

(** What [EndGame] does to a player: the ready flag and the data of the
    round are cleared, everything accumulated stays. *)
Definition carried_over (u u' : User.t) : Prop :=
  (User.Score u' = User.Score u
   ∧ User.CorrectGuesses u' = User.CorrectGuesses u
   ∧ User.TotalGuesses u' = User.TotalGuesses u
   ∧ User.TimesDrawer u' = User.TimesDrawer u
   ∧ User.RoundsWon u' = User.RoundsWon u)
  ∧ (User.ID u' = User.ID u ∧ User.Username u' = User.Username u
     ∧ User.Avatar u' = User.Avatar u ∧ User.IsConnected u' = User.IsConnected u
     ∧ User.LastActivity u' = User.LastActivity u
     ∧ User.JoinedAt u' = User.JoinedAt u ∧ User.GuestUser u' = User.GuestUser u)
  ∧ (User.IsReady u' = false ∧ User.HasGuessedThisRound u' = false
     ∧ User.GuessTime u' = 0 ∧ User.GuessOrder u' = 0).

(** The room of a finished handler satisfies [P]. *)
Definition leaves (P : Room.t → Prop) (o : Outcome State) : Prop :=
  match o with
  | Done (room, _) _ => P room
  | _ => True
  end.

(** The room after the drawer was paid and the round closed. *)
Definition round_closed (now : Z) (ge : GameEngine.t) (room : Room.t) : Room.t :=
  Room.EndRound now
    (Room.EndRound now
       (update_player (Room.CurrentDrawer room)
          (λ drawer,
             User.RecordDrawerTurn
               (User.AddScore
                  (CalculateDrawerPoints ge (Go.len (Room.GuessedPlayers room))
                     (Room.len_Players room) (Room.RoundTime room))
                  drawer))
          room)).

(** The capacity and the number of players are those of [room]. *)
Definition same_seats (room room' : Room.t) : Prop :=
  Room.MaxPlayers room' = Room.MaxPlayers room
  ∧ Room.len_Players room' = Room.len_Players room.

(** [len(r.Players) <= r.MaxPlayers]. *)
Definition seats_respected (room : Room.t) : Prop :=
  Room.len_Players room ≤ Room.MaxPlayers room.

(** The room is full, or the user is one of its players. *)
Definition join_refused (user : User.t) (room : Room.t) : Prop :=
  Room.MaxPlayers room ≤ Room.len_Players room
  ∨ is_Some (Room.Players room !! User.ID user).

(** No duplicates, not the drawer, and nobody outside a game. *)
Definition guessed_ok (room : Room.t) : Prop :=
  NoDup (Room.GuessedPlayers room)
  ∧ (Room.CurrentDrawer room ∉ Room.GuessedPlayers room)
  ∧ (Room.State room ≠ GameStatePlaying → Room.GuessedPlayers room = []).

(** The fields [guessed_ok] reads are those of [room]. *)
Definition same_guessed (room room' : Room.t) : Prop :=
  Room.GuessedPlayers room' = Room.GuessedPlayers room
  ∧ Room.CurrentDrawer room' = Room.CurrentDrawer room
  ∧ Room.State room' = Room.State room.

(** ** Scoring in exact arithmetic *)

(** The points of the specification, in exact arithmetic:
    [floor (B × (1 − a / b))] is [B × (b − a)] divided by [b], the
    multiplier is ×1, ×1.25 or ×1.5, floored. *)
Definition spec_bonus (B a b : Z) : Z := (B * (b - a)) `div` b.

Definition spec_multiplied (difficulty : string) (subtotal : Z) : Z :=
  if String.eqb difficulty "medium" then (5 * subtotal) `div` 4
  else if String.eqb difficulty "hard" then (3 * subtotal) `div` 2
  else subtotal.

Definition spec_points (cfg : config.PointsConfig.t)
    (guess_order total_correct_guessers guess_seconds round_time_seconds
     total_players : Z) (difficulty : string) : Z :=
  spec_multiplied difficulty
    (config.PointsConfig.BaseGuessPoints cfg
     + spec_bonus (config.PointsConfig.MaxOrderBonus cfg) (guess_order - 1) total_players
     + spec_bonus (config.PointsConfig.MaxDifficultyBonus cfg)
         total_correct_guessers total_players
     + spec_bonus (config.PointsConfig.MaxTimeBonus cfg)
         guess_seconds round_time_seconds).

(** A bonus as the code computes it, in [float64] and truncated, against
    the exact one: equal, or one less when the exact bonus is a whole
    number that the rounding of the division undershoots. *)
Definition near_floor (B a b x : Z) : Prop :=
  x = spec_bonus B a b
  ∨ (x = spec_bonus B a b - 1 ∧ (B * (b - a)) `mod` b = 0).

#[local] Instance near_floor_dec B a b x : Decision (near_floor B a b x).
Proof. unfold near_floor. apply _. Defined.

(** The bonuses [B × (1 − a / b)] for [1 ≤ b ≤ bmax] and [0 ≤ a ≤ b],
    computed one by one. *)
Definition bonus_table (B bmax : Z) : Prop :=
  Forall (λ b, Forall (λ a, near_floor B a b (Go.int (bonus B a b)))
                      (seqZ 0 (b + 1)))
         (seqZ 1 bmax).

(** ** Reading the frames of a handler *)

(** The frames with the client that receives each. *)
Definition delivered (hub : Hub.t) (es : list Effect) : list (string * Message.t) :=
  e ← es;
  m ← option_list (frame e);
  (λ client, (client, m)) <$> elements (recipients hub e).

Definition new_round_of (m : Message.t) : option NewRoundData.t :=
  match Message.Data_ m with
  | DataNewRound d => Some d
  | _ => None
  end.

Definition chat_of (m : Message.t) : option ChatMessageData.t :=
  match Message.Data_ m with
  | DataChat d => Some d
  | _ => None
  end.

Definition award_of (m : Message.t) : option (string * Z) :=
  match Message.Data_ m with
  | DataPoints d => Some (PointsAwardedData.UserID d, PointsAwardedData.Points d)
  | _ => None
  end.

Definition round_end_of (m : Message.t) : option RoundEndData.t :=
  match Message.Data_ m with
  | DataRoundEnd d => Some d
  | _ => None
  end.

Definition game_end_of (m : Message.t) : option GameEndData.t :=
  match Message.Data_ m with
  | DataGameEnd d => Some d
  | _ => None
  end.

(** The payloads of one kind among the effects. *)
Definition payloads {A} (read : Message.t → option A) (es : list Effect) : list A :=
  omap (λ e, frame e ≫= read) es.

(** The scores of the given players. *)
Definition scores (ids : list string) (room : Room.t) : list (option Z) :=
  (λ id, User.Score <$> Room.Players room !! id) <$> ids.

Definition user_strings (u : PublicUser.t) : list string :=
  [PublicUser.ID u; PublicUser.Username u; PublicUser.Avatar u].

Definition room_strings (r : PublicRoomInfo.t) : list string :=
  [PublicRoomInfo.ID r; PublicRoomInfo.Code r; PublicRoomInfo.Name r;
   PublicRoomInfo.Type_ r; PublicRoomInfo.Difficulty r]
  ++ (PublicRoomInfo.Players r ≫= user_strings).

(** The strings of a payload. *)
Definition data_strings (d : Data) : list string :=
  match d with
  | DataError d => [ErrorData.Message d; ErrorData.Code d]
  | DataChat d => [ChatMessageData.Message d; ChatMessageData.Username d]
  | DataPoints d =>
      [PointsAwardedData.UserID d; PointsAwardedData.Username d;
       PointsAwardedData.Reason d]
  | DataTimer _ => []
  | DataRoom d => room_strings d
  | DataUser d => user_strings d
  | DataNewRound d =>
      [NewRoundData.DrawerID d; NewRoundData.DrawerName d; NewRoundData.WordHint d;
       NewRoundData.Word d]
  | DataRoundEnd d =>
      [RoundEndData.Word d; RoundEndData.DrawerID d; RoundEndData.DrawerName d]
      ++ (RoundEndData.Guessers d
            ≫= λ g, [GuesserResult.UserID g; GuesserResult.Username g])
      ++ (RoundEndData.Leaderboard d ≫= user_strings)
  | DataGameEnd d =>
      from_option user_strings [] (GameEndData.Winner d)
      ++ (GameEndData.Leaderboard d ≫= user_strings)
      ++ (map_to_list (GameStats.PlayerStats (GameEndData.GameStats d))).*1
  | DataGuessResult d => [GuessResultData.Word d]
  | DataLeaderboard d => LeaderboardData.Players d ≫= user_strings
  | DataPublicRooms d => PublicRoomsListData.Rooms d ≫= room_strings
  | DataDraw d =>
      [DrawDataMessage.Type_ d; DrawDataMessage.Color d; DrawDataMessage.UserID d]
  end.

(** The payload of the frame contains the word. *)
Definition mentions (word : string) (m : Message.t) : bool :=
  existsb (λ s, strings.Contains s word) (data_strings (Message.Data_ m)).

(** ** Leaderboard and winner *)

(** The comparison of [getLeaderboard]: a greater key comes first. *)
Definition by_key_desc {A} (key : A → Z) (a b : A) : bool := key a >? key b.

(** The loop of [HandleGameEnd] over the players seen so far: the
    highest score starts at 0, and a player becomes the winner on a
    strictly higher score only. *)
Definition winner_so_far (seen : list User.t)
    (acc : Z * Z * option PublicUser.t * gmap string PlayerStats.t) : Prop :=
  let '(_, highestScore, winner, _) := acc in
  (∀ player, player ∈ seen → User.Score player ≤ highestScore)
  ∧ match winner with
    | Some w =>
        0 < highestScore
        ∧ ∃ player, player ∈ seen ∧ w = ToPublicUser player
                    ∧ User.Score player = highestScore
    | None => highestScore = 0
    end.

(** ** The rooms that can be reached

    One transition per message that changes a room, and one for the
    tick of the round timer; a handler that panics leaves no room.  A
    joining user is any user (in the source no message makes a guest
    ready, and no game would start).  A transition is a whole run of a
    handler: the rooms reached are those of a server that handles one
    message or tick at a time. *)

Inductive step : Room.t → Room.t → Prop :=
| step_join now user room :
    (* [RoomManager.JoinRoom], from [handleJoinRoom], [handleCreateRoom] and
       [AutoJoinPublicRoom] *)
    step room (Room.AddPlayer now user room).1
| step_leave now userID room :
    (* [RoomManager.LeaveRoom], from [handleLeaveRoom] *)
    step room (Room.RemovePlayer now userID room).1
| step_start fuel env hub ge client room room' ge' es :
    handleStartGame fuel env hub room ge client = Done (room', ge') es →
    step room room'
| step_draw env ge client cmd room room' ge' es :
    handleDraw env room ge client cmd = Done (room', ge') es →
    step room room'
| step_guess fuel env hub ge client guess room room' ge' es :
    handleSendGuess fuel env hub room ge client guess = Done (room', ge') es →
    step room room'
| step_tick fuel env hub ge room room' ge' es :
    roundTimerTick fuel env hub room ge = Done (room', ge') es →
    step room room'
| step_user userID f room :
    (* the players of a room are pointers to the users of the clients: the
       record changes under [handleConnect], and in the handlers of another
       room that the user joined as well *)
    step room (update_player userID f room).

(** The rooms reached from a room just created. *)
Definition reachable (room : Room.t) : Prop :=
  ∃ id code now hostID roomType roomName settings,
    rtc step (Room.NewRoom id code now hostID roomType roomName settings) room.

(** ** A game to run the code on

    Five guests with the default configuration.  The rooms are those the
    code itself produces: created, joined, started, guessed in. *)

Module Scenario.

Definition engine : GameEngine.t :=
GameEngine.mk (WordBank.mk ["cat"; "house"; "tree"] ["rocket"] ["violin"] ∅)
              config.DefaultPoints.

(** A guest who joined at second [t] and is ready. *)
Definition guest (id name : string) (t : Z) : User.t :=
User.SetReady true (NewUser id (t * Go.Second) name "*").

Definition alice := guest "alice" "Alice" 1.
Definition bob := guest "bob" "Bob" 2.
Definition carol := guest "carol" "Carol" 3.
Definition dave := guest "dave" "Dave" 4.
Definition erin := guest "erin" "Erin" 5.

Definition client (u : User.t) : Client.t := Client.mk u "room_1".

Definition settings (maxPlayers maxRounds : Z) : CreateRoomData.t :=
CreateRoomData.mk "Doodle" "public" maxPlayers 60 maxRounds "easy" [].

(** The room after the users joined, in this order. *)
Definition lobby (maxPlayers maxRounds : Z) (users : list User.t) : Room.t :=
foldl (λ room u, (Room.AddPlayer (User.JoinedAt u) u room).1)
      (Room.NewRoom "room_1" "ABCDEF" 0 "alice" RoomTypePublic "Doodle"
         (settings maxPlayers maxRounds))
      users.

(** Go may visit the keys of a map in any order: in alphabetical order
  here, or in the reverse. *)
Definition ascending (m : gmap string User.t) : list string :=
merge_sort (λ a b, bool_decide (String.leb a b = true)) (map_to_list m).*1.
Definition descending (m : gmap string User.t) : list string :=
reverse (ascending m).

(** Second [t] of the clock. *)
Definition at_second (t : Z) : Env.t := Env.mk (t * Go.Second) ascending.

Definition hub (users : list User.t) : Hub.t :=
Hub.mk (list_to_set (User.ID <$> users))
       {["room_1" := list_to_set (User.ID <$> users)]}.

Definition state_of (o : Outcome State) (otherwise : State) : State :=
match o with
| Done s _ => s
| _ => otherwise
end.

(** The host starts the game at second 100. *)
Definition start (users : list User.t) (maxRounds : Z) : Outcome State :=
handleStartGame 2 (at_second 100) (hub users) (lobby 8 maxRounds users) engine
  (client alice).

Definition started (users : list User.t) (maxRounds : Z) : State :=
state_of (start users maxRounds) (lobby 8 maxRounds users, engine).

(** The user sends a guess at second 110. *)
Definition guess (users : list User.t) (s : State) (u : User.t) (text : string)
  : Outcome State :=
handleSendGuess 2 (at_second 110) (hub users) s.1 s.2 (client u) text.

Definition guessed (users : list User.t) (s : State) (u : User.t) (text : string)
  : State :=
state_of (guess users s u text) s.

Definition three := [alice; bob; carol].
Definition five := [alice; bob; carol; dave; erin].

End Scenario.

(** A room for two, created by Alice and joined by Bob. *)
Definition full_house : RoomManager.t :=
  let rm := (RoomManager.CreateRoom "room_1" "ABCDEF" 0 "alice" RoomTypePublic "Doodle"
               (Scenario.settings 2 3) RoomManager.NewRoomManager).1 in
  let rm := (RoomManager.JoinRoom (1 * Go.Second) "room_1" "alice" Scenario.alice rm).1 in
  (RoomManager.JoinRoom (2 * Go.Second) "room_1" "bob" Scenario.bob rm).1.


(** ** The registry that can be reached

    The operations of the room manager as the handlers, the timer and
    the cleanup routine call them, from the registry of
    [NewRoomManager].  A handler writes into a room through its pointer:
    the room keeps its identifier and its code, which no function of the
    source assigns after [NewRoom]. *)






(** ** One user in two rooms

    A client that joins a second room is added to it with the [*User]
    that the first room holds ([client.GetUser()]): the two rooms have
    one object, and what a handler of one room writes into it shows in
    the other.  [shared userID from to] is the room [to] once the user
    has been written in the room [from]. *)

Definition shared (userID : string) (from to : Room.t) : Room.t :=
  match Room.Players from !! userID with
  | Some user => update_player userID (λ _, user) to
  | None => to
  end.

(** The timer of a round ticks every second from the start of the
    round: the tick that finds no whole second left comes 59 seconds
    and a moment after the start of a round of 60.  [after_second t] is
    a millisecond after second [t]. *)
Definition after_second (t : Z) : Env.t :=
  Env.mk (t * Go.Second + 1000000) Scenario.ascending.

(** Dave's room is in play with Erin since second 50 when Alice joins
    it, at second 60; she then creates a room of her own, which Bob and
    Carol join, and starts it at second 100.  The game engine is the one
    of the server. *)
Module TwoRooms.

Import Scenario.

Definition hub : Hub.t :=
Hub.mk (list_to_set (User.ID <$> five))
       {["room_1" := list_to_set ["alice"; "bob"; "carol"];
         "room_2" := list_to_set ["dave"; "erin"; "alice"]]}.

Definition join (room : Room.t) (at_ : Z * User.t) : Room.t :=
(Room.AddPlayer (at_.1 * Go.Second) at_.2 room).1.

Definition dave_starts : State :=
let lobby2 :=
  foldl join
    (Room.NewRoom "room_2" "GHJKLM" (40 * Go.Second) "dave" RoomTypePublic "Sketch"
       (settings 8 3))
    [(40, dave); (41, erin)] in
state_of (handleStartGame 2 (at_second 50) hub lobby2 engine (Client.mk dave "room_2"))
         (lobby2, engine).

Definition alice_starts : State * Room.t :=
let room2 := join dave_starts.1 (60, alice) in
let lobby1 :=
  foldl join
    (Room.NewRoom "room_1" "ABCDEF" (70 * Go.Second) "alice" RoomTypePublic "Doodle"
       (settings 8 3))
    [(70, alice); (72, bob); (73, carol)] in
let s1 := state_of (handleStartGame 2 (at_second 100) hub lobby1 dave_starts.2
                      (client alice))
                   (lobby1, dave_starts.2) in
(s1, shared "alice" s1.1 room2).

(** Alice sends the word of her room at second 105. *)
Definition first_guess : Outcome State :=
handleSendGuess 2 (at_second 105) hub alice_starts.1.1 alice_starts.1.2 (client alice)
  "house".

Definition after_first_guess : State * Room.t :=
let s1 := state_of first_guess alice_starts.1 in
(s1, shared "alice" s1.1 alice_starts.2).

(** The timer of Dave's room, whose round began at second 50, ends the
    round after second 109 and starts the next one. *)
Definition tick_of_room2 : Outcome State :=
roundTimerTick 2 (after_second 109) hub after_first_guess.2 after_first_guess.1.2.

Definition after_tick : State :=
let s2 := state_of tick_of_room2 (after_first_guess.2, after_first_guess.1.2) in
(shared "alice" s2.1 after_first_guess.1.1, s2.2).

(** Alice sends the word again at second 115. *)
Definition second_guess : Outcome State :=
handleSendGuess 2 (at_second 115) hub after_tick.1 after_tick.2 (client alice) "house".

End TwoRooms.

(** ** A guess overtaken by the timer

    In the game of three, Bob draws from second 100.  Carol sends the
    word at second 159: [ValidateGuess] has recorded the guess and added
    the points when, a millisecond later, the timer of the room finds no
    second left, ends the round and starts the next one; then
    [ValidateGuess] goes on with [room.AddGuess]. *)
Module Overtaken.

Import Scenario.

Definition begun : Room.t * (GuessResultData.t + Z * Z * Z) :=
let s0 := started three 3 in
ValidateGuess_begin s0.2 (159 * Go.Second) s0.1 "carol" "cat".

Definition tick : Outcome State :=
roundTimerTick 2 (after_second 159) (hub three) begun.1 (started three 3).2.

Definition ended : Room.t * GuessResultData.t :=
let s := state_of tick (begun.1, (started three 3).2) in
match begun.2 with
| inr locals =>
    ValidateGuess_end s.2 (Env.now (after_second 159)) s.1 "carol" locals
| inl result => (s.1, result)
end.

End Overtaken.
(** ** Strings *)

(** The string without the character [c]. *)
Fixpoint without (c : ascii) (s : string) : string :=
  match s with
  | EmptyString => EmptyString
  | String d s' => if Ascii.eqb d c then without c s' else String d (without c s')
  end.

(** The characters that [SanitizeInput] removes: [<], [>], [&], the
    double and the single quote. *)
Definition dangerous : list ascii :=
  ["<"%char; ">"%char; "&"%char; ascii_of_nat 34; "'"%char].

(** The string neither begins nor ends with white space. *)
Definition trimmed (s : string) : Prop :=
  (∀ c rest, s = String c rest → strings.is_space c = false)
  ∧ (∀ rest c, s = rest +:+ String c EmptyString → strings.is_space c = false).

(** A character of the alphabet of room codes. *)
Definition code_char (c : ascii) : bool := strings.ContainsRune utils.roomCodeChars c.

(** Six characters of the alphabet of room codes. *)
Definition well_formed_code (code : string) : Prop :=
  String.length code = 6%nat ∧ utils.all_chars code_char code = true.

(** ** Words *)

(** The list that [GetRandomWord] draws from: an unknown difficulty
    draws from the easy words. *)
Definition words_for (difficulty : string) (wb : WordBank.t) : list string :=
  if String.eqb difficulty "medium" then WordBank.mediumWords wb
  else if String.eqb difficulty "hard" then WordBank.hardWords wb
  else WordBank.easyWords wb.

(** ** Rooms *)

(** Everything of the room but the players, the players who guessed
    and the time of the last activity is the same. *)
Definition same_round (room room' : Room.t) : Prop :=
  Room.ID room' = Room.ID room ∧ Room.Code room' = Room.Code room
  ∧ Room.Name room' = Room.Name room ∧ Room.Type_ room' = Room.Type_ room
  ∧ Room.HostID room' = Room.HostID room ∧ Room.CreatedAt room' = Room.CreatedAt room
  ∧ Room.MaxPlayers room' = Room.MaxPlayers room
  ∧ Room.RoundTime room' = Room.RoundTime room
  ∧ Room.MaxRounds room' = Room.MaxRounds room
  ∧ Room.Difficulty room' = Room.Difficulty room
  ∧ Room.CustomWords room' = Room.CustomWords room
  ∧ Room.State room' = Room.State room ∧ Room.Phase room' = Room.Phase room
  ∧ Room.CurrentRound room' = Room.CurrentRound room
  ∧ Room.RoundStartTime room' = Room.RoundStartTime room
  ∧ Room.RoundEndTime room' = Room.RoundEndTime room
  ∧ Room.PlayerOrder room' = Room.PlayerOrder room
  ∧ Room.CurrentDrawer room' = Room.CurrentDrawer room
  ∧ Room.CurrentWord room' = Room.CurrentWord room
  ∧ Room.WordHint room' = Room.WordHint room
  ∧ Room.DrawingData room' = Room.DrawingData room.

(** ** Scoring *)

(** The bonuses [B × (1 − a / b)] for [1 ≤ b ≤ bmax], as the code
    computes them: from [a] to [a + 1] the bonus does not grow, and it
    stays between 0 and [B]. *)
Definition bonus_decreasing (B bmax : Z) : Prop :=
  Forall (λ b, Forall (λ a, Go.int (bonus B (a + 1) b) ≤ Go.int (bonus B a b)
                            ∧ 0 ≤ Go.int (bonus B (a + 1) b)
                            ∧ Go.int (bonus B a b) ≤ B)
                      (seqZ 0 b))
         (seqZ 1 bmax).

(** What a player has accumulated: score, turns as drawer, correct
    guesses, guesses. *)
Definition accumulated (u : User.t) : Z * Z * Z * Z :=
  (User.Score u, User.TimesDrawer u, User.CorrectGuesses u, User.TotalGuesses u).

(** [PlayerOrder] lists the players of the room, each once. *)
Definition players_in_order (room : Room.t) : Prop :=
  NoDup (Room.PlayerOrder room)
  ∧ ∀ id, id ∈ Room.PlayerOrder room ↔ is_Some (Room.Players room !! id).

(** The same players, in the same order. *)
Definition same_players (room room' : Room.t) : Prop :=
  Room.PlayerOrder room' = Room.PlayerOrder room
  ∧ ∀ id, is_Some (Room.Players room' !! id) ↔ is_Some (Room.Players room !! id).

(** No player of the room is ready. *)
Definition nobody_ready (room : Room.t) : Prop :=
  ∀ id user, Room.Players room !! id = Some user → User.IsReady user = false.

(** No player has the identifier of the current drawer. *)
Definition drawer_missing (room : Room.t) : Prop :=
  Room.Players room !! Room.CurrentDrawer room = None.

(** ** The registry of rooms *)

(** The room registered under the identifier, when it has been
    inactive for longer than the timeout. *)
Definition stale (now timeout : Z) (rm : RoomManager.t) (roomID : string)
    : option Room.t :=
  room ← RoomManager.GetRoom roomID rm ≫= RoomManager.deref rm;
  if Room.IsActive now timeout room then None else Some room.


(** The keys of the registry, in the order of the map. *)
Definition registered (m : gmap string nat) : list string := (map_to_list m).*1.

(** ** The configuration *)

(** The calls of the package that read or write the global [AppConfig]. *)
Inductive config_call : Type :=
| call_LoadConfig (file : option config.Config.t)
| call_GetConfig
| call_GetServerAddress
| call_GetWebSocketURL
| call_UpdateGameConfig (updates : config.GameConfig.t)
| call_UpdatePointsConfig (updates : config.PointsConfig.t).

(** [AppConfig] after a call. *)
Definition after_call (AppConfig : option config.Config.t) (c : config_call)
    : option config.Config.t :=
  match c with
  | call_LoadConfig file => (config.LoadConfig file AppConfig).1
  | call_GetConfig => (config.GetConfig AppConfig).1
  | call_GetServerAddress => (config.GetServerAddress AppConfig).1
  | call_GetWebSocketURL => (config.GetWebSocketURL AppConfig).1
  | call_UpdateGameConfig updates => (config.UpdateGameConfig updates AppConfig).1
  | call_UpdatePointsConfig updates => (config.UpdatePointsConfig updates AppConfig).1
  end.

(** [AppConfig] after a sequence of calls in a program that starts. *)
Definition after_calls (calls : list config_call) : option config.Config.t :=
  foldl after_call None calls.
(** * Properties *)

(** ** The runtime *)

Lemma wrap_small z : - 2 ^ 63 ≤ z < 2 ^ 63 → Go.wrap z = z.
Proof.
  intros Hz. unfold Go.wrap.
  rewrite Z.mod_small by lia. lia.
Qed.

Lemma len_nonneg {A} (l : list A) : 0 ≤ Go.len l.
Proof. unfold Go.len. lia. Qed.

Lemma contains_true l v : Go.contains l v = true ↔ v ∈ l.
Proof. unfold Go.contains. apply bool_decide_eq_true. Qed.

Lemma contains_false l v : Go.contains l v = false ↔ v ∉ l.
Proof. unfold Go.contains. apply bool_decide_eq_false. Qed.

Lemma remove_first_elem_of v l x : x ∈ Go.remove_first v l → x ∈ l.
Proof.
  induction l as [|y l IH]; simpl; [done|].
  destruct (decide (y = v)) as [->|Hne]; intros Hx.
  - by right.
  - apply elem_of_cons in Hx as [->|Hx]; [left | right; by apply IH].
Qed.

Lemma remove_first_sublist v l : sublist (Go.remove_first v l) l.
Proof.
  induction l as [|x l IH]; simpl; [constructor|].
  destruct (decide (x = v)); [by apply sublist_cons | by apply sublist_skip].
Qed.

Lemma remove_first_NoDup v l : NoDup l → NoDup (Go.remove_first v l).
Proof. intros H. eapply sublist_NoDup; [done | apply remove_first_sublist]. Qed.

(** ** Fields that the room operations leave alone *)

Lemma ResetRoundData_frame u :
  let u' := User.ResetRoundData u in
  User.ID u' = User.ID u ∧ User.Username u' = User.Username u
  ∧ User.Avatar u' = User.Avatar u ∧ User.Score u' = User.Score u
  ∧ User.IsConnected u' = User.IsConnected u
  ∧ User.LastActivity u' = User.LastActivity u
  ∧ User.JoinedAt u' = User.JoinedAt u ∧ User.GuestUser u' = User.GuestUser u
  ∧ User.RoundsWon u' = User.RoundsWon u
  ∧ User.TotalGuesses u' = User.TotalGuesses u
  ∧ User.CorrectGuesses u' = User.CorrectGuesses u
  ∧ User.TimesDrawer u' = User.TimesDrawer u.
Proof. by destruct u. Qed.

Lemma ResetRoundData_flags u :
  let u' := User.ResetRoundData u in
  User.IsReady u' = false ∧ User.HasGuessedThisRound u' = false
  ∧ User.GuessTime u' = 0 ∧ User.GuessOrder u' = 0.
Proof. by destruct u. Qed.

(** ** Ending a game (C10) *)

(** C10.  [EndGame] resets the game-progress fields of the room (state,
    phase, current round, drawer, word, hint, guessed players, drawing
    log) and, for each player, the ready flag and the per-round data;
    the score, the correct and total guesses and the drawer turns of
    every player are unchanged, as are the players themselves, their
    order, the host, the identity and the settings of the room (the
    activity time stamp is set to the current time). *)
Theorem EndGame_resets_progress_only (now : Z) (room : Room.t) :
  let room' := Room.EndGame now room in
  (Room.State room' = GameStateLobby ∧ Room.Phase room' = GamePhaseWaiting
   ∧ Room.CurrentRound room' = 0 ∧ Room.CurrentDrawer room' = ""
   ∧ Room.CurrentWord room' = "" ∧ Room.WordHint room' = ""
   ∧ Room.GuessedPlayers room' = [] ∧ Room.DrawingData room' = [])
  ∧ (Room.ID room' = Room.ID room ∧ Room.Code room' = Room.Code room
     ∧ Room.Name room' = Room.Name room ∧ Room.Type_ room' = Room.Type_ room
     ∧ Room.HostID room' = Room.HostID room
     ∧ Room.CreatedAt room' = Room.CreatedAt room
     ∧ Room.MaxPlayers room' = Room.MaxPlayers room
     ∧ Room.RoundTime room' = Room.RoundTime room
     ∧ Room.MaxRounds room' = Room.MaxRounds room
     ∧ Room.Difficulty room' = Room.Difficulty room
     ∧ Room.CustomWords room' = Room.CustomWords room
     ∧ Room.PlayerOrder room' = Room.PlayerOrder room
     ∧ Room.RoundStartTime room' = Room.RoundStartTime room
     ∧ Room.RoundEndTime room' = Room.RoundEndTime room
     ∧ Room.LastActivity room' = now)
  ∧ ∀ userID,
      option_Forall2 carried_over
        (Room.Players room !! userID) (Room.Players room' !! userID).
Proof.
  destruct room; cbn.
  split; [done|]. split; [done|].
  intros userID. rewrite lookup_fmap.
  destruct (Players !! userID) as [u|]; cbn; constructor.
  by destruct u.
Qed.

(** ** Guessing twice (C6) *)

Lemma AddGuess_Players now userID room :
  Room.Players (Room.AddGuess now userID room).1 = Room.Players room.
Proof. unfold Room.AddGuess. destruct (Go.contains _ _); by destruct room. Qed.

Lemma AddGuess_CurrentDrawer now userID room :
  Room.CurrentDrawer (Room.AddGuess now userID room).1 = Room.CurrentDrawer room.
Proof. unfold Room.AddGuess. destruct (Go.contains _ _); by destruct room. Qed.

Lemma AddGuess_elem_of now userID room :
  userID ∈ Room.GuessedPlayers (Room.AddGuess now userID room).1.
Proof.
  unfold Room.AddGuess. destruct (Go.contains _ _) eqn:E.
  - by apply contains_true in E.
  - destruct room; cbn. apply elem_of_app. right. by left.
Qed.

Lemma update_player_lookup userID f room :
  Room.Players (update_player userID f room) !! userID
  = f <$> Room.Players room !! userID.
Proof. destruct room; cbn. apply lookup_alter_eq. Qed.

Lemma update_player_GuessedPlayers userID f room :
  Room.GuessedPlayers (update_player userID f room) = Room.GuessedPlayers room.
Proof. by destruct room. Qed.

Lemma update_player_CurrentDrawer userID f room :
  Room.CurrentDrawer (update_player userID f room) = Room.CurrentDrawer room.
Proof. by destruct room. Qed.

(** The case analysis of [ValidateGuess] on a correct result. *)
Lemma ValidateGuess_correct ge now room userID guess :
  GuessResultData.Correct (ValidateGuess ge now room userID guess).2 = true →
  ∃ user,
    Room.Players room !! userID = Some user
    ∧ User.HasGuessedThisRound user = false
    ∧ userID ≠ Room.CurrentDrawer room
    ∧ ∃ points guessOrder,
        GuessResultData.Points (ValidateGuess ge now room userID guess).2 = points
        ∧ (ValidateGuess ge now room userID guess).1
          = (Room.AddGuess now userID
               (update_player userID (User.AddScore points)
                  (update_player userID (User.RecordGuess now true guessOrder) room))).1.
Proof.
  unfold ValidateGuess, Room.GetPlayer.
  destruct (Room.Players room !! userID) as [user|] eqn:Hu; [|done].
  destruct (User.HasGuessedThisRound user) eqn:Hg; [done|]. cbn [orb].
  destruct (bool_decide _) eqn:Hd; [done|].
  apply bool_decide_eq_false in Hd.
  destruct (negb _); [done|]. cbn [fst snd GuessResultData.Correct GuessResultData.Points].
  intros _. exists user. do 3 (split; [done|]). eauto.
Qed.

Lemma ValidateGuess_already_guessed ge now room userID guess user :
  Room.Players room !! userID = Some user →
  User.HasGuessedThisRound user = true →
  ValidateGuess ge now room userID guess = (room, incorrect).
Proof.
  intros Hu Hg. unfold ValidateGuess, Room.GetPlayer. by rewrite Hu, Hg.
Qed.

(** The guard of [ValidateGuess].  In the room that a correct guess
    leaves (the points were added to the score once and the player
    entered [guessed_players]), a guess of that player is answered as
    incorrect and changes nothing: whatever the text, [ValidateGuess]
    returns the room as it was, and [handleSendGuess] emits a single
    frame (the chat line, or the error when no round is being drawn) and
    no award.  The guard reads [HasGuessedThisRound] of the user, which
    stands until [ResetRoundData]. *)
Lemma second_correct_guess_awards_nothing
    (ge : GameEngine.t) (now : Z) (room : Room.t) (userID guess : string) :
  GuessResultData.Correct (ValidateGuess ge now room userID guess).2 = true →
  let room' := (ValidateGuess ge now room userID guess).1 in
  let points := GuessResultData.Points (ValidateGuess ge now room userID guess).2 in
  (User.Score <$> Room.Players room' !! userID
   = (λ u, Go.add (User.Score u) points) <$> Room.Players room !! userID
   ∧ userID ∈ Room.GuessedPlayers room')
  ∧ (∀ ge' now' guess',
       ValidateGuess ge' now' room' userID guess' = (room', incorrect))
  ∧ (∀ fuel env hub ge' client guess',
       client_id client = userID →
       handleSendGuess fuel env hub room' ge' client guess'
       = Done (room', ge')
           [if negb (bool_decide (Room.State room' = GameStatePlaying))
               || negb (bool_decide (Room.Phase room' = GamePhaseDrawing))
            then sendClientError (Env.now env) client "Game not in progress" "INVALID_STATE"
            else BroadcastToRoom (Room.ID room')
                   (NewChatMessage (Env.now env) (User.Username (GetUser client room'))
                      (utils.SanitizeInput guess') false) None]).
Proof.
  intros Hc room' points.
  destruct (ValidateGuess_correct _ _ _ _ _ Hc)
    as (user & Hu & Hg & Hd & pts & order & Hpts & Hroom).
  subst room' points. rewrite Hpts, Hroom. clear Hpts Hroom Hc.
  set (room1 := update_player userID _ (update_player userID _ room)).
  assert (Hu' : Room.Players (Room.AddGuess now userID room1).1 !! userID
                = Some (User.AddScore pts (User.RecordGuess now true order user))).
  { rewrite AddGuess_Players. unfold room1.
    by rewrite !update_player_lookup, Hu. }
  assert (Hagain : ∀ ge' now' guess',
             ValidateGuess ge' now' (Room.AddGuess now userID room1).1 userID guess'
             = ((Room.AddGuess now userID room1).1, incorrect)).
  { intros. eapply ValidateGuess_already_guessed; [exact Hu'|]. by destruct user. }
  split; [|split].
  - split; [|apply AddGuess_elem_of].
    rewrite Hu', Hu. by destruct user.
  - exact Hagain.
  - intros fuel env hub ge' client guess' Hid.
    unfold handleSendGuess.
    destruct (negb (bool_decide (Room.State _ = _)) || _); [done|].
    rewrite Hid, Hagain. done.
Qed.

(** C6 fails on the code: a correct guess is awarded twice in one round.
    Alice is a player of two rooms, with one user object.  In her room
    she sends the word at second 105 and is awarded 238 points.  After
    second 109 the timer of the other room starts its next round, and
    [StartNewRound] resets the round data of the players of that room,
    Alice among them.  Her room is where it was (round 2, word "house",
    Alice in [guessed_players]) but for her [HasGuessedThisRound]; she
    sends the word again at second 115 and is awarded 184 points more:
    [AddGuess] answers false, which [ValidateGuess] does not read. *)
Lemma correct_guess_awarded_twice :
  let room := TwoRooms.alice_starts.1.1 in
  let first := ValidateGuess TwoRooms.alice_starts.1.2 (105 * Go.Second) room "alice" "house" in
  let room' := TwoRooms.after_tick.1 in
  let second := ValidateGuess TwoRooms.after_tick.2 (115 * Go.Second) room' "alice" "house" in
  let score := λ r : Room.t, User.Score <$> Room.Players r !! "alice" in
  (score room = Some 0
   ∧ GuessResultData.Correct first.2 = true ∧ GuessResultData.Points first.2 = 238
   ∧ score first.1 = Some 238 ∧ Room.GuessedPlayers first.1 = ["alice"])
  ∧ (TwoRooms.first_guess = Done (first.1, TwoRooms.alice_starts.1.2)
                              (effects_of TwoRooms.first_guess)
     ∧ (∃ s es, TwoRooms.tick_of_room2 = Done s es
                ∧ Room.ID s.1 = "room_2" ∧ Room.CurrentRound s.1 = 3
                ∧ is_Some (Room.Players s.1 !! "alice"))
     ∧ room' = update_player "alice" User.ResetRoundData first.1
     ∧ Room.CurrentRound room' = Room.CurrentRound room
     ∧ Room.CurrentWord room' = "house"
     ∧ Room.GuessedPlayers room' = ["alice"])
  ∧ (GuessResultData.Correct second.2 = true ∧ GuessResultData.Points second.2 = 184
     ∧ score second.1 = Some 422 ∧ Room.GuessedPlayers second.1 = ["alice"]
     ∧ effects_of TwoRooms.second_guess !! 2%nat
       = Some (BroadcastToRoom "room_1"
                 (NewPointsMessage (115 * Go.Second) "alice" "Alice" 184 422
                    "Correct guess") None)).
Proof.
  cbv zeta. split; [|split].
  - repeat split; vm_compute; reflexivity.
  - split; [vm_compute; reflexivity|]. split.
    + do 2 eexists. split; [vm_compute; reflexivity|].
      repeat split; vm_compute; eauto.
    + repeat split; vm_compute; reflexivity.
  - repeat split; vm_compute; reflexivity.
Qed.

(** ** Scoring (C3) *)

Lemma bonus_table_spec B bmax :
  bonus_table B bmax →
  ∀ a b, 1 ≤ b ≤ bmax → 0 ≤ a ≤ b → near_floor B a b (Go.int (bonus B a b)).
Proof.
  intros Ht a b Hb Ha. unfold bonus_table in Ht.
  rewrite Forall_seqZ in Ht.
  specialize (Ht b ltac:(lia)). rewrite Forall_seqZ in Ht.
  apply Ht. lia.
Qed.

Lemma order_bonus_table : bonus_table 50 16.
Proof. apply (bool_decide_unpack _). vm_compute. exact I. Qed.

Lemma difficulty_bonus_table : bonus_table 100 16.
Proof. apply (bool_decide_unpack _). vm_compute. exact I. Qed.

Lemma time_bonus_table : bonus_table 25 300.
Proof. apply (bool_decide_unpack _). vm_compute. exact I. Qed.

(** The multipliers are exact on the subtotals of the default
    configuration (at most 100 + 50 + 100 + 25). *)
Lemma multiplier_table :
  Forall (λ p, Go.int (PrimFloat.mul (Go.float64 p) 1.25%float) = (5 * p) `div` 4
               ∧ Go.int (PrimFloat.mul (Go.float64 p) 1.5%float) = (3 * p) `div` 2)
         (seqZ 0 276).
Proof. apply (bool_decide_unpack _). vm_compute. exact I. Qed.

Lemma near_floor_bounds B a b x :
  0 ≤ B → 1 ≤ b → 0 ≤ a ≤ b → near_floor B a b x → -1 ≤ x ≤ B.
Proof.
  intros HB Hb Ha Hx.
  assert (0 ≤ spec_bonus B a b ≤ B).
  { unfold spec_bonus. split.
    - apply Z.div_pos; nia.
    - apply Z.div_le_upper_bound; nia. }
  destruct Hx as [->| [-> _]]; lia.
Qed.

(** [CalculateGuesserPoints] under the default configuration: the base
    and the three truncated bonuses, multiplied and floored. *)
Lemma CalculateGuesserPoints_default wb guessOrder totalGuessers guessTime
    roundDuration totalPlayers difficulty :
  1 ≤ totalPlayers ≤ 16 → 1 ≤ guessOrder ≤ totalPlayers →
  0 ≤ totalGuessers ≤ totalPlayers →
  1 ≤ roundDuration ≤ 300 → 0 ≤ guessTime ≤ roundDuration →
  let orderBonus := Go.int (bonus 50 (guessOrder - 1) totalPlayers) in
  let difficultyBonus := Go.int (bonus 100 totalGuessers totalPlayers) in
  let timeBonus := Go.int (bonus 25 guessTime roundDuration) in
  near_floor 50 (guessOrder - 1) totalPlayers orderBonus
  ∧ near_floor 100 totalGuessers totalPlayers difficultyBonus
  ∧ near_floor 25 guessTime roundDuration timeBonus
  ∧ CalculateGuesserPoints (GameEngine.mk wb config.DefaultPoints)
      guessOrder totalGuessers guessTime roundDuration totalPlayers difficulty
    = spec_multiplied difficulty (100 + orderBonus + difficultyBonus + timeBonus).
Proof.
  intros Hn Ho Ht HT Hs orderBonus difficultyBonus timeBonus.
  assert (Hob : near_floor 50 (guessOrder - 1) totalPlayers orderBonus)
    by (apply (bonus_table_spec _ _ order_bonus_table); lia).
  assert (Hdb : near_floor 100 totalGuessers totalPlayers difficultyBonus)
    by (apply (bonus_table_spec _ _ difficulty_bonus_table); lia).
  assert (Htb : near_floor 25 guessTime roundDuration timeBonus)
    by (apply (bonus_table_spec _ _ time_bonus_table); lia).
  do 3 (split; [done|]).
  apply near_floor_bounds in Hob; [|lia..].
  apply near_floor_bounds in Hdb; [|lia..].
  apply near_floor_bounds in Htb; [|lia..].
  unfold CalculateGuesserPoints. cbn [GameEngine.config config.DefaultPoints
    config.PointsConfig.BaseGuessPoints config.PointsConfig.MaxOrderBonus
    config.PointsConfig.MaxDifficultyBonus config.PointsConfig.MaxTimeBonus].
  unfold Go.add, Go.sub.
  rewrite (wrap_small (guessOrder - 1)) by lia.
  fold orderBonus difficultyBonus timeBonus.
  rewrite (wrap_small (100 + orderBonus)) by lia.
  rewrite (wrap_small (100 + orderBonus + difficultyBonus)) by lia.
  rewrite (wrap_small (100 + orderBonus + difficultyBonus + timeBonus)) by lia.
  set (p := 100 + orderBonus + difficultyBonus + timeBonus).
  assert (Hp : 0 ≤ p < 0 + 276) by (unfold p; lia).
  pose proof multiplier_table as Hm. rewrite Forall_seqZ in Hm.
  destruct (Hm p Hp) as [Hm1 Hm2].
  unfold spec_multiplied.
  destruct (String.eqb difficulty "medium"); [done|].
  by destruct (String.eqb difficulty "hard").
Qed.

Lemma update_player_len_Players userID f room :
  Room.len_Players (update_player userID f room) = Room.len_Players room.
Proof.
  destruct room; unfold Room.len_Players; cbn.
  by rewrite <- !size_dom, dom_alter_L.
Qed.

Lemma AddGuess_len_Players now userID room :
  Room.len_Players (Room.AddGuess now userID room).1 = Room.len_Players room.
Proof. unfold Room.len_Players. by rewrite AddGuess_Players. Qed.

Lemma AddGuess_new now userID room :
  userID ∉ Room.GuessedPlayers room →
  Room.GuessedPlayers (Room.AddGuess now userID room).1
  = Room.GuessedPlayers room ++ [userID].
Proof.
  intros Hn. unfold Room.AddGuess. apply contains_false in Hn. rewrite Hn.
  by destruct room.
Qed.

Lemma AddGuess_RoundTime now userID room :
  Room.RoundTime (Room.AddGuess now userID room).1 = Room.RoundTime room.
Proof. unfold Room.AddGuess. destruct (Go.contains _ _); by destruct room. Qed.

(** What the code computes.  With the default configuration, in a
    room of 2 to 16 players and a round of at most 300 seconds, the
    first correct guess of a player in a round is awarded the base plus
    the order, difficulty and time bonuses, the sum multiplied by the
    difficulty multiplier and floored.  Each bonus is [B × (1 − a / b)]
    computed in [float64] and truncated: it is the floor of the exact
    value, or one less when the exact value is a whole number.  The
    example of the specification holds: the first correct guess of two
    players, 10 seconds into a 60-second easy round, has order bonus 50,
    difficulty bonus 50, time bonus 20 and 220 points. *)
Lemma correct_guess_points :
  (∀ (wb : WordBank.t) (now : Z) (room : Room.t) (userID guess : string),
     let ge := GameEngine.mk wb config.DefaultPoints in
     let result := (ValidateGuess ge now room userID guess).2 in
     let total_players := Room.len_Players room in
     let earlier_guessers := Go.len (Room.GuessedPlayers room) in
     let guess_seconds := Go.int (Go.Seconds (Go.Sub now (Room.RoundStartTime room))) in
     GuessResultData.Correct result = true →
     userID ∉ Room.GuessedPlayers room →
     2 ≤ total_players ≤ 16 → earlier_guessers + 1 ≤ total_players →
     1 ≤ Room.RoundTime room ≤ 300 → 0 ≤ guess_seconds ≤ Room.RoundTime room →
     GuessResultData.GuessOrder result = earlier_guessers + 1
     ∧ near_floor 50 earlier_guessers total_players
         (GuessResultData.OrderBonus result)
     ∧ near_floor 100 (earlier_guessers + 1) total_players
         (GuessResultData.Bonus result)
     ∧ near_floor 25 guess_seconds (Room.RoundTime room)
         (GuessResultData.TimeBonus result)
     ∧ GuessResultData.Points result
       = spec_multiplied (Room.Difficulty room)
           (100 + GuessResultData.OrderBonus result + GuessResultData.Bonus result
            + GuessResultData.TimeBonus result))
  ∧ (let room := (Scenario.started [Scenario.alice; Scenario.bob] 3).1 in
     let result :=
       (ValidateGuess Scenario.engine (110 * Go.Second) room "alice" "CAT").2 in
     Room.len_Players room = 2 ∧ Room.RoundTime room = 60
     ∧ Room.Difficulty room = "easy"
     ∧ Go.int (Go.Seconds (Go.Sub (110 * Go.Second) (Room.RoundStartTime room))) = 10
     ∧ GuessResultData.Correct result = true
     ∧ GuessResultData.GuessOrder result = 1
     ∧ GuessResultData.OrderBonus result = 50
     ∧ GuessResultData.Bonus result = 50
     ∧ GuessResultData.TimeBonus result = 20
     ∧ GuessResultData.Points result = 220).
Proof.
  split; [|by vm_compute].
  intros wb now room userID guess ge result n k s Hc HnG Hn Hk HT Hs.
  pose proof (len_nonneg (Room.GuessedPlayers room)) as Hk0. fold k in Hk0.
  destruct (CalculateGuesserPoints_default wb (k + 1) (k + 1) s (Room.RoundTime room)
              n (Room.Difficulty room)) as (Hob & Hdb & Htb & Hpts); [lia..|].
  replace (k + 1 - 1) with k in * by lia.
  subst result. revert Hc. unfold ValidateGuess, Room.GetPlayer.
  destruct (Room.Players room !! userID) as [user|]; [|done].
  destruct (User.HasGuessedThisRound user || _); [done|].
  destruct (negb _); [done|]. intros _.
  cbn [snd GuessResultData.GuessOrder GuessResultData.OrderBonus GuessResultData.Bonus
       GuessResultData.TimeBonus GuessResultData.Points].
  fold k s. unfold Go.add, Go.sub.
  rewrite !(wrap_small (k + 1)) by lia.
  replace (k + 1 - 1) with k by lia. rewrite (wrap_small k) by lia.
  rewrite !AddGuess_len_Players, !update_player_len_Players. fold n.
  rewrite AddGuess_RoundTime. 
  rewrite AddGuess_new by (by rewrite !update_player_GuessedPlayers).
  rewrite !update_player_GuessedPlayers.
  assert (Hlen : Go.len (Room.GuessedPlayers room ++ [userID]) = k + 1).
  { unfold Go.len, k. rewrite length_app. cbn. unfold Go.len. lia. }
  rewrite Hlen.
  assert (HRT : ∀ f g, Room.RoundTime (update_player userID f (update_player userID g room))
                       = Room.RoundTime room) by (intros; by destruct room).
  rewrite HRT. cbn [GameEngine.config config.DefaultPoints
    config.PointsConfig.MaxOrderBonus config.PointsConfig.MaxDifficultyBonus
    config.PointsConfig.MaxTimeBonus].
  done.
Qed.

(** The lemma at a run of the code: Alice's guess in the game of two. *)
Lemma correct_guess_points_witness :
  let room := (Scenario.started [Scenario.alice; Scenario.bob] 3).1 in
  let result := (ValidateGuess Scenario.engine (110 * Go.Second) room "alice" "CAT").2 in
  GuessResultData.Correct result = true
  ∧ GuessResultData.Points result
    = spec_multiplied "easy"
        (100 + GuessResultData.OrderBonus result + GuessResultData.Bonus result
         + GuessResultData.TimeBonus result).
Proof.
  split; [by vm_compute|].
  refine (proj2 (proj2 (proj2 (proj2
    (proj1 correct_guess_points (GameEngine.wordBank Scenario.engine)
       (110 * Go.Second) (Scenario.started [Scenario.alice; Scenario.bob] 3).1
       "alice" "CAT" _ _ _ _ _ _)))));
    apply (bool_decide_unpack _); by vm_compute.
Defined.

(** C3 fails on the code.  In the game of five with the default
    configuration, Erin is the fourth to guess, 10 seconds into the
    easy round of 60.  The difficulty bonus of the specification is
    [floor (100 × (1 − 4/5)) = 20] and the points are 160; the code
    computes the bonus in [float64], where [1 − 4/5] is
    0.19999999999999996, and truncates 19.999999999999996 to 19: 159
    points are awarded. *)
Lemma correct_guess_points_counterexample :
  let s := Scenario.guessed Scenario.five
             (Scenario.guessed Scenario.five
                (Scenario.guessed Scenario.five (Scenario.started Scenario.five 3)
                   Scenario.alice "cat")
                Scenario.carol "cat")
             Scenario.dave "cat" in
  let result := (ValidateGuess s.2 (110 * Go.Second) s.1 "erin" "cat").2 in
  (GameEngine.config s.2 = config.DefaultPoints
   ∧ Room.len_Players s.1 = 5 ∧ Room.GuessedPlayers s.1 = ["alice"; "carol"; "dave"]
   ∧ Room.RoundTime s.1 = 60 ∧ Room.Difficulty s.1 = "easy"
   ∧ Go.int (Go.Seconds (Go.Sub (110 * Go.Second) (Room.RoundStartTime s.1))) = 10)
  ∧ (GuessResultData.Correct result = true
     ∧ GuessResultData.GuessOrder result = 4
     ∧ GuessResultData.Bonus result = 19
     ∧ GuessResultData.Points result = 159)
  ∧ spec_bonus 100 4 5 = 20
  ∧ spec_points config.DefaultPoints 4 4 10 60 5 "easy" = 160.
Proof. by vm_compute. Qed.

(** ** Starting a game (C2) *)

(** C2.  The host of a lobby of two starts the game.  [StartGame] sets
    round 1 and the first player of the order as drawer, as claimed; but
    the handler then begins the round with [StartNewRound], which
    increments the round and rotates the drawer: the first round played
    is announced as round 2 and drawn by the second player. *)
Theorem first_round_played_is_round_two :
  let users := [Scenario.alice; Scenario.bob] in
  let lobby := Scenario.lobby 8 3 users in
  let hub := Scenario.hub users in
  (Room.State lobby = GameStateLobby ∧ Room.PlayerOrder lobby = ["alice"; "bob"]
   ∧ Room.HostID lobby = "alice" ∧ Room.CanStart lobby = true)
  ∧ (let room := Room.StartGame (100 * Go.Second) lobby in
     Room.State room = GameStatePlaying ∧ Room.Phase room = GamePhaseDrawing
     ∧ Room.CurrentRound room = 1 ∧ Room.CurrentDrawer room = "alice")
  ∧ match Scenario.start users 3 with
    | Done (room, _) es =>
        Room.State room = GameStatePlaying
        ∧ Room.CurrentRound room = 2 ∧ Room.CurrentDrawer room = "bob"
        ∧ (λ cd, (cd.1, NewRoundData.Round cd.2, NewRoundData.DrawerID cd.2,
                  NewRoundData.Word cd.2))
            <$> omap (λ cm, pair cm.1 <$> new_round_of cm.2) (delivered hub es)
          = [("bob", 2, "bob", "cat"); ("alice", 2, "bob", "")]
    | _ => False
    end.
Proof. by vm_compute. Qed.

(** ** Points awarded and points announced (C4) *)

(** C4.  Three players; Bob draws "cat", Alice guesses it first and
    Carol second, which ends the round.  Each guess is announced once in
    [points_awarded] with the points added to the score (236 and 186),
    and the drawer's 50 points of [round_ended] are those added to Bob's
    score.  But [round_ended] lists Alice with 203 points: the handler
    computes the entry again, with the number of guessers at the end of
    the round (2) in place of the number when she guessed (1). *)
Theorem round_ended_lists_other_points :
  let ids := ["alice"; "bob"; "carol"] in
  let s0 := Scenario.started Scenario.three 3 in
  let o1 := Scenario.guess Scenario.three s0 Scenario.alice "cat" in
  let s1 := Scenario.state_of o1 s0 in
  let o2 := Scenario.guess Scenario.three s1 Scenario.carol "cat" in
  let s2 := Scenario.state_of o2 s1 in
  (Room.CurrentDrawer s0.1 = "bob" ∧ Room.CurrentWord s0.1 = "cat"
   ∧ scores ids s0.1 = [Some 0; Some 0; Some 0])
  ∧ (payloads award_of (effects_of o1) = [("alice", 236)]
     ∧ scores ids s1.1 = [Some 236; Some 0; Some 0])
  ∧ (payloads award_of (effects_of o2) = [("carol", 186)]
     ∧ scores ids s2.1 = [Some 236; Some 50; Some 186])
  ∧ (λ d, (RoundEndData.DrawerID d, RoundEndData.DrawerPoints d,
           (λ g, (GuesserResult.UserID g, GuesserResult.Points g))
             <$> RoundEndData.Guessers d))
      <$> payloads round_end_of (effects_of o2)
    = [("bob", 50, [("alice", 203); ("carol", 186)])].
Proof. by vm_compute. Qed.

(** ** Fuel

    [HandleNewRound] calls [HandleRoundEnd] when the drawer it selected
    is not a player, and [HandleRoundEnd] then stops at
    [drawer.Username]: the mutual calls are at most two deep. *)

Lemma HandleRoundEnd_no_drawer fuel env hub room ge :
  Room.GetPlayer (Room.CurrentDrawer room) room = None →
  HandleRoundEnd (S fuel) env hub room ge = Panic [].
Proof.
  intros Hd. cbn [HandleRoundEnd].
  unfold Room.GetPlayer in *.
  rewrite update_player_CurrentDrawer, update_player_lookup, Hd. done.
Qed.

Lemma HandleNewRound_fuel fuel env hub room ge :
  HandleNewRound (S fuel) env hub room ge = HandleNewRound 1 env hub room ge.
Proof.
  unfold HandleNewRound, HandleNewRound_with.
  destruct (GetRandomWord _ _) as [[word hint] ge'].
  destruct (Room.GetPlayer _ _) eqn:Hd; [done|].
  by rewrite !HandleRoundEnd_no_drawer.
Qed.

Lemma HandleRoundEnd_fuel fuel env hub room ge :
  HandleRoundEnd (S (S fuel)) env hub room ge = HandleRoundEnd 2 env hub room ge.
Proof.
  cbn [HandleRoundEnd].
  destruct (Room.GetPlayer _ _); [|done].
  destruct (_ >=? _); [done|].
  f_equal. apply HandleNewRound_fuel.
Qed.

Lemma HandleNewRound_total fuel env hub room ge :
  HandleNewRound (S fuel) env hub room ge ≠ OutOfFuel.
Proof.
  unfold HandleNewRound, HandleNewRound_with.
  destruct (GetRandomWord _ _) as [[word hint] ge'].
  destruct (Room.GetPlayer _ _) eqn:Hd; [done|].
  by rewrite HandleRoundEnd_no_drawer.
Qed.

Lemma HandleRoundEnd_total fuel env hub room ge :
  HandleRoundEnd (S (S fuel)) env hub room ge ≠ OutOfFuel.
Proof.
  cbn [HandleRoundEnd].
  destruct (Room.GetPlayer _ _); [|done].
  destruct (_ >=? _).
  - unfold HandleGameEnd. by destruct (NewGameEndedMessage _ _).
  - pose proof (HandleNewRound_total fuel env hub
                  (Room.EndRound (Env.now env)
                     (Room.EndRound (Env.now env)
                        (update_player (Room.CurrentDrawer room)
                           (λ drawer, User.RecordDrawerTurn
                              (User.AddScore
                                 (CalculateDrawerPoints ge
                                    (Go.len (Room.GuessedPlayers room))
                                    (Room.len_Players room) (Room.RoundTime room))
                                 drawer)) room))) ge) as Hn.
    unfold HandleNewRound in Hn.
    destruct (HandleNewRound_with _ _ _ _ _); done.
Qed.

Lemma effects_of_emit {S} es (o : Outcome S) :
  o ≠ OutOfFuel → effects_of (emit es o) = es ++ effects_of o.
Proof. by destruct o. Qed.

Lemma emit_total {S} es (o : Outcome S) : o ≠ OutOfFuel → emit es o ≠ OutOfFuel.
Proof. by destruct o. Qed.

(** ** The secret word (C1) *)

(** C1, as stated, fails.  Bob draws "cat" before Alice and Carol; Alice
    sends the guess "cat".  The round goes on (Carol has not guessed),
    and the chat line that relays the guess, which contains the word,
    has reached every client of the room, Carol included. *)
Lemma chat_line_contains_the_word :
  let s0 := Scenario.started Scenario.three 3 in
  let o := Scenario.guess Scenario.three s0 Scenario.alice "cat" in
  let s1 := Scenario.state_of o s0 in
  (Room.CurrentDrawer s0.1 = "bob" ∧ Room.CurrentWord s0.1 = "cat")
  ∧ (Room.State s1.1 = GameStatePlaying ∧ Room.Phase s1.1 = GamePhaseDrawing
     ∧ Room.CurrentRound s1.1 = Room.CurrentRound s0.1
     ∧ Room.CurrentDrawer s1.1 = "bob" ∧ Room.CurrentWord s1.1 = "cat"
     ∧ Room.GuessedPlayers s1.1 = ["alice"])
  ∧ (λ cm, (cm.1, Message.Type_ cm.2))
      <$> filter (λ cm, mentions "cat" cm.2 = true)
            (delivered (Scenario.hub Scenario.three) (effects_of o))
    = [("carol", "chat_message"); ("alice", "chat_message"); ("bob", "chat_message");
       ("alice", "guess_result")].
Proof. by vm_compute. Qed.

Lemma elem_of_delivered hub es client m :
  (client, m) ∈ delivered hub es
  ↔ ∃ e, e ∈ es ∧ frame e = Some m ∧ client ∈ recipients hub e.
Proof.
  unfold delivered. rewrite list_elem_of_bind. split.
  - intros (e & Hin & He). exists e. split; [done|].
    apply list_elem_of_bind in Hin as (m' & Hin & Hm).
    destruct (frame e) as [m''|]; cbn in Hm; [|by apply elem_of_nil in Hm].
    apply list_elem_of_singleton in Hm as ->.
    apply list_elem_of_fmap in Hin as (c & [= -> ->] & Hc).
    by apply elem_of_elements in Hc.
  - intros (e & He & Hf & Hc). exists e. split; [|done].
    apply list_elem_of_bind. exists m. rewrite Hf. split; [|by left].
    apply list_elem_of_fmap. exists client. split; [done|].
    by apply elem_of_elements.
Qed.

Lemma ValidateGuess_ID ge now room userID guess :
  Room.ID (ValidateGuess ge now room userID guess).1 = Room.ID room.
Proof.
  unfold ValidateGuess.
  destruct (Room.GetPlayer _ _); [|done].
  destruct (_ || _); [done|].
  destruct (negb _); cbn [fst]; [by destruct room|].
  unfold Room.AddGuess. destruct (Go.contains _ _); by destruct room.
Qed.

(** C1, as amended.  [HandleNewRound] keeps the word from the other
    players: a [new_round] frame that reaches a client other than the
    drawer of the round has an empty [word] (the field is then omitted
    from the JSON).  [handleSendGuess] does not: while a round is being
    drawn, its first act is to broadcast the sanitized text of the guess
    as a chat line to every client of the room, none excluded, before
    the guess is validated; a guess that contains the word is relayed as
    it is. *)
Theorem word_kept_from_new_round_not_from_chat :
  (∀ fuel env hub room ge room' ge' es client m d,
     HandleNewRound fuel env hub room ge = Done (room', ge') es →
     (client, m) ∈ delivered hub es → new_round_of m = Some d →
     client ≠ Room.CurrentDrawer room' → NewRoundData.Word d = "")
  ∧ (∀ fuel env hub room ge client guess,
       Room.State room = GameStatePlaying → Room.Phase room = GamePhaseDrawing →
       (2 ≤ fuel)%nat →
       ∃ es,
         effects_of (handleSendGuess fuel env hub room ge client guess)
         = BroadcastToRoom (Room.ID room)
             (NewChatMessage (Env.now env) (User.Username (GetUser client room))
                (utils.SanitizeInput guess) false)
             None :: es).
Proof.
  split.
  - intros fuel env hub room ge room' ge' es client m d.
    unfold HandleNewRound, HandleNewRound_with.
    destruct (GetRandomWord _ _) as [[word hint] ge1].
    set (room1 := Room.StartNewRound _ _ _ _).
    destruct (Room.GetPlayer _ _) as [drawer|] eqn:Hd.
    + intros [= <- <- <-] Hin Hm Hne.
      apply elem_of_delivered in Hin as (e & He & Hf & Hc).
      apply elem_of_app in He as [He|He].
      * (* the frame with the word goes to the drawer *)
        unfold GetClientByUserID in He.
        destruct (bool_decide _); [|by apply elem_of_nil in He].
        apply list_elem_of_singleton in He as ->. cbn in Hc.
        apply elem_of_singleton in Hc. done.
      * apply elem_of_cons in He as [->|He].
        -- cbn in Hf. injection Hf as <-. cbn in Hm. by injection Hm as <-.
        -- apply list_elem_of_singleton in He as ->. done.
    + destruct fuel as [|fuel]; [done|]. by rewrite HandleRoundEnd_no_drawer.
  - intros fuel env hub room ge client guess Hs Hp Hfuel.
    unfold handleSendGuess. rewrite Hs, Hp.
    rewrite !bool_decide_eq_true_2 by done. cbn [negb orb].
    pose proof (ValidateGuess_ID ge (Env.now env) room (client_id client)
                  (utils.SanitizeInput guess)) as HID.
    destruct (ValidateGuess _ _ _ _ _) as [room' result]. cbn [fst] in HID.
    rewrite HID. eexists.
    rewrite effects_of_emit; [done|].
    destruct (negb _); [done|].
    apply emit_total. destruct (GuessResultData.RoundEnding result); [|done].
    destruct fuel as [|[|fuel]]; [lia..|]. apply HandleRoundEnd_total.
Qed.

(** The theorem at a run of the code: the first round of the game of
    three (Bob draws "cat"), and Alice's guess. *)
Lemma word_kept_from_new_round_not_from_chat_witness :
  let users := Scenario.three in
  let lobby := Room.StartGame (100 * Go.Second) (Scenario.lobby 8 3 users) in
  let o := HandleNewRound 2 (Scenario.at_second 100) (Scenario.hub users) lobby
             Scenario.engine in
  (o = Done (Scenario.state_of o (lobby, Scenario.engine)) (effects_of o)
   ∧ Room.CurrentDrawer (Scenario.state_of o (lobby, Scenario.engine)).1 = "bob"
   ∧ ∀ m d, ("alice", m) ∈ delivered (Scenario.hub users) (effects_of o) →
            new_round_of m = Some d → NewRoundData.Word d = "")
  ∧ ∃ es,
      effects_of (Scenario.guess users (Scenario.started users 3) Scenario.alice "cat")
      = BroadcastToRoom "room_1"
          (NewChatMessage (110 * Go.Second) "Alice" "cat" false) None :: es.
Proof.
  assert (E : HandleNewRound 2 (Scenario.at_second 100) (Scenario.hub Scenario.three)
                (Room.StartGame (100 * Go.Second) (Scenario.lobby 8 3 Scenario.three))
                Scenario.engine
              = Done (Scenario.state_of
                        (HandleNewRound 2 (Scenario.at_second 100)
                           (Scenario.hub Scenario.three)
                           (Room.StartGame (100 * Go.Second)
                              (Scenario.lobby 8 3 Scenario.three))
                           Scenario.engine)
                        (Room.StartGame (100 * Go.Second)
                           (Scenario.lobby 8 3 Scenario.three), Scenario.engine))
                     (effects_of
                        (HandleNewRound 2 (Scenario.at_second 100)
                           (Scenario.hub Scenario.three)
                           (Room.StartGame (100 * Go.Second)
                              (Scenario.lobby 8 3 Scenario.three))
                           Scenario.engine)))
    by (vm_compute; reflexivity).
  assert (D : Room.CurrentDrawer
                (Scenario.state_of
                   (HandleNewRound 2 (Scenario.at_second 100)
                      (Scenario.hub Scenario.three)
                      (Room.StartGame (100 * Go.Second)
                         (Scenario.lobby 8 3 Scenario.three))
                      Scenario.engine)
                   (Room.StartGame (100 * Go.Second)
                      (Scenario.lobby 8 3 Scenario.three), Scenario.engine)).1
              = "bob")
    by (vm_compute; reflexivity).
  split; [split; [exact E | split; [exact D |]] |].
  - intros m d Hin Hm.
    refine (proj1 word_kept_from_new_round_not_from_chat _ _ _ _ _ _ _ _
              "alice" m d (eq_trans E (f_equal2 Done (surjective_pairing _) eq_refl))
              Hin Hm _).
    rewrite D. intros [=].
  - apply (proj2 word_kept_from_new_round_not_from_chat 2%nat (Scenario.at_second 110)
             (Scenario.hub Scenario.three) (Scenario.started Scenario.three 3).1
             (Scenario.started Scenario.three 3).2 (Scenario.client Scenario.alice) "cat");
      [vm_compute; reflexivity | vm_compute; reflexivity | lia].
Defined.

(** ** Room codes (C5) *)


(** [CreateRoom] indexes the new room under its identifier and under
    its code, and leaves the other entries of both indexes as they were:
    an identifier or a code that was taken now leads to the new room. *)
Lemma CreateRoom_indexes id code now hostID roomType roomName settings rm :
  let room := Room.NewRoom id code now hostID roomType roomName settings in
  let rm' := (RoomManager.CreateRoom id code now hostID roomType roomName
                settings rm).1 in
  (RoomManager.GetRoom id rm' ≫= RoomManager.deref rm' = Some room
   ∧ RoomManager.GetRoomByCode code rm' ≫= RoomManager.deref rm' = Some room)
  ∧ (∀ id', id' ≠ id → RoomManager.GetRoom id' rm' = RoomManager.GetRoom id' rm)
  ∧ (∀ code', code' ≠ code →
       RoomManager.GetRoomByCode code' rm' = RoomManager.GetRoomByCode code' rm)
  ∧ (∀ p, (p < length (RoomManager.store rm))%nat →
       RoomManager.deref rm' p = RoomManager.deref rm p).
Proof.
  intros room rm'.
  subst rm'. unfold RoomManager.CreateRoom, RoomManager.GetRoom,
    RoomManager.GetRoomByCode, RoomManager.deref.
  cbn [fst RoomManager.rooms RoomManager.roomByCode RoomManager.store
       Room.NewRoom Room.ID Room.Code].
  split; [|split; [|split]].
  - rewrite !lookup_insert_eq. cbn.
    rewrite lookup_app_r by lia. by rewrite Nat.sub_diag.
  - intros id' Hne. by rewrite lookup_insert_ne.
  - intros code' Hne. by rewrite lookup_insert_ne.
  - intros p Hp. by rewrite lookup_app_l.
Qed.









(** The guard at a run of the code: Alice guesses "cat" twice in the
    game of three. *)
Lemma second_correct_guess_awards_nothing_witness :
  let s0 := Scenario.started Scenario.three 3 in
  let first := ValidateGuess s0.2 (110 * Go.Second) s0.1 "alice" "cat" in
  GuessResultData.Correct first.2 = true
  ∧ ValidateGuess s0.2 (115 * Go.Second) first.1 "alice" " CAT "
    = (first.1, incorrect).
Proof.
  split; [vm_compute; reflexivity|].
  apply (second_correct_guess_awards_nothing
           (Scenario.started Scenario.three 3).2 (110 * Go.Second)
           (Scenario.started Scenario.three 3).1 "alice" "cat").
  vm_compute; reflexivity.
Defined.

(** ** Leaderboard and winner (C9) *)

Section sort_Slice.

Context {A : Type} (key : A → Z).

Lemma insert_left_Permutation x l : insert_left (by_key_desc key) x l ≡ₚ x :: l.
Proof.
  induction l as [|y l IH]; cbn; [done|].
  destruct (by_key_desc key x y); [|done].
  rewrite IH. apply Permutation_swap.
Qed.

Lemma insert_left_HdRel x y l :
  key y ≤ key x → HdRel (λ a b, key a ≤ key b) y l →
  HdRel (λ a b, key a ≤ key b) y (insert_left (by_key_desc key) x l).
Proof.
  intros Hyx Hy. destruct l as [|z l]; cbn; [by constructor|].
  destruct (by_key_desc key x z); constructor; [by inversion Hy | done].
Qed.

Lemma insert_left_Sorted x l :
  Sorted (λ a b, key a ≤ key b) l →
  Sorted (λ a b, key a ≤ key b) (insert_left (by_key_desc key) x l).
Proof.
  induction 1 as [|y l Hl IH Hy]; cbn; [by repeat constructor|].
  unfold by_key_desc at 1. destruct (key x >? key y) eqn:E.
  - constructor; [done|]. apply insert_left_HdRel; [lia | done].
  - constructor; [by constructor|]. constructor. lia.
Qed.

Lemma sort_Slice_Permutation l : sort_Slice (by_key_desc key) l ≡ₚ l.
Proof.
  unfold sort_Slice. rewrite reverse_Permutation.
  enough (∀ acc, foldl (λ acc x, insert_left (by_key_desc key) x acc) acc l ≡ₚ acc ++ l) as H
    by apply (H []).
  induction l as [|x l IH]; intros acc; cbn.
  - by rewrite app_nil_r.
  - rewrite IH, insert_left_Permutation. cbn. apply Permutation_middle.
Qed.

Lemma sort_Slice_Sorted l :
  Sorted (λ a b, key b ≤ key a) (sort_Slice (by_key_desc key) l).
Proof.
  unfold sort_Slice.
  enough (Sorted (λ a b, key a ≤ key b)
            (foldl (λ acc x, insert_left (by_key_desc key) x acc) [] l)) as H.
  { by apply Sorted_reverse in H. }
  enough (∀ acc, Sorted (λ a b, key a ≤ key b) acc →
                 Sorted (λ a b, key a ≤ key b)
                   (foldl (λ acc x, insert_left (by_key_desc key) x acc) acc l)) as H
    by (apply H; constructor).
  induction l as [|x l IH]; intros acc Hacc; cbn; [done|].
  apply IH. by apply insert_left_Sorted.
Qed.

End sort_Slice.

Lemma game_stats_step_winner room seen acc player :
  winner_so_far seen acc →
  winner_so_far (seen ++ [player]) (game_stats_step room acc player).
Proof.
  destruct acc as [[[total highest] winner] stats]. intros [Hmax Hw].
  unfold game_stats_step. destruct (User.Score player >? highest) eqn:E; cbn.
  - split.
    + intros p [Hp| ->%list_elem_of_singleton]%elem_of_app; [|lia].
      specialize (Hmax p Hp). lia.
    + split.
      * destruct winner as [w|]; [destruct Hw; lia | lia].
      * exists player. split; [|done]. apply elem_of_app. right. by left.
  - split.
    + intros p [Hp| ->%list_elem_of_singleton]%elem_of_app; [by apply Hmax | lia].
    + destruct winner as [w|]; [|done].
      destruct Hw as (Hpos & p & Hp & Hwp & Hs). split; [done|].
      exists p. split; [|done]. apply elem_of_app. by left.
Qed.

Lemma game_stats_winner room players seen acc :
  winner_so_far seen acc →
  winner_so_far (seen ++ players) (foldl (game_stats_step room) acc players).
Proof.
  revert seen acc. induction players as [|player players IH]; intros seen acc Hacc; cbn.
  - by rewrite app_nil_r.
  - replace (seen ++ player :: players) with ((seen ++ [player]) ++ players)
      by (by rewrite <- app_assoc).
    apply IH. by apply game_stats_step_winner.
Qed.

Lemma range_Players_all range_order room :
  range_order (Room.Players room) ≡ₚ (map_to_list (Room.Players room)).*1 →
  Room.range_Players range_order room ≡ₚ (map_to_list (Room.Players room)).*2.
Proof.
  intros Hperm. unfold Room.range_Players. rewrite Hperm.
  enough (∀ l : list (string * User.t),
            (∀ k v, (k, v) ∈ l → Room.Players room !! k = Some v) →
            omap (λ k, Room.Players room !! k) l.*1 = l.*2) as H.
  { rewrite H; [done|]. intros k v. apply elem_of_map_to_list. }
  induction l as [|[k v] l IH]; intros Hl; cbn; [done|].
  rewrite (Hl k v) by left. rewrite IH; [done|].
  intros k' v' Hin. apply Hl. by right.
Qed.

(** C9, as amended.  A leaderboard lists the players of the room in
    descending order of score, and the score is all that orders it: the
    time of joining is not looked at.  The winner of [game_ended] is a
    player with the highest score when some score is positive, whichever
    of them joined first, and is absent when none is. *)
Theorem leaderboard_by_score_winner_highest_positive :
  (∀ env room,
     getLeaderboard env room
       ≡ₚ ToPublicUser <$> Room.range_Players (Env.range_order env) room
     ∧ Sorted (λ a b, PublicUser.Score b ≤ PublicUser.Score a)
              (getLeaderboard env room))
  ∧ (∀ env room,
       Env.range_order env (Room.Players room)
         ≡ₚ (map_to_list (Room.Players room)).*1 →
       getLeaderboard env room
         ≡ₚ ToPublicUser <$> (map_to_list (Room.Players room)).*2)
  ∧ (∀ env room,
       let players := Room.range_Players (Env.range_order env) room in
       let data := game_end_data env room in
       let highest := GameStats.HighestScore (GameEndData.GameStats data) in
       GameEndData.Leaderboard data = getLeaderboard env room
       ∧ (∀ player, player ∈ players → User.Score player ≤ highest)
       ∧ match GameEndData.Winner data with
         | Some winner =>
             0 < highest
             ∧ ∃ player, player ∈ players ∧ winner = ToPublicUser player
                         ∧ User.Score player = highest
         | None => highest = 0
         end)
  ∧ (∀ env hub room ge,
       payloads game_end_of (effects_of (HandleGameEnd env hub room ge))
       = match NewGameEndedMessage (Env.now env) (game_end_data env room) with
         | Some _ => [game_end_data env room]
         | None => []  (* the payload could not be marshalled *)
         end).
Proof.
  assert (Hperm : ∀ env room,
            getLeaderboard env room
              ≡ₚ ToPublicUser <$> Room.range_Players (Env.range_order env) room).
  { intros. unfold getLeaderboard. apply (sort_Slice_Permutation PublicUser.Score). }
  split; [|split; [|split]].
  - intros env room. split; [apply Hperm|].
    unfold getLeaderboard. apply (sort_Slice_Sorted PublicUser.Score).
  - intros env room Hall. rewrite Hperm. by rewrite range_Players_all.
  - intros env room players data highest.
    assert (Hw : winner_so_far ([] ++ players)
                   (foldl (game_stats_step room) (0, 0, None, ∅) players)).
    { apply game_stats_winner. split; [|done].
      intros p Hp. by apply elem_of_nil in Hp. }
    subst data highest. unfold game_end_data. fold players.
    destruct (foldl _ _ players) as [[[total highest] winner] stats].
    cbn in *. by split.
  - intros env hub room ge. unfold HandleGameEnd, NewGameEndedMessage.
    by destruct (_ || _).
Qed.

(** C9, as stated, fails.  In the game of three nobody guesses: Bob
    draws the second round and Carol the third, for 20 points each, and
    the game ends.  Bob joined before Carol.  When the map of players is
    visited in the order carol, bob, alice, the leaderboard of
    [game_ended] lists Carol before Bob, and Carol is the winner. *)
Lemma tie_not_broken_by_join_time :
  let env := λ t, Env.mk (t * Go.Second) Scenario.descending in
  let hub := Scenario.hub Scenario.three in
  let s0 := Scenario.started Scenario.three 3 in
  let s1 := Scenario.state_of (roundTimerTick 2 (env 160) hub s0.1 s0.2) s0 in
  let o := roundTimerTick 2 (env 220) hub s1.1 s1.2 in
  let s2 := Scenario.state_of o s1 in
  (Room.CurrentRound s1.1 = 3 ∧ Room.MaxRounds s1.1 = 3
   ∧ Env.range_order (env 220) (Room.Players s1.1) = ["carol"; "bob"; "alice"])
  ∧ ((λ id, (λ u, (User.Score u, User.JoinedAt u)) <$> Room.Players s2.1 !! id)
       <$> ["alice"; "bob"; "carol"]
     = [Some (0, 1 * Go.Second); Some (20, 2 * Go.Second); Some (20, 3 * Go.Second)])
  ∧ (λ d, (PublicUser.ID <$> GameEndData.Winner d,
           (λ u, (PublicUser.ID u, PublicUser.Score u)) <$> GameEndData.Leaderboard d))
      <$> payloads game_end_of (effects_of o)
    = [(Some "carol", [("carol", 20); ("bob", 20); ("alice", 0)])].
Proof. by vm_compute. Qed.

(** The theorem at the end of that game. *)
Lemma leaderboard_by_score_winner_highest_positive_witness :
  let env := Env.mk (220 * Go.Second) Scenario.descending in
  let room :=
    (Scenario.state_of
       (roundTimerTick 2 (Env.mk (160 * Go.Second) Scenario.descending)
          (Scenario.hub Scenario.three) (Scenario.started Scenario.three 3).1
          (Scenario.started Scenario.three 3).2)
       (Scenario.started Scenario.three 3)).1 in
  Env.range_order env (Room.Players room) ≡ₚ (map_to_list (Room.Players room)).*1
  ∧ getLeaderboard env room ≡ₚ ToPublicUser <$> (map_to_list (Room.Players room)).*2.
Proof.
  assert (H : Env.range_order (Env.mk (220 * Go.Second) Scenario.descending)
                (Room.Players
                   (Scenario.state_of
                      (roundTimerTick 2 (Env.mk (160 * Go.Second) Scenario.descending)
                         (Scenario.hub Scenario.three)
                         (Scenario.started Scenario.three 3).1
                         (Scenario.started Scenario.three 3).2)
                      (Scenario.started Scenario.three 3)).1)
              ≡ₚ (map_to_list
                    (Room.Players
                       (Scenario.state_of
                          (roundTimerTick 2
                             (Env.mk (160 * Go.Second) Scenario.descending)
                             (Scenario.hub Scenario.three)
                             (Scenario.started Scenario.three 3).1
                             (Scenario.started Scenario.three 3).2)
                          (Scenario.started Scenario.three 3)).1)).*1).
  { apply (bool_decide_unpack _). vm_compute. exact I. }
  split; [exact H|].
  exact (proj1 (proj2 leaderboard_by_score_winner_highest_positive) _ _ H).
Defined.

(** ** The room a handler leaves *)

Lemma leaves_emit P es o : leaves P o → leaves P (emit es o).
Proof. by destruct o as [[room ge] es'| |]. Qed.

Lemma leaves_impl (P Q : Room.t → Prop) o :
  (∀ room, P room → Q room) → leaves P o → leaves Q o.
Proof. intros HPQ. destruct o as [[room ge] es| |]; cbn; auto. Qed.

Lemma leaves_Done P o room ge es : leaves P o → o = Done (room, ge) es → P room.
Proof. by intros H ->. Qed.

(** A round that begins: the room is that of [StartNewRound]. *)
Lemma HandleNewRound_leaves fuel env hub room ge :
  leaves (λ room', ∃ word hint,
            room' = Room.StartNewRound (Env.now env) word hint room)
         (HandleNewRound fuel env hub room ge).
Proof.
  unfold HandleNewRound, HandleNewRound_with.
  destruct (GetRandomWord _ _) as [[word hint] ge'].
  destruct (Room.GetPlayer _ _) eqn:Hd; cbn; [by eauto|].
  destruct fuel as [|fuel]; [done|]. by rewrite HandleRoundEnd_no_drawer.
Qed.

(** A round that ends: the game ends in the closed room, or the next
    round begins in it. *)
Lemma HandleRoundEnd_leaves fuel env hub room ge :
  leaves (λ room',
            room' = Room.EndGame (Env.now env) (round_closed (Env.now env) ge room)
            ∨ ∃ word hint,
                room' = Room.StartNewRound (Env.now env) word hint
                          (round_closed (Env.now env) ge room))
         (HandleRoundEnd fuel env hub room ge).
Proof.
  destruct fuel as [|fuel]; [done|]. cbn [HandleRoundEnd].
  destruct (Room.GetPlayer _ _); [|done].
  apply leaves_emit. destruct (_ >=? _).
  - unfold HandleGameEnd. destruct (NewGameEndedMessage _ _); cbn; by left.
  - eapply leaves_impl; [|apply (HandleNewRound_leaves fuel)].
    cbn. intros room' (word & hint & ->). right. by eauto.
Qed.

Lemma HandleGameStart_leaves fuel env hub room ge :
  leaves (λ room', ∃ word hint,
            room' = Room.StartNewRound (Env.now env) word hint
                      (Room.StartGame (Env.now env) (Room.StartGame (Env.now env) room)))
         (HandleGameStart fuel env hub room ge).
Proof. unfold HandleGameStart. apply leaves_emit, HandleNewRound_leaves. Qed.

(** The three ways of [ValidateGuess]: nothing recorded, a wrong guess
    recorded, a correct guess (not of the drawer) recorded. *)
Lemma ValidateGuess_room ge now room userID guess :
  let room' := (ValidateGuess ge now room userID guess).1 in
  let result := (ValidateGuess ge now room userID guess).2 in
  (room' = room ∧ GuessResultData.Correct result = false)
  ∨ (room' = update_player userID (User.RecordGuess now false 0) room
     ∧ GuessResultData.Correct result = false)
  ∨ (userID ≠ Room.CurrentDrawer room
     ∧ GuessResultData.Correct result = true
     ∧ ∃ points guessOrder,
         room' = (Room.AddGuess now userID
                    (update_player userID (User.AddScore points)
                       (update_player userID (User.RecordGuess now true guessOrder)
                          room))).1).
Proof.
  unfold ValidateGuess, Room.GetPlayer.
  destruct (Room.Players room !! userID) as [user|]; [|by left].
  destruct (User.HasGuessedThisRound user); [by left|]. cbn [orb].
  destruct (bool_decide _) eqn:Hd; [by left|].
  apply bool_decide_eq_false in Hd.
  destruct (negb _); cbn [fst snd GuessResultData.Correct]; [right; by left|].
  right. right. by eauto.
Qed.

(** ** Seats *)

Lemma same_seats_refl room : same_seats room room.
Proof. done. Qed.

Lemma same_seats_trans r1 r2 r3 : same_seats r1 r2 → same_seats r2 r3 → same_seats r1 r3.
Proof. intros [? ?] [? ?]. split; congruence. Qed.

Lemma selectNextDrawer_fields room :
  let room' := Room.selectNextDrawer room in
  Room.MaxPlayers room' = Room.MaxPlayers room
  ∧ Room.Players room' = Room.Players room
  ∧ Room.GuessedPlayers room' = Room.GuessedPlayers room
  ∧ Room.State room' = Room.State room.
Proof.
  unfold Room.selectNextDrawer. destruct room; cbn.
  destruct PlayerOrder; [done|]. by destruct (_ !! _).
Qed.

Lemma StartGame_seats now room : same_seats room (Room.StartGame now room).
Proof.
  unfold same_seats, Room.StartGame, Room.len_Players. destruct room; cbn.
  destruct PlayerOrder; cbn; by rewrite map_size_fmap.
Qed.

Lemma StartNewRound_seats now word hint room :
  same_seats room (Room.StartNewRound now word hint room).
Proof.
  unfold same_seats, Room.StartNewRound, Room.len_Players.
  destruct (selectNextDrawer_fields
              (Room.reset_players
                 (Room.set_LastActivity now
                    (Room.set_DrawingData []
                       (Room.set_GuessedPlayers []
                          (Room.set_RoundEndTime
                             (now + Go.mul (Room.RoundTime
                                (Room.set_RoundStartTime now
                                   (Room.set_WordHint hint
                                      (Room.set_CurrentWord word
                                         (Room.set_Phase GamePhaseDrawing
                                            (Room.set_CurrentRound
                                               (Go.add (Room.CurrentRound room) 1)
                                               room)))))) Go.Second)
                             (Room.set_RoundStartTime now
                                (Room.set_WordHint hint
                                   (Room.set_CurrentWord word
                                      (Room.set_Phase GamePhaseDrawing
                                         (Room.set_CurrentRound
                                            (Go.add (Room.CurrentRound room) 1)
                                            room))))))))))) as (-> & -> & _).
  destruct room; cbn. by rewrite map_size_fmap.
Qed.

Lemma EndGame_seats now room : same_seats room (Room.EndGame now room).
Proof.
  unfold same_seats, Room.len_Players. destruct room; cbn. by rewrite map_size_fmap.
Qed.

Lemma EndRound_seats now room : same_seats room (Room.EndRound now room).
Proof. by destruct room. Qed.

Lemma update_player_seats userID f room : same_seats room (update_player userID f room).
Proof. split; [by destruct room | apply update_player_len_Players]. Qed.

Lemma AddGuess_seats now userID room : same_seats room (Room.AddGuess now userID room).1.
Proof.
  split; [|apply AddGuess_len_Players].
  unfold Room.AddGuess. destruct (Go.contains _ _); by destruct room.
Qed.

Lemma round_closed_seats now ge room : same_seats room (round_closed now ge room).
Proof.
  unfold round_closed.
  eapply same_seats_trans; [apply update_player_seats|].
  eapply same_seats_trans; apply EndRound_seats.
Qed.

Lemma ValidateGuess_seats ge now room userID guess :
  same_seats room (ValidateGuess ge now room userID guess).1.
Proof.
  destruct (ValidateGuess_room ge now room userID guess)
    as [[-> _] | [[-> _] | (_ & _ & points & order & ->)]].
  - done.
  - apply update_player_seats.
  - eapply same_seats_trans; [apply update_player_seats|].
    eapply same_seats_trans; [apply update_player_seats | apply AddGuess_seats].
Qed.

Lemma HandleRoundEnd_seats fuel env hub room ge :
  leaves (same_seats room) (HandleRoundEnd fuel env hub room ge).
Proof.
  eapply leaves_impl; [|apply HandleRoundEnd_leaves]. cbn.
  intros room' [-> | (word & hint & ->)];
    (eapply same_seats_trans; [apply round_closed_seats|]).
  - apply EndGame_seats.
  - apply StartNewRound_seats.
Qed.

(** Every transition but joining and leaving keeps the seats. *)
Lemma handleStartGame_seats fuel env hub room ge client :
  leaves (same_seats room) (handleStartGame fuel env hub room ge client).
Proof.
  unfold handleStartGame.
  destruct (negb (bool_decide _)); [done|]. destruct (negb (Room.CanStart _)); [done|].
  eapply leaves_impl; [|apply HandleGameStart_leaves]. cbn.
  intros room' (word & hint & ->).
  eapply same_seats_trans; [apply StartGame_seats|].
  eapply same_seats_trans; [apply StartGame_seats | apply StartNewRound_seats].
Qed.

Lemma handleDraw_seats env room ge client cmd :
  leaves (same_seats room) (handleDraw env room ge client cmd).
Proof.
  unfold handleDraw. destruct (negb (bool_decide _)); [done|]. by destruct room.
Qed.

Lemma handleSendGuess_seats fuel env hub room ge client guess :
  leaves (same_seats room) (handleSendGuess fuel env hub room ge client guess).
Proof.
  unfold handleSendGuess. destruct (_ || _); [done|].
  pose proof (ValidateGuess_seats ge (Env.now env) room (client_id client)
                (utils.SanitizeInput guess)) as Hv.
  destruct (ValidateGuess _ _ _ _ _) as [room1 result]. cbn [fst] in Hv.
  apply leaves_emit. destruct (negb _); [done|].
  apply leaves_emit. destruct (GuessResultData.RoundEnding result); [|done].
  eapply leaves_impl; [|apply HandleRoundEnd_seats].
  intros room'. by apply same_seats_trans.
Qed.

Lemma roundTimerTick_seats fuel env hub room ge :
  leaves (same_seats room) (roundTimerTick fuel env hub room ge).
Proof.
  unfold roundTimerTick. apply leaves_emit.
  destruct (_ <=? _); [apply HandleRoundEnd_seats | done].
Qed.

Lemma same_seats_respected room room' :
  same_seats room room' → seats_respected room → seats_respected room'.
Proof. unfold seats_respected. intros [-> ->]. done. Qed.

Lemma AddPlayer_respects now user room :
  seats_respected room → seats_respected (Room.AddPlayer now user room).1.
Proof.
  unfold seats_respected, Room.AddPlayer.
  destruct (_ >=? _) eqn:Hfull; [done|].
  rewrite Z.geb_leb in Hfull. apply Z.leb_gt in Hfull.
  destruct (bool_decide _) eqn:Hin; [done|].
  apply bool_decide_eq_false in Hin. rewrite <- eq_None_not_Some in Hin.
  intros _. unfold Room.len_Players in *. destruct room; cbn in *.
  rewrite map_size_insert_None by done.
  revert Hfull. generalize (size Players). intros n Hn. lia.
Qed.

Lemma assignNewHost_seats room : same_seats room (Room.assignNewHost room).
Proof.
  unfold Room.assignNewHost. destruct (_ =? _); [by destruct room|].
  destruct (list_find _ _) as [[i p]|]; by destruct room.
Qed.

Lemma RemovePlayer_respects now userID room :
  seats_respected room → seats_respected (Room.RemovePlayer now userID room).1.
Proof.
  unfold Room.RemovePlayer. destruct (bool_decide _); [|done]. cbn [fst].
  set (room1 := Room.set_GuessedPlayers _ _).
  assert (H1 : Room.MaxPlayers room1 = Room.MaxPlayers room
               ∧ (Room.len_Players room1 ≤ Room.len_Players room)).
  { subst room1. unfold Room.len_Players. destruct room; cbn. split; [done|].
    pose proof (map_size_delete userID Players) as Hs. revert Hs.
    generalize (size (delete userID Players)), (size Players).
    intros n m. destruct (Players !! userID); unfold id; lia. }
  assert (H2 : ∀ r, same_seats r (Room.set_LastActivity now r)) by (by intros []).
  intros Hroom. unfold seats_respected in *.
  destruct (_ && _).
  - destruct (assignNewHost_seats room1) as [Ha Hb].
    destruct (H2 (Room.assignNewHost room1)) as [-> ->]. lia.
  - destruct (H2 room1) as [-> ->]. lia.
Qed.

Lemma step_seats room room' :
  step room room' → seats_respected room → seats_respected room'.
Proof.
  destruct 1 as [now user room | now userID room
                 | fuel env hub ge client room room' ge' es Hdone
                 | env ge client cmd room room' ge' es Hdone
                 | fuel env hub ge client guess room room' ge' es Hdone
                 | fuel env hub ge room room' ge' es Hdone
                 | userID f room].
  - apply AddPlayer_respects.
  - apply RemovePlayer_respects.
  - apply same_seats_respected.
    exact (leaves_Done _ _ _ _ _ (handleStartGame_seats _ _ _ _ _ _) Hdone).
  - apply same_seats_respected.
    exact (leaves_Done _ _ _ _ _ (handleDraw_seats _ _ _ _ _) Hdone).
  - apply same_seats_respected.
    exact (leaves_Done _ _ _ _ _ (handleSendGuess_seats _ _ _ _ _ _ _) Hdone).
  - apply same_seats_respected.
    exact (leaves_Done _ _ _ _ _ (roundTimerTick_seats _ _ _ _ _) Hdone).
  - apply same_seats_respected, update_player_seats.
Qed.

Lemma reachable_seats id code now hostID roomType roomName settings room :
  0 ≤ CreateRoomData.MaxPlayers settings →
  rtc step (Room.NewRoom id code now hostID roomType roomName settings) room →
  seats_respected room.
Proof.
  intros Hmax. revert room. apply rtc_ind_r.
  - unfold seats_respected, Room.len_Players. cbn. rewrite map_size_empty. lia.
  - intros room1 room2 _ Hstep IH. by eapply step_seats.
Qed.

(** The capacity of a room does not change, and a transition either
    adds no player or leaves the room within its capacity. *)
Lemma step_capacity room room' :
  step room room' →
  Room.MaxPlayers room' = Room.MaxPlayers room
  ∧ (Room.len_Players room' ≤ Room.len_Players room
     ∨ Room.len_Players room' ≤ Room.MaxPlayers room').
Proof.
  assert (Hsame : ∀ r r', same_seats r r' →
            Room.MaxPlayers r' = Room.MaxPlayers r
            ∧ (Room.len_Players r' ≤ Room.len_Players r
               ∨ Room.len_Players r' ≤ Room.MaxPlayers r')).
  { intros r r' [-> ->]. split; [done|]. left. lia. }
  destruct 1 as [now user room | now userID room
                 | fuel env hub ge client room room' ge' es Hdone
                 | env ge client cmd room room' ge' es Hdone
                 | fuel env hub ge client guess room room' ge' es Hdone
                 | fuel env hub ge room room' ge' es Hdone
                 | userID f room].
  - unfold Room.AddPlayer.
    destruct (_ >=? _) eqn:Hfull; [split; [done|left; cbn; lia]|].
    rewrite Z.geb_leb in Hfull. apply Z.leb_gt in Hfull.
    destruct (bool_decide _) eqn:Hin; [split; [done|left; cbn; lia]|].
    apply bool_decide_eq_false in Hin. rewrite <- eq_None_not_Some in Hin.
    unfold Room.len_Players in *. destruct room; cbn in *. split; [done|]. right.
    rewrite map_size_insert_None by done.
    revert Hfull. generalize (size Players). intros n Hn. lia.
  - unfold Room.RemovePlayer. destruct (bool_decide _); [|split; [done|left; cbn; lia]].
    cbn [fst]. set (room1 := Room.set_GuessedPlayers _ _).
    assert (H1 : Room.MaxPlayers room1 = Room.MaxPlayers room
                 ∧ (Room.len_Players room1 ≤ Room.len_Players room)).
    { subst room1. unfold Room.len_Players. destruct room; cbn. split; [done|].
      pose proof (map_size_delete userID Players) as Hs. revert Hs.
      generalize (size (delete userID Players)), (size Players).
      intros n m. destruct (Players !! userID); unfold id; lia. }
    assert (H2 : ∀ r, same_seats r (Room.set_LastActivity now r)) by (by intros []).
    destruct (_ && _).
    + destruct (assignNewHost_seats room1) as [Ha Hb].
      destruct (H2 (Room.assignNewHost room1)) as [-> ->].
      split; [lia|]. left. lia.
    + destruct (H2 room1) as [-> ->]. split; [lia|]. left. lia.
  - apply Hsame.
    exact (leaves_Done _ _ _ _ _ (handleStartGame_seats _ _ _ _ _ _) Hdone).
  - apply Hsame.
    exact (leaves_Done _ _ _ _ _ (handleDraw_seats _ _ _ _ _) Hdone).
  - apply Hsame.
    exact (leaves_Done _ _ _ _ _ (handleSendGuess_seats _ _ _ _ _ _ _) Hdone).
  - apply Hsame.
    exact (leaves_Done _ _ _ _ _ (roundTimerTick_seats _ _ _ _ _) Hdone).
  - apply Hsame, update_player_seats.
Qed.

Lemma reachable_capacity id code now hostID roomType roomName settings room :
  rtc step (Room.NewRoom id code now hostID roomType roomName settings) room →
  Room.MaxPlayers room = CreateRoomData.MaxPlayers settings
  ∧ Room.len_Players room ≤ Z.max 0 (Room.MaxPlayers room).
Proof.
  revert room. apply rtc_ind_r.
  - unfold Room.len_Players. cbn. rewrite map_size_empty. lia.
  - intros room1 room2 _ Hstep [IH1 IH2].
    destruct (step_capacity _ _ Hstep) as [Hmax Hlen]. rewrite Hmax. lia.
Qed.

(** ** Joining a room (C7) *)

(** C7, as stated, fails: [create_room] takes [max_players] as the
    client sends it, and a room created with [max_players = -1] has more
    players (none) than its capacity. *)
Lemma players_exceed_negative_capacity :
  let room := Room.NewRoom "room_1" "ABCDEF" 0 "alice" RoomTypePublic "Doodle"
                (Scenario.settings (-1) 3) in
  reachable room
  ∧ Room.len_Players room = 0 ∧ Room.MaxPlayers room = -1
  ∧ ¬ Room.len_Players room ≤ Room.MaxPlayers room.
Proof.
  split; [by repeat eexists|]. split; [reflexivity|]. split; [reflexivity|].
  vm_compute. intros H. by apply H.
Qed.

Lemma AddPlayer_refused now user room :
  join_refused user room → Room.AddPlayer now user room = (room, false).
Proof.
  unfold join_refused, Room.AddPlayer. intros [Hfull|Hin].
  - destruct (_ >=? _) eqn:E; [done|].
    rewrite Z.geb_leb in E. apply Z.leb_gt in E. lia.
  - destruct (_ >=? _); [done|]. by rewrite bool_decide_eq_true_2.
Qed.

Lemma AddPlayer_accepted now user room :
  ¬ join_refused user room →
  Room.AddPlayer now user room
  = (Room.set_LastActivity now
       (Room.set_PlayerOrder (Room.PlayerOrder room ++ [User.ID user])
          (Room.set_Players (<[User.ID user := user]> (Room.Players room)) room)),
     true).
Proof.
  unfold join_refused, Room.AddPlayer. intros Hno.
  destruct (_ >=? _) eqn:E.
  { rewrite Z.geb_leb in E. apply Z.leb_le in E. tauto. }
  rewrite bool_decide_eq_false_2 by tauto. by destruct room.
Qed.

(** C7, as amended.  [AddPlayer] refuses a user exactly when the room
    is full or the user is already a player: it then returns false and
    leaves the room as it was, and [handleJoinRoom] answers the client
    with [JOIN_FAILED]; otherwise the user is added to the players and
    at the end of the player order.  In every room that can be reached
    from a room created with a capacity that is not negative, the
    players are at most [max_players]; whatever the capacity it was
    created with, the room keeps that capacity and its players are at
    most [max_players] or none. *)
Theorem join_refused_when_full_or_present :
  (∀ now user room,
     ((Room.AddPlayer now user room).2 = false ↔ join_refused user room)
     ∧ (join_refused user room → (Room.AddPlayer now user room).1 = room)
     ∧ (¬ join_refused user room →
        let room' := (Room.AddPlayer now user room).1 in
        Room.Players room' = <[User.ID user := user]> (Room.Players room)
        ∧ Room.PlayerOrder room' = Room.PlayerOrder room ++ [User.ID user]
        ∧ Room.MaxPlayers room' = Room.MaxPlayers room))
  ∧ (∀ env hub rm client roomCode p room,
       let code := utils.NormalizeRoomCode roomCode in
       utils.ValidateRoomCode code = true →
       RoomManager.GetRoomByCode code rm = Some p →
       RoomManager.GetRoom (Room.ID room) rm = Some p →
       RoomManager.deref rm p = Some room →
       (join_refused (Client.user client) room →
        handleJoinRoom env hub rm client roomCode
        = Done (hub, rm, client)
            [sendClientError (Env.now env) client "Failed to join room" "JOIN_FAILED"])
       ∧ (¬ join_refused (Client.user client) room →
          ∃ hub' rm' es,
            handleJoinRoom env hub rm client roomCode
            = Done (hub', rm', Client.mk (Client.user client) (Room.ID room)) es
            ∧ RoomManager.deref rm' p
              = Some (Room.AddPlayer (Env.now env) (Client.user client) room).1))
  ∧ (∀ id code now hostID roomType roomName settings room,
       0 ≤ CreateRoomData.MaxPlayers settings →
       rtc step (Room.NewRoom id code now hostID roomType roomName settings) room →
       Room.len_Players room ≤ Room.MaxPlayers room)
  ∧ (∀ id code now hostID roomType roomName settings room,
       rtc step (Room.NewRoom id code now hostID roomType roomName settings) room →
       Room.MaxPlayers room = CreateRoomData.MaxPlayers settings
       ∧ Room.len_Players room ≤ Z.max 0 (Room.MaxPlayers room)).
Proof.
  split; [|split; [|split]].
  - intros now user room. split; [split|split].
    + intros Hfalse. destruct (decide (join_refused user room)) as [|Hno]; [done|].
      by rewrite (AddPlayer_accepted _ _ _ Hno) in Hfalse.
    + intros Hr. by rewrite AddPlayer_refused.
    + intros Hr. by rewrite AddPlayer_refused.
    + intros Hno. rewrite AddPlayer_accepted by done. by destruct room.
  - intros env hub rm client roomCode p room code Hvalid Hcode Hid Hp.
    unfold handleJoinRoom. fold code. rewrite Hvalid, Hcode. cbn [negb mbind option_bind].
    rewrite Hp. unfold RoomManager.JoinRoom. rewrite Hid, Hp. split.
    + intros Hr. unfold Room.IsFull. destruct (_ >=? _); [done|].
      rewrite AddPlayer_refused by done. cbn.
      unfold RoomManager.assign. rewrite list_insert_id by done. by destruct rm.
    + intros Hno. unfold Room.IsFull. destruct (_ >=? _) eqn:E.
      { rewrite Z.geb_leb in E. apply Z.leb_le in E. destruct Hno. by left. }
      rewrite AddPlayer_accepted by done. cbn [negb].
      do 3 eexists. split; [reflexivity|].
      unfold RoomManager.deref, RoomManager.assign. cbn.
      apply list_lookup_insert_eq. by eapply lookup_lt_Some.
  - intros id code now hostID roomType roomName settings room Hmax Hr.
    by eapply reachable_seats.
  - intros id code now hostID roomType roomName settings room Hr.
    by eapply reachable_capacity.
Qed.

(** C7 at a run of the code: Carol types the code of the full room. *)
Lemma join_refused_when_full_or_present_witness :
  let room := Scenario.lobby 2 3 [Scenario.alice; Scenario.bob] in
  let carol := Client.mk Scenario.carol "" in
  (RoomManager.deref full_house 0 = Some room
   ∧ join_refused Scenario.carol room
   ∧ handleJoinRoom (Scenario.at_second 3) (Scenario.hub [Scenario.alice; Scenario.bob])
       full_house carol " abcdef "
     = Done (Scenario.hub [Scenario.alice; Scenario.bob], full_house, carol)
         [sendClientError (3 * Go.Second) carol "Failed to join room" "JOIN_FAILED"])
  ∧ (reachable room ∧ Room.len_Players room ≤ Room.MaxPlayers room).
Proof.
  assert (Hroom : RoomManager.deref full_house 0
                  = Some (Scenario.lobby 2 3 [Scenario.alice; Scenario.bob]))
    by (vm_compute; reflexivity).
  assert (Hfull : join_refused Scenario.carol
                    (Scenario.lobby 2 3 [Scenario.alice; Scenario.bob]))
    by (left; vm_compute; discriminate).
  assert (Hreach : rtc step
                     (Room.NewRoom "room_1" "ABCDEF" 0 "alice" RoomTypePublic "Doodle"
                        (Scenario.settings 2 3))
                     (Scenario.lobby 2 3 [Scenario.alice; Scenario.bob])).
  { eapply rtc_l; [apply (step_join (1 * Go.Second) Scenario.alice)|].
    eapply rtc_l; [apply (step_join (2 * Go.Second) Scenario.bob)|].
    apply rtc_refl. }
  split; [split; [exact Hroom | split; [exact Hfull|]] | split; [by repeat eexists|]].
  - refine (proj1 (proj1 (proj2 join_refused_when_full_or_present)
              (Scenario.at_second 3) (Scenario.hub [Scenario.alice; Scenario.bob])
              full_house (Client.mk Scenario.carol "") " abcdef " O
              (Scenario.lobby 2 3 [Scenario.alice; Scenario.bob]) _ _ _ Hroom) Hfull);
      vm_compute; reflexivity.
  - refine (proj1 (proj2 (proj2 join_refused_when_full_or_present))
              _ _ _ _ _ _ _ _ _ Hreach).
    vm_compute; discriminate.
Defined.

(** ** The players who guessed (C8) *)

Lemma nobody_guessed_ok room : Room.GuessedPlayers room = [] → guessed_ok room.
Proof.
  intros H. unfold guessed_ok. rewrite H.
  split; [constructor|]. split; [apply not_elem_of_nil | done].
Qed.

Lemma same_guessed_ok room room' : same_guessed room room' → guessed_ok room → guessed_ok room'.
Proof. unfold guessed_ok. by intros (-> & -> & ->). Qed.

Lemma update_player_guessed userID f room :
  same_guessed room (update_player userID f room).
Proof. by destruct room. Qed.

Lemma StartNewRound_nobody now word hint room :
  Room.GuessedPlayers (Room.StartNewRound now word hint room) = [].
Proof.
  unfold Room.StartNewRound.
  match goal with |- context [Room.selectNextDrawer ?r] =>
    destruct (selectNextDrawer_fields r) as (_ & _ & -> & _) end.
  by destruct room.
Qed.

Lemma EndGame_nobody now room : Room.GuessedPlayers (Room.EndGame now room) = [].
Proof. by destruct room. Qed.

Lemma HandleRoundEnd_nobody fuel env hub room ge :
  leaves guessed_ok (HandleRoundEnd fuel env hub room ge).
Proof.
  eapply leaves_impl; [|apply HandleRoundEnd_leaves]. cbn.
  intros room' [-> | (word & hint & ->)]; apply nobody_guessed_ok.
  - apply EndGame_nobody.
  - apply StartNewRound_nobody.
Qed.

Lemma ValidateGuess_guessed_ok ge now room userID guess :
  Room.State room = GameStatePlaying → guessed_ok room →
  guessed_ok (ValidateGuess ge now room userID guess).1.
Proof.
  intros Hplaying Hok.
  destruct (ValidateGuess_room ge now room userID guess)
    as [[-> _] | [[-> _] | (Hdrawer & _ & points & order & ->)]].
  - done.
  - eapply same_guessed_ok; [apply update_player_guessed | done].
  - set (room1 := update_player userID _ (update_player userID _ room)).
    assert (H1 : same_guessed room room1).
    { unfold room1. by destruct room. }
    apply (same_guessed_ok _ _ H1) in Hok. destruct H1 as (_ & Hd1 & Hs1).
    destruct Hok as (Hnodup & Hnotin & _).
    unfold Room.AddGuess. destruct (Go.contains _ _) eqn:Hc; cbn [fst].
    + split; [done|]. split; [done|]. intros Hs. congruence.
    + apply contains_false in Hc.
      assert (Hf : ∀ l, Room.GuessedPlayers
                          (Room.set_LastActivity now (Room.set_GuessedPlayers l room1)) = l
                        ∧ Room.CurrentDrawer
                            (Room.set_LastActivity now (Room.set_GuessedPlayers l room1))
                          = Room.CurrentDrawer room1
                        ∧ Room.State
                            (Room.set_LastActivity now (Room.set_GuessedPlayers l room1))
                          = Room.State room1) by (intros; by destruct room1).
      destruct (Hf (Room.GuessedPlayers room1 ++ [userID])) as (Hg & Hd & Hs).
      unfold guessed_ok. rewrite Hg, Hd, Hs. split; [|split].
      * apply NoDup_app. split; [done|]. split; [|apply NoDup_singleton].
        intros x Hx Hx'. apply list_elem_of_singleton in Hx'. by subst x.
      * intros Hin. apply elem_of_app in Hin as [Hin|Hin]; [done|].
        apply list_elem_of_singleton in Hin. congruence.
      * intros Hn. congruence.
Qed.

Lemma handleStartGame_guessed_ok fuel env hub room ge client :
  guessed_ok room → leaves guessed_ok (handleStartGame fuel env hub room ge client).
Proof.
  intros Hok. unfold handleStartGame.
  destruct (negb (bool_decide _)); [done|]. destruct (negb (Room.CanStart _)); [done|].
  eapply leaves_impl; [|apply HandleGameStart_leaves]. cbn.
  intros room' (word & hint & ->). apply nobody_guessed_ok, StartNewRound_nobody.
Qed.

Lemma handleDraw_guessed_ok env room ge client cmd :
  guessed_ok room → leaves guessed_ok (handleDraw env room ge client cmd).
Proof.
  intros Hok. unfold handleDraw. destruct (negb (bool_decide _)); [done|]. cbn.
  eapply same_guessed_ok; [|exact Hok]. by destruct room.
Qed.

Lemma handleSendGuess_guessed_ok fuel env hub room ge client guess :
  guessed_ok room → leaves guessed_ok (handleSendGuess fuel env hub room ge client guess).
Proof.
  intros Hok. unfold handleSendGuess.
  destruct (bool_decide (Room.State room = GameStatePlaying)) eqn:Hs; [|done].
  apply bool_decide_eq_true in Hs. cbn [negb orb].
  destruct (negb (bool_decide _)); [done|].
  pose proof (ValidateGuess_guessed_ok ge (Env.now env) room (client_id client)
                (utils.SanitizeInput guess) Hs Hok) as Hv.
  destruct (ValidateGuess _ _ _ _ _) as [room1 result]. cbn [fst] in Hv.
  apply leaves_emit. destruct (negb _); [done|].
  apply leaves_emit. destruct (GuessResultData.RoundEnding result); [|done].
  apply HandleRoundEnd_nobody.
Qed.

Lemma roundTimerTick_guessed_ok fuel env hub room ge :
  guessed_ok room → leaves guessed_ok (roundTimerTick fuel env hub room ge).
Proof.
  intros Hok. unfold roundTimerTick. apply leaves_emit.
  destruct (_ <=? _); [apply HandleRoundEnd_nobody | done].
Qed.

Lemma AddPlayer_guessed now user room :
  same_guessed room (Room.AddPlayer now user room).1.
Proof.
  unfold Room.AddPlayer. destruct (_ >=? _); [done|].
  destruct (bool_decide _); [done|]. by destruct room.
Qed.

Lemma RemovePlayer_guessed_ok now userID room :
  guessed_ok room → guessed_ok (Room.RemovePlayer now userID room).1.
Proof.
  intros (Hnodup & Hnotin & Hlobby).
  unfold Room.RemovePlayer. destruct (bool_decide _); [|done]. cbn [fst].
  set (room1 := Room.set_GuessedPlayers _ _).
  assert (H1 : Room.GuessedPlayers room1
               = Go.remove_first userID (Room.GuessedPlayers room)
               ∧ Room.CurrentDrawer room1 = Room.CurrentDrawer room
               ∧ Room.State room1 = Room.State room) by (by destruct room).
  assert (H2 : ∀ r, same_guessed r (Room.set_LastActivity now r)) by (by intros []).
  assert (H3 : ∀ r, same_guessed r (Room.assignNewHost r)).
  { intros r. unfold Room.assignNewHost. destruct (_ =? _); [by destruct r|].
    destruct (list_find _ _) as [[i p]|]; by destruct r. }
  assert (Hok1 : guessed_ok room1).
  { destruct H1 as (Hg & Hd & Hs). unfold guessed_ok. rewrite Hg, Hd, Hs.
    split; [by apply remove_first_NoDup|]. split.
    - intros Hin. by apply remove_first_elem_of in Hin.
    - intros Hn. by rewrite (Hlobby Hn). }
  destruct (_ && _).
  - eapply same_guessed_ok; [apply H2|]. eapply same_guessed_ok; [apply H3|]. done.
  - eapply same_guessed_ok; [apply H2|]. done.
Qed.

Lemma step_guessed_ok room room' : step room room' → guessed_ok room → guessed_ok room'.
Proof.
  destruct 1 as [now user room | now userID room
                 | fuel env hub ge client room room' ge' es Hdone
                 | env ge client cmd room room' ge' es Hdone
                 | fuel env hub ge client guess room room' ge' es Hdone
                 | fuel env hub ge room room' ge' es Hdone
                 | userID f room]; intros Hok.
  - eapply same_guessed_ok; [apply AddPlayer_guessed | done].
  - by apply RemovePlayer_guessed_ok.
  - exact (leaves_Done _ _ _ _ _ (handleStartGame_guessed_ok _ _ _ _ _ _ Hok) Hdone).
  - exact (leaves_Done _ _ _ _ _ (handleDraw_guessed_ok _ _ _ _ _ Hok) Hdone).
  - exact (leaves_Done _ _ _ _ _ (handleSendGuess_guessed_ok _ _ _ _ _ _ _ Hok) Hdone).
  - exact (leaves_Done _ _ _ _ _ (roundTimerTick_guessed_ok _ _ _ _ _ Hok) Hdone).
  - eapply same_guessed_ok; [apply update_player_guessed | done].
Qed.

Lemma reachable_guessed_ok room : reachable room → guessed_ok room.
Proof.
  intros (id & code & now & hostID & roomType & roomName & settings & Hsteps).
  revert room Hsteps. apply rtc_ind_r.
  - by apply nobody_guessed_ok.
  - intros room1 room2 _ Hstep IH. by eapply step_guessed_ok.
Qed.

(** When the handlers and the timer run one at a time: in every room
    that can be reached, [guessed_players] has no duplicates and does
    not contain the current drawer.  [AddGuess] refuses a user who is in
    it, and [ValidateGuess] turns the current drawer away before
    anything is recorded. *)
Lemma guessed_players_distinct_without_drawer :
  (∀ room, reachable room →
     NoDup (Room.GuessedPlayers room)
     ∧ Room.CurrentDrawer room ∉ Room.GuessedPlayers room)
  ∧ (∀ now userID room,
       userID ∈ Room.GuessedPlayers room →
       Room.AddGuess now userID room = (room, false))
  ∧ (∀ ge now room guess,
       ValidateGuess ge now room (Room.CurrentDrawer room) guess = (room, incorrect)).
Proof.
  split; [|split].
  - intros room Hr. destruct (reachable_guessed_ok room Hr) as (Hn & Hd & _). done.
  - intros now userID room Hin. unfold Room.AddGuess.
    apply contains_true in Hin. by rewrite Hin.
  - intros ge now room guess. unfold ValidateGuess.
    destruct (Room.GetPlayer _ _); [|done].
    rewrite bool_decide_eq_true_2 by done. by rewrite orb_true_r.
Qed.

(** The lemma at a run of the code: the game of three, after Alice's
    guess. *)
Lemma guessed_players_distinct_without_drawer_witness :
  let room := (Scenario.guessed Scenario.three (Scenario.started Scenario.three 3)
                 Scenario.alice "cat").1 in
  (reachable room ∧ Room.GuessedPlayers room = ["alice"]
   ∧ Room.CurrentDrawer room = "bob")
  ∧ NoDup (Room.GuessedPlayers room)
  ∧ Room.CurrentDrawer room ∉ Room.GuessedPlayers room.
Proof.
  assert (Hreach : reachable
                     (Scenario.guessed Scenario.three (Scenario.started Scenario.three 3)
                        Scenario.alice "cat").1).
  { exists "room_1", "ABCDEF", 0, "alice", RoomTypePublic, "Doodle", (Scenario.settings 8 3).
    eapply rtc_l; [apply (step_join (1 * Go.Second) Scenario.alice)|].
    eapply rtc_l; [apply (step_join (2 * Go.Second) Scenario.bob)|].
    eapply rtc_l; [apply (step_join (3 * Go.Second) Scenario.carol)|].
    eapply rtc_l.
    { apply (step_start 2 (Scenario.at_second 100) (Scenario.hub Scenario.three)
               Scenario.engine (Scenario.client Scenario.alice) _
               (Scenario.started Scenario.three 3).1
               (Scenario.started Scenario.three 3).2
               (effects_of (Scenario.start Scenario.three 3))).
      vm_compute. reflexivity. }
    eapply rtc_l; [|apply rtc_refl].
    apply (step_guess 2 (Scenario.at_second 110) (Scenario.hub Scenario.three)
             (Scenario.started Scenario.three 3).2 (Scenario.client Scenario.alice) "cat" _
             (Scenario.guessed Scenario.three (Scenario.started Scenario.three 3)
                Scenario.alice "cat").1
             (Scenario.guessed Scenario.three (Scenario.started Scenario.three 3)
                Scenario.alice "cat").2
             (effects_of (Scenario.guess Scenario.three (Scenario.started Scenario.three 3)
                            Scenario.alice "cat"))).
    vm_compute. reflexivity. }
  split; [split; [exact Hreach | split; vm_compute; reflexivity]|].
  exact (proj1 guessed_players_distinct_without_drawer _ Hreach).
Defined.

(** ** A guess and the timer (C8) *)

(** [ValidateGuess] is its two parts, run one after the other. *)
Lemma ValidateGuess_begin_end ge now room userID guess :
  ValidateGuess ge now room userID guess
  = match ValidateGuess_begin ge now room userID guess with
    | (room1, inl result) => (room1, result)
    | (room1, inr locals) => ValidateGuess_end ge now room1 userID locals
    end.
Proof.
  unfold ValidateGuess, ValidateGuess_begin, ValidateGuess_end.
  destruct (Room.GetPlayer userID room) as [user|]; [|done].
  destruct (User.HasGuessedThisRound user || _); [done|].
  by destruct (negb _).
Qed.

(** C8 fails on the code: the current drawer enters [guessed_players].
    In the game of three Bob draws "cat" from second 100.  Carol, who is
    next in the order, sends the word at second 159: [ValidateGuess]
    finds that she is not the drawer, records the guess and adds the
    points.  It holds no lock, and before it reaches [room.AddGuess] the
    timer of the room finds no second left, ends the round and starts
    the next one: [guessed_players] is emptied and Carol is the drawer.
    [AddGuess] then adds her. *)
Lemma guess_overtaken_by_the_timer :
  let room := (Scenario.started Scenario.three 3).1 in
  (Room.CurrentDrawer room = "bob" ∧ Room.CurrentWord room = "cat"
   ∧ Room.RoundEndTime room = 160 * Go.Second
   ∧ Room.PlayerOrder room = ["alice"; "bob"; "carol"])
  ∧ (Overtaken.begun.2 = inr (1, 59, 216)
     ∧ Overtaken.begun.1
       = update_player "carol" (User.AddScore 216)
           (update_player "carol" (User.RecordGuess (159 * Go.Second) true 1) room))
  ∧ (∃ s es, Overtaken.tick = Done s es
             ∧ Room.CurrentRound s.1 = 3 ∧ Room.CurrentDrawer s.1 = "carol"
             ∧ Room.GuessedPlayers s.1 = []
             ∧ Overtaken.ended
               = ValidateGuess_end s.2 (Env.now (after_second 159)) s.1 "carol"
                   (1, 59, 216))
  ∧ (Room.CurrentDrawer Overtaken.ended.1 = "carol"
     ∧ Room.GuessedPlayers Overtaken.ended.1 = ["carol"]
     ∧ Room.CurrentDrawer Overtaken.ended.1 ∈ Room.GuessedPlayers Overtaken.ended.1
     ∧ GuessResultData.Correct Overtaken.ended.2 = true).
Proof.
  cbv zeta. split; [|split; [|split]].
  - repeat split; vm_compute; reflexivity.
  - split; vm_compute; reflexivity.
  - do 2 eexists. split; [vm_compute; reflexivity|].
    repeat split; vm_compute; reflexivity.
  - split; [vm_compute; reflexivity|]. split; [vm_compute; reflexivity|].
    split; [|vm_compute; reflexivity].
    replace (Room.CurrentDrawer Overtaken.ended.1) with "carol"
      by (vm_compute; reflexivity).
    replace (Room.GuessedPlayers Overtaken.ended.1) with ["carol"]
      by (vm_compute; reflexivity).
    by left.
Qed.
(** * Further properties of the code *)

(** ** Cleaning the input ([utils]) *)

Lemma ReplaceAll_char c s :
  strings.ReplaceAll s (String c EmptyString) "" = without c s.
Proof.
  unfold strings.ReplaceAll. induction s as [|d s IH]; cbn; [done|].
  rewrite IH. 
  destruct (Ascii.eqb d c) eqn:E.
  - apply Ascii.eqb_eq in E as ->. 
    destruct (ascii_dec c c); [|done]. by destruct s.
  - apply Ascii.eqb_neq in E. destruct (ascii_dec c d); [congruence|done].
Qed.

Lemma ContainsRune_without c s : strings.ContainsRune (without c s) c = false.
Proof.
  induction s as [|d s IH]; cbn; [done|].
  destruct (Ascii.eqb d c) eqn:E; [done|]. cbn.
  rewrite Ascii.eqb_sym, E. done.
Qed.

Lemma ContainsRune_without_other c d s :
  strings.ContainsRune s d = false → strings.ContainsRune (without c s) d = false.
Proof.
  induction s as [|e s IH]; cbn; [done|].
  destruct (Ascii.eqb d e) eqn:E; [done|]. intros H.
  destruct (Ascii.eqb e c); cbn; [by apply IH|]. rewrite E. by apply IH.
Qed.

Lemma without_absent c s : strings.ContainsRune s c = false → without c s = s.
Proof.
  induction s as [|d s IH]; cbn; [done|].
  rewrite (Ascii.eqb_sym c d). destruct (Ascii.eqb d c); [done|].
  intros H. by rewrite IH.
Qed.

Lemma ContainsRune_trim_left c s :
  strings.ContainsRune s c = false →
  strings.ContainsRune (strings.trim_left s) c = false.
Proof.
  induction s as [|d s IH]; cbn; [done|].
  destruct (Ascii.eqb c d) eqn:E; [done|]. intros H.
  destruct (strings.is_space d); [by apply IH|]. cbn. by rewrite E.
Qed.

Lemma ContainsRune_trim_right c s :
  strings.ContainsRune s c = false →
  strings.ContainsRune (strings.trim_right s) c = false.
Proof.
  induction s as [|d s IH]; cbn; [done|].
  destruct (Ascii.eqb c d) eqn:E; [done|]. intros H.
  specialize (IH H).
  destruct (strings.trim_right s) as [|e r].
  - destruct (strings.is_space d); cbn; [done|]. by rewrite E.
  - cbn. rewrite E. done.
Qed.

Lemma ContainsRune_TrimSpace c s :
  strings.ContainsRune s c = false →
  strings.ContainsRune (strings.TrimSpace s) c = false.
Proof.
  intros H. unfold strings.TrimSpace.
  by apply ContainsRune_trim_right, ContainsRune_trim_left.
Qed.

(** The head of [trim_left s] is not white space. *)
Lemma trim_left_head s c rest :
  strings.trim_left s = String c rest → strings.is_space c = false.
Proof.
  induction s as [|d s IH]; cbn; [done|].
  destruct (strings.is_space d) eqn:E; [done|]. by intros [= <- _].
Qed.

Lemma trim_left_id c s :
  strings.is_space c = false → strings.trim_left (String c s) = String c s.
Proof. intros H. cbn. by rewrite H. Qed.

(** [trim_right] keeps the head of a string that does not begin with
    white space. *)
Lemma trim_right_head c s :
  strings.is_space c = false →
  ∃ rest, strings.trim_right (String c s) = String c rest.
Proof.
  intros H. cbn. destruct (strings.trim_right s); [rewrite H|]; eauto.
Qed.

Lemma trim_right_last s rest c :
  strings.trim_right s = rest +:+ String c EmptyString → strings.is_space c = false.
Proof.
  revert rest. induction s as [|d s IH]; intros rest; cbn.
  - by destruct rest.
  - destruct (strings.trim_right s) as [|e r] eqn:E.
    + destruct (strings.is_space d) eqn:Ed; [by destruct rest|].
      destruct rest as [|x [|y rest]]; cbn; intros [= ]; by subst.
    + destruct rest as [|x rest]; cbn; [done|].
      intros [= -> Hr]. by eapply IH.
Qed.

Lemma trim_right_cons d s :
  strings.trim_right (String d s)
  = match strings.trim_right s with
    | EmptyString => if strings.is_space d then EmptyString else String d EmptyString
    | r => String d r
    end.
Proof. done. Qed.

Lemma trim_right_idemp s :
  strings.trim_right (strings.trim_right s) = strings.trim_right s.
Proof.
  induction s as [|d s IH]; [done|]. rewrite trim_right_cons.
  destruct (strings.trim_right s) as [|e r] eqn:E.
  - destruct (strings.is_space d) eqn:Ed; [done|]. cbn. by rewrite Ed.
  - rewrite trim_right_cons, IH. done.
Qed.

Lemma TrimSpace_trimmed s : trimmed (strings.TrimSpace s).
Proof.
  unfold strings.TrimSpace. split.
  - intros c rest H.
    destruct (strings.trim_left s) as [|d t] eqn:E; [done|].
    pose proof (trim_left_head _ _ _ E) as Hd.
    destruct (trim_right_head d t Hd) as [r Hr]. rewrite Hr in H.
    by injection H as -> _.
  - intros rest c. apply trim_right_last.
Qed.

Lemma TrimSpace_idemp s :
  strings.TrimSpace (strings.TrimSpace s) = strings.TrimSpace s.
Proof.
  unfold strings.TrimSpace.
  destruct (strings.trim_left s) as [|d t] eqn:E; [done|].
  pose proof (trim_left_head _ _ _ E) as Hd.
  destruct (trim_right_head d t Hd) as [r Hr]. rewrite Hr.
  rewrite trim_left_id by done. rewrite <- Hr. apply trim_right_idemp.
Qed.

Lemma SanitizeInput_without input :
  utils.SanitizeInput input
  = strings.TrimSpace
      (without "'" (without (ascii_of_nat 34) (without "&" (without ">"
         (without "<" input))))).
Proof.
  unfold utils.SanitizeInput.
  by rewrite (ReplaceAll_char "<"), (ReplaceAll_char ">"), (ReplaceAll_char "&"),
    (ReplaceAll_char (ascii_of_nat 34)), (ReplaceAll_char "'").
Qed.

Lemma SanitizeInput_safe input :
  Forall (λ c, strings.ContainsRune input c = false) dangerous →
  utils.SanitizeInput input = strings.TrimSpace input.
Proof.
  intros H. rewrite SanitizeInput_without.
  apply Forall_cons in H as [H1 H]. apply Forall_cons in H as [H2 H].
  apply Forall_cons in H as [H3 H]. apply Forall_cons in H as [H4 H].
  apply Forall_cons in H as [H5 _].
  by rewrite (without_absent "<"), (without_absent ">"), (without_absent "&"),
    (without_absent (ascii_of_nat 34)), (without_absent "'").
Qed.

(** [SanitizeInput] leaves none of the characters [<], [>], [&], the
    double and the single quote, and no white space at either end; what
    it returns it would return unchanged. *)
Theorem SanitizeInput_clean (input : string) :
  let out := utils.SanitizeInput input in
  Forall (λ c, strings.ContainsRune out c = false) dangerous
  ∧ trimmed out
  ∧ utils.SanitizeInput out = out.
Proof.
  intros out.
  assert (Hclean : Forall (λ c, strings.ContainsRune out c = false) dangerous).
  { subst out. rewrite SanitizeInput_without.
    repeat apply Forall_cons_2; [..|apply Forall_nil_2];
      apply ContainsRune_TrimSpace;
      repeat first [apply ContainsRune_without | apply ContainsRune_without_other]. }
  split; [done|]. split.
  - subst out. rewrite SanitizeInput_without. apply TrimSpace_trimmed.
  - rewrite SanitizeInput_safe by done.
    subst out. rewrite SanitizeInput_without. apply TrimSpace_idemp.
Qed.

(** ** User names ([utils]) *)

Lemma all_chars_impl (P Q : ascii → bool) s :
  (∀ c, P c = true → Q c = true) →
  utils.all_chars P s = true → utils.all_chars Q s = true.
Proof.
  intros HPQ. induction s as [|c s IH]; cbn; [done|].
  intros [Hc Hs]%andb_prop. by rewrite (HPQ c Hc), IH.
Qed.

Lemma all_chars_ContainsRune (P : ascii → bool) s c :
  utils.all_chars P s = true → P c = false → strings.ContainsRune s c = false.
Proof.
  intros Hs Hc. induction s as [|d s IH]; cbn in *; [done|].
  apply andb_prop in Hs as [Hd Hs].
  destruct (Ascii.eqb c d) eqn:E; [|by apply IH].
  apply Ascii.eqb_eq in E as ->. congruence.
Qed.

Lemma trim_left_no_space s :
  utils.all_chars (λ c, negb (strings.is_space c)) s = true → strings.trim_left s = s.
Proof.
  destruct s as [|c s]; cbn; [done|].
  intros [Hc _]%andb_prop. by apply negb_true_iff in Hc as ->.
Qed.

Lemma trim_right_no_space s :
  utils.all_chars (λ c, negb (strings.is_space c)) s = true → strings.trim_right s = s.
Proof.
  induction s as [|c s IH]; [done|]. cbn [utils.all_chars].
  intros [Hc Hs]%andb_prop. rewrite trim_right_cons, IH by done.
  apply negb_true_iff in Hc as ->. by destruct s.
Qed.

Lemma word_char_no_space c :
  utils.is_word_char c = true → negb (strings.is_space c) = true.
Proof. by destruct c as [[] [] [] [] [] [] [] []]. Qed.

(** A name that [ValidateUserName] accepts has 3 to 20 characters, all
    of them letters, digits or underscores, and contains none of the
    words admin, system and root in whatever case; [SanitizeInput],
    which the handlers apply to it next, returns it as it is. *)
Theorem valid_name_needs_no_cleaning (name : string) :
  utils.ValidateUserName name = true →
  (3 ≤ String.length name ≤ 20)%nat
  ∧ utils.all_chars utils.is_word_char name = true
  ∧ Forall (λ word, strings.Contains (strings.ToLower name) word = false) utils.badWords
  ∧ utils.SanitizeInput name = name.
Proof.
  unfold utils.ValidateUserName.
  destruct (_ || _) eqn:Hlen; [done|].
  apply orb_false_elim in Hlen as [Hlo Hhi].
  destruct (utils.allowed_MatchString name) eqn:Hre; [|done]. cbn [negb].
  intros Hbad%negb_true_iff.
  assert (Hall : utils.all_chars utils.is_word_char name = true)
    by (by destruct name).
  split.
  { rewrite Z.gtb_ltb in Hhi. apply Z.ltb_ge in Hlo, Hhi. lia. }
  split; [done|]. split.
  - cbn in Hbad.
    apply orb_false_elim in Hbad as [H1 Hbad].
    apply orb_false_elim in Hbad as [H2 Hbad].
    apply orb_false_elim in Hbad as [H3 _].
    by repeat constructor.
  - rewrite SanitizeInput_safe.
    + unfold strings.TrimSpace.
      assert (Hns : utils.all_chars (λ c, negb (strings.is_space c)) name = true)
        by (eapply all_chars_impl; [apply word_char_no_space | done]).
      by rewrite trim_left_no_space, trim_right_no_space.
    + repeat constructor; by eapply all_chars_ContainsRune.
Qed.

(** The theorem at a name, and a name that is refused. *)
Lemma valid_name_needs_no_cleaning_witness :
  utils.ValidateUserName "Alice_01" = true
  ∧ utils.SanitizeInput "Alice_01" = "Alice_01"
  ∧ utils.ValidateUserName "xXRooTXx" = false.
Proof.
  split; [reflexivity|]. split; [|reflexivity].
  apply (valid_name_needs_no_cleaning "Alice_01"). reflexivity.
Defined.

(** ** Room codes ([utils]) *)

Lemma code_char_upper c :
  code_char c = true → strings.to_upper c = c ∧ negb (strings.is_space c) = true.
Proof. by destruct c as [[] [] [] [] [] [] [] []]. Qed.

Lemma byte_at_code k :
  0 ≤ k < 33 → ∃ c, utils.byte_at utils.roomCodeChars k = Some c ∧ code_char c = true.
Proof.
  intros Hk.
  assert (Ht : Forall (λ k, ∃ c, utils.byte_at utils.roomCodeChars k = Some c
                                  ∧ code_char c = true) (seqZ 0 33)).
  { vm_compute. repeat constructor; eexists; (split; [reflexivity|reflexivity]). }
  rewrite Forall_seqZ in Ht. apply Ht. lia.
Qed.

Lemma mapM_code {A} (f : A → Z) (l : list A) :
  Forall (λ x, 0 ≤ f x < 33) l →
  ∃ chars, mapM (λ x, utils.byte_at utils.roomCodeChars (f x)) l = Some chars
           ∧ length chars = length l ∧ Forall (λ c, code_char c = true) chars.
Proof.
  induction 1 as [|x l Hx Hl (chars & Hm & Hlen & Hc)]; cbn.
  - exists []. by repeat split.
  - destruct (byte_at_code (f x) Hx) as (c & -> & Hcc). rewrite Hm. cbn.
    exists (c :: chars). cbn. rewrite Hlen. by repeat constructor.
Qed.

Lemma ToUpper_code s :
  utils.all_chars code_char s = true → strings.ToUpper s = s.
Proof.
  unfold strings.ToUpper. induction s as [|c s IH]; cbn; [done|].
  intros [Hc Hs]%andb_prop. rewrite IH by done.
  by destruct (code_char_upper c Hc) as [-> _].
Qed.

Lemma TrimSpace_code s :
  utils.all_chars code_char s = true → strings.TrimSpace s = s.
Proof.
  intros Hs. unfold strings.TrimSpace.
  assert (Hns : utils.all_chars (λ c, negb (strings.is_space c)) s = true).
  { eapply all_chars_impl; [|done]. intros c Hc. by apply code_char_upper. }
  by rewrite trim_left_no_space, trim_right_no_space.
Qed.

(** A well-formed code is valid and in normal form. *)
Lemma well_formed_code_valid code :
  well_formed_code code →
  utils.ValidateRoomCode code = true ∧ utils.NormalizeRoomCode code = code.
Proof.
  intros [Hlen Hall]. split.
  - unfold utils.ValidateRoomCode. rewrite Hlen. cbn [negb Z.eqb Z.of_nat].
    change (Z.of_nat 6 =? utils.roomCodeLength) with true. cbn [negb].
    by rewrite ToUpper_code.
  - unfold utils.NormalizeRoomCode. by rewrite TrimSpace_code, ToUpper_code.
Qed.

Lemma string_of_code_chars chars :
  length chars = 6%nat → Forall (λ c, code_char c = true) chars →
  well_formed_code (String.string_of_list_ascii chars).
Proof.
  intros Hlen Hall. split.
  - clear Hall. revert Hlen. generalize 6%nat.
    induction chars as [|c chars IH]; intros n; cbn; [done|].
    destruct n as [|n]; [done|]. intros [= H]. by rewrite (IH n).
  - clear Hlen. induction Hall as [|c chars Hc _ IH]; [done|].
    cbn [String.string_of_list_ascii utils.all_chars]. by rewrite Hc, IH.
Qed.

Lemma to_upper_idemp c : strings.to_upper (strings.to_upper c) = strings.to_upper c.
Proof. by destruct c as [[] [] [] [] [] [] [] []]. Qed.

Lemma to_upper_lower c : strings.to_upper (strings.to_lower c) = strings.to_upper c.
Proof. by destruct c as [[] [] [] [] [] [] [] []]. Qed.

Lemma ToUpper_idemp s : strings.ToUpper (strings.ToUpper s) = strings.ToUpper s.
Proof.
  unfold strings.ToUpper. induction s as [|c s IH]; cbn; [done|].
  by rewrite to_upper_idemp, IH.
Qed.

Lemma ToUpper_ToLower s : strings.ToUpper (strings.ToLower s) = strings.ToUpper s.
Proof.
  unfold strings.ToUpper, strings.ToLower. induction s as [|c s IH]; cbn; [done|].
  by rewrite to_upper_lower, IH.
Qed.

Lemma length_map_string f s :
  String.length (strings.map_string f s) = String.length s.
Proof. induction s as [|c s IH]; cbn; [done|]. by rewrite IH. Qed.

(** Room codes, generated and typed.  A code that [GenerateRoomCode]
    returns, from the random bytes or, when these fail, from the clock
    (a time after 1970), consists of six characters of the alphabet;
    such a code is valid and is its own normal form.  What a user
    types is accepted, once normalized, only if it is such a code then;
    the case of the letters does not matter to [ValidateRoomCode]. *)
Theorem room_codes_generated_and_typed :
  (∀ (read : nat → option Z) (timestamp : Z),
     (∀ i b, read i = Some b → 0 ≤ b < 256) → 0 ≤ timestamp →
     ∃ code, utils.GenerateRoomCode read timestamp = Some code ∧ well_formed_code code)
  ∧ (∀ code, well_formed_code code →
       utils.ValidateRoomCode code = true ∧ utils.NormalizeRoomCode code = code)
  ∧ (∀ typed, utils.ValidateRoomCode (utils.NormalizeRoomCode typed) = true →
       well_formed_code (utils.NormalizeRoomCode typed))
  ∧ (∀ code, utils.ValidateRoomCode (strings.ToLower code) = utils.ValidateRoomCode code).
Proof.
  split; [|split; [|split]].
  - intros read timestamp Hread Hts. unfold utils.GenerateRoomCode.
    change (Z.of_nat (String.length utils.roomCodeChars)) with 33.
    change (Z.to_nat utils.roomCodeLength) with 6%nat.
    destruct (mapM read _) as [randomBytes|] eqn:Hm.
    + apply mapM_Some in Hm.
      destruct (mapM_code (λ b, Z.rem b 33) randomBytes) as (chars & -> & Hlen & Hc).
      { eapply Forall2_Forall_r; [exact Hm|]. apply Forall_forall.
        intros i _ b Hb. specialize (Hread i b Hb).
        apply Z.rem_bound_pos; lia. }
      cbn. eexists. split; [done|]. apply string_of_code_chars; [|done].
      rewrite Hlen. apply Forall2_length in Hm. by rewrite <- Hm.
    + unfold utils.generateTimeBasedRoomCode.
      destruct (mapM_code (λ i : nat, Z.rem (Z.shiftr timestamp (Z.of_nat i * 5)) 33)
                  (seq 0 6)) as (chars & Hc & Hlen & Hall).
      { apply Forall_forall. intros i _. apply Z.rem_bound_pos; [|lia].
        by apply Z.shiftr_nonneg. }
      change (Z.of_nat (String.length utils.roomCodeChars)) with 33.
      change (Z.to_nat utils.roomCodeLength) with 6%nat.
      rewrite Hc. cbn. eexists. split; [done|]. by apply string_of_code_chars.
  - apply well_formed_code_valid.
  - intros typed. unfold utils.ValidateRoomCode, utils.NormalizeRoomCode.
    destruct (Z.of_nat _ =? _) eqn:Hlen; [|done]. cbn [negb].
    rewrite ToUpper_idemp. intros Hall. split; [|done].
    apply Z.eqb_eq in Hlen. unfold utils.roomCodeLength in Hlen. lia.
  - intros code. unfold utils.ValidateRoomCode.
    unfold strings.ToLower at 1. rewrite length_map_string.
    by rewrite ToUpper_ToLower.
Qed.

(** The theorem at bytes read and at a failed read; with a clock before
    1970 the fallback indexes the alphabet out of range. *)
Lemma room_codes_generated_and_typed_witness :
  let read := λ i : nat, Some (Z.of_nat (40 * (i `min` 6) + 7)) in
  (∃ code, utils.GenerateRoomCode read 0 = Some code ∧ well_formed_code code)
  ∧ utils.GenerateRoomCode read 0 = Some "HPW5CJ"
  ∧ utils.GenerateRoomCode (λ _, None) 1700000000000000000 = Some "F5F52K"
  ∧ utils.GenerateRoomCode (λ _, None) (-1) = None
  ∧ well_formed_code (utils.NormalizeRoomCode " h7p8q9 ").
Proof.
  intros read. split; [|split; [|split; [|split]]]; try (vm_compute; reflexivity).
  - apply (proj1 room_codes_generated_and_typed); [|lia].
    intros i b [= <-]. lia.
  - apply (proj1 (proj2 (proj2 room_codes_generated_and_typed))). vm_compute. reflexivity.
Defined.

(** ** Drawing a word ([WordBank]) *)

(** [GetRandomWord] on an empty list returns "default" and records
    nothing.  Otherwise it returns a word of the list for the difficulty
    and marks it as used, leaving the three lists alone: a word that
    was not used before as long as the list has one (the first such),
    and else the first word of the list, all other used words (of the
    other lists too) being forgotten at that moment. *)
Theorem GetRandomWord_unused_first (difficulty : string) (wb : WordBank.t) :
  let words := words_for difficulty wb in
  let word := (WordBank.GetRandomWord difficulty wb).1 in
  let wb' := (WordBank.GetRandomWord difficulty wb).2 in
  (words = [] → word = "default" ∧ wb' = wb)
  ∧ (words ≠ [] →
     word ∈ words ∧ word ∈ WordBank.usedWords wb'
     ∧ (WordBank.easyWords wb' = WordBank.easyWords wb
        ∧ WordBank.mediumWords wb' = WordBank.mediumWords wb
        ∧ WordBank.hardWords wb' = WordBank.hardWords wb)
     ∧ ((∃ w, w ∈ words ∧ w ∉ WordBank.usedWords wb) →
        (word ∉ WordBank.usedWords wb)
        ∧ WordBank.usedWords wb' = {[word]} ∪ WordBank.usedWords wb
        ∧ ∃ i, words !! i = Some word
               ∧ ∀ j w, words !! j = Some w → (j < i)%nat → w ∈ WordBank.usedWords wb)
     ∧ ((∀ w, w ∈ words → w ∈ WordBank.usedWords wb) →
        words !! 0%nat = Some word ∧ WordBank.usedWords wb' = {[word]})).
Proof.
  intros words word wb'.
  assert (Hwords : WordBank.GetRandomWord difficulty wb
                   = match words with
                     | [] => ("default", wb)
                     | first :: _ =>
                         match list_find (λ word, word ∉ WordBank.usedWords wb) words with
                         | Some (_, word) =>
                             (word, WordBank.mk (WordBank.easyWords wb)
                                      (WordBank.mediumWords wb) (WordBank.hardWords wb)
                                      ({[word]} ∪ WordBank.usedWords wb))
                         | None =>
                             (first, WordBank.mk (WordBank.easyWords wb)
                                       (WordBank.mediumWords wb) (WordBank.hardWords wb)
                                       {[first]})
                         end
                     end).
  { subst words. unfold WordBank.GetRandomWord, words_for.
    destruct (String.eqb difficulty "easy") eqn:E; [|done].
    apply String.eqb_eq in E as ->. done. }
  subst word wb'. rewrite Hwords. clear Hwords.
  destruct words as [|first rest] eqn:Ew; [by split|].
  split; [done|]. intros _.
  destruct (list_find _ _) as [[i w]|] eqn:Hf; cbn [fst snd].
  - apply list_find_Some in Hf as (Hi & Hw & Hbefore).
    split; [by eapply list_elem_of_lookup_2|].
    split; [cbn; set_solver|]. split; [done|]. split.
    + intros _. split; [done|]. split; [done|]. exists i. split; [done|].
      intros j w' Hj Hlt. specialize (Hbefore j w' Hj Hlt).
      by apply dec_stable in Hbefore.
    + intros Hall. exfalso. apply Hw, Hall. by eapply list_elem_of_lookup_2.
  - apply list_find_None in Hf.
    split; [by left|]. split; [cbn; set_solver|]. split; [done|]. split.
    + intros (w & Hin & Hw). exfalso.
      rewrite Forall_forall in Hf. by apply (Hf w Hin).
    + done.
Qed.

(** The theorem in a bank of two easy words: the second draw takes the
    second word, the third starts again with the first. *)
Lemma GetRandomWord_unused_first_witness :
  let wb := WordBank.mk ["cat"; "sun"] ["rocket"] [] ∅ in
  let draw1 := WordBank.GetRandomWord "easy" wb in
  let draw2 := WordBank.GetRandomWord "easy" draw1.2 in
  let draw3 := WordBank.GetRandomWord "easy" draw2.2 in
  (draw1.1 = "cat" ∧ draw2.1 = "sun" ∧ draw3.1 = "cat")
  ∧ (WordBank.GetRandomWord "hard" wb).1 = "default"
  ∧ draw2.1 ∉ WordBank.usedWords draw1.2.
Proof.
  split; [by vm_compute|]. split.
  - apply (GetRandomWord_unused_first "hard" (WordBank.mk ["cat"; "sun"] ["rocket"] [] ∅)).
    reflexivity.
  - apply (GetRandomWord_unused_first "easy"
             (WordBank.GetRandomWord "easy" (WordBank.mk ["cat"; "sun"] ["rocket"] [] ∅)).2);
      [done|].
    exists "sun". split; [by right; left|]. vm_compute. discriminate.
Defined.

(** ** Hints ([GameEngine]) *)

Lemma spaced_cons c d s :
  spaced (String c (String d s)) = String c (String " " (spaced (String d s))).
Proof. done. Qed.

Lemma length_spaced s :
  s ≠ EmptyString → String.length (spaced s) = (2 * String.length s - 1)%nat.
Proof.
  induction s as [|c s IH]; [done|]. intros _.
  destruct s as [|d s]; [done|]. rewrite spaced_cons.
  cbn [String.length]. rewrite IH by done. cbn [String.length]. lia.
Qed.

Lemma get_spaced_even s i : String.get (2 * i) (spaced s) = String.get i s.
Proof.
  revert i. induction s as [|c s IH]; intros i; [done|].
  destruct s as [|d s].
  - destruct i as [|i]; [done|]. replace (2 * S i)%nat with (S (S (2 * i))) by lia. done.
  - rewrite spaced_cons. destruct i as [|i]; [done|].
    replace (2 * S i)%nat with (S (S (2 * i))) by lia. cbn [String.get]. apply IH.
Qed.

Lemma get_spaced_odd s i :
  (i + 1 < String.length s)%nat → String.get (2 * i + 1) (spaced s) = Some " "%char.
Proof.
  revert i. induction s as [|c s IH]; intros i; cbn [String.length]; [lia|].
  destruct s as [|d s]; cbn [String.length]; [lia|]. intros Hi.
  rewrite spaced_cons. destruct i as [|i]; [done|].
  replace (2 * S i + 1)%nat with (S (S (2 * i + 1))) by lia. cbn [String.get].
  apply IH. cbn [String.length]. lia.
Qed.

Lemma get_string_of_list_ascii (l : list ascii) i :
  String.get i (String.string_of_list_ascii l) = l !! i.
Proof.
  revert i. induction l as [|c l IH]; intros i; [done|].
  destruct i as [|i]; [done|]. cbn. apply IH.
Qed.

Lemma length_string_of_list_ascii (l : list ascii) :
  String.length (String.string_of_list_ascii l) = length l.
Proof. induction l as [|c l IH]; cbn; [done|]. by rewrite IH. Qed.

(** The hint for a medium word.  A word of one or two letters is all
    underscores, as an easy word is.  A longer word gives its first and
    its last letter and an underscore for each letter between, a space
    after each but the last: no other letter of the word is shown. *)
Theorem medium_hint_shows_first_and_last (word : string) :
  let n := String.length word in
  let hint := GetWordHint word "medium" in
  ((n ≤ 2)%nat → hint = strings.Repeat "_ " n ∧ hint = GetWordHint word "easy")
  ∧ ((3 ≤ n)%nat →
     String.length hint = (2 * n - 1)%nat
     ∧ (∀ i, (i < n)%nat →
          String.get (2 * i) hint
          = Some (if bool_decide (i = 0%nat ∨ i = (n - 1)%nat)
                  then strings.index word i else "_"%char))
     ∧ (∀ i, (i + 1 < n)%nat → String.get (2 * i + 1) hint = Some " "%char)).
Proof.
  intros n hint. subst hint. unfold GetWordHint.
  change (String.eqb "medium" "easy") with false.
  change (String.eqb "medium" "medium") with true.
  change (String.eqb "easy" "easy") with true. cbv iota. fold n.
  split.
  - intros Hn. apply Nat.leb_le in Hn. by rewrite Hn.
  - intros Hn. destruct (n <=? 2)%nat eqn:E; [apply Nat.leb_le in E; lia|].
    set (chars := (λ i, if (i =? 0)%nat || (i =? n - 1)%nat
                        then strings.index word i else "_"%char) <$> seq 0 n).
    assert (Hlen : String.length (String.string_of_list_ascii chars) = n).
    { rewrite length_string_of_list_ascii. unfold chars.
      by rewrite length_fmap, length_seq. }
    split; [|split].
    + rewrite length_spaced; [by rewrite Hlen|].
      intros Hs. rewrite Hs in Hlen. cbn in Hlen. lia.
    + intros i Hi. rewrite get_spaced_even, get_string_of_list_ascii.
      unfold chars. rewrite list_lookup_fmap, lookup_seq_lt by done. cbn.
      f_equal. destruct (Nat.eqb_spec i 0) as [->|H0]; cbn.
      * by rewrite bool_decide_eq_true_2 by (by left).
      * destruct (Nat.eqb_spec i (n - 1)) as [->|H1].
        -- by rewrite bool_decide_eq_true_2 by (by right).
        -- rewrite bool_decide_eq_false_2; [done|]. by intros [|].
    + intros i Hi. apply get_spaced_odd. by rewrite Hlen.
Qed.

(** The theorem at the word "house". *)
Lemma medium_hint_shows_first_and_last_witness :
  GetWordHint "house" "medium" = "h _ _ _ e"
  ∧ String.length (GetWordHint "house" "medium") = 9%nat
  ∧ GetWordHint "it" "medium" = "_ _ ".
Proof.
  split; [reflexivity|]. split.
  - apply (medium_hint_shows_first_and_last "house"). cbn. lia.
  - apply (medium_hint_shows_first_and_last "it"). cbn. lia.
Defined.

(** ** Guessing ([GameEngine]) *)

(** A wrong guess uses up the guess of the player.  When a player who
    may guess (a player of the room, not the drawer, not marked as
    having guessed) sends a wrong word, the guess is counted and the
    player is marked as having guessed ([HasGuessedThisRound]): the
    score is unchanged and the player does not enter [guessed_players].
    In the room that this leaves, and in every room in which the mark of
    the player stands, a guess of the player, the right word included,
    is answered as incorrect and changes nothing.  Of the functions
    that write a user, [ResetRoundData] alone clears the mark. *)
Theorem wrong_guess_ends_guessing
    (ge : GameEngine.t) (now : Z) (room : Room.t) (userID guess : string)
    (user : User.t) :
  Room.Players room !! userID = Some user →
  User.HasGuessedThisRound user = false →
  userID ≠ Room.CurrentDrawer room →
  strings.ToLower (strings.TrimSpace guess)
    ≠ strings.ToLower (strings.TrimSpace (Room.CurrentWord room)) →
  let room' := (ValidateGuess ge now room userID guess).1 in
  (ValidateGuess ge now room userID guess).2 = incorrect
  ∧ Room.Players room' !! userID
    = Some (User.set_TotalGuesses (Go.add (User.TotalGuesses user) 1)
              (User.set_GuessTime now (User.set_HasGuessedThisRound true user)))
  ∧ (∀ other, other ≠ userID → Room.Players room' !! other = Room.Players room !! other)
  ∧ (Room.GuessedPlayers room' = Room.GuessedPlayers room
     ∧ Room.CurrentWord room' = Room.CurrentWord room)
  ∧ (∀ ge' now' guess', ValidateGuess ge' now' room' userID guess' = (room', incorrect))
  ∧ (∀ ge' now' guess' later user',
       Room.Players later !! userID = Some user' →
       User.HasGuessedThisRound user' = true →
       ValidateGuess ge' now' later userID guess' = (later, incorrect))
  ∧ (∀ user', User.HasGuessedThisRound (User.ResetRoundData user') = false)
  ∧ (∀ user' now' points ready correct order username avatar,
       User.HasGuessedThisRound user' = true →
       Forall (λ f : User.t → User.t, User.HasGuessedThisRound (f user') = true)
         [User.AddScore points; User.SetReady ready; User.UpdateActivity now';
          User.RecordGuess now' correct order; User.RecordDrawerTurn;
          connect_user now' username avatar]).
Proof.
  intros Hu Hg Hd Hne room'.
  assert (Hv : ValidateGuess ge now room userID guess
               = (update_player userID (User.RecordGuess now false 0) room, incorrect)).
  { unfold ValidateGuess, Room.GetPlayer. rewrite Hu, Hg.
    rewrite bool_decide_eq_false_2 by done. cbn [orb].
    apply String.eqb_neq in Hne. by rewrite Hne. }
  subst room'. rewrite Hv. cbn [fst snd].
  assert (Hu' : Room.Players (update_player userID (User.RecordGuess now false 0) room)
                  !! userID
                = Some (User.RecordGuess now false 0 user)).
  { by rewrite update_player_lookup, Hu. }
  split; [done|]. split; [rewrite Hu'; by destruct user|].
  split; [|split; [|split; [|split; [|split]]]].
  - intros other Hother. destruct room; cbn. by apply lookup_alter_ne.
  - by destruct room.
  - intros ge' now' guess'. eapply ValidateGuess_already_guessed; [exact Hu'|].
    by destruct user.
  - intros ge' now' guess' later user' Hlater Hmark.
    by eapply ValidateGuess_already_guessed.
  - by intros [].
  - intros user' now' points ready correct order username avatar Hmark.
    repeat apply Forall_cons_2; [..|apply Forall_nil_2];
      destruct user'; cbn in *; try done.
    by destruct correct.
Qed.

(** The theorem in the game of three: Alice guesses "dog", then "cat",
    the word that Bob draws. *)
Lemma wrong_guess_ends_guessing_witness :
  let s0 := Scenario.started Scenario.three 3 in
  let after := (ValidateGuess s0.2 (105 * Go.Second) s0.1 "alice" "dog").1 in
  Room.CurrentWord after = "cat"
  ∧ ValidateGuess s0.2 (110 * Go.Second) after "alice" "cat" = (after, incorrect).
Proof.
  split; [vm_compute; reflexivity|].
  refine (proj1 (proj2 (proj2 (proj2 (proj2
    (wrong_guess_ends_guessing (Scenario.started Scenario.three 3).2 (105 * Go.Second)
       (Scenario.started Scenario.three 3).1 "alice" "dog"
       (User.ResetRoundData Scenario.alice) _ _ _ _))))) _ _ _);
    vm_compute; (reflexivity || discriminate).
Defined.

Lemma same_round_update_player userID f room :
  same_round room (update_player userID f room).
Proof. destruct room. by repeat split. Qed.

Lemma same_round_AddGuess now userID room :
  same_round room (Room.AddGuess now userID room).1.
Proof.
  unfold Room.AddGuess. destruct (Go.contains _ _); destruct room; by repeat split.
Qed.

Lemma same_round_trans r1 r2 r3 : same_round r1 r2 → same_round r2 r3 → same_round r1 r3.
Proof. unfold same_round. intros H1 H2. destruct_and!. repeat split; congruence. Qed.

(** What [ValidateGuess] touches.  Whatever the guess, the room keeps
    its players (the same identifiers), every other player's record,
    and everything of the round: state, phase, round number, drawer,
    word, hint, times, order of the players, drawing.  A guess answered
    as incorrect adds nobody to [guessed_players] and leaves the score
    of the guesser as it was; a correct one appends the guesser to
    [guessed_players], unless already there, and reports the new score
    of the guesser. *)
Theorem ValidateGuess_touches_the_guesser_only
    (ge : GameEngine.t) (now : Z) (room : Room.t) (userID guess : string) :
  let room' := (ValidateGuess ge now room userID guess).1 in
  let result := (ValidateGuess ge now room userID guess).2 in
  same_round room room'
  ∧ dom (Room.Players room') = dom (Room.Players room)
  ∧ (∀ other, other ≠ userID → Room.Players room' !! other = Room.Players room !! other)
  ∧ (GuessResultData.Correct result = false →
     Room.GuessedPlayers room' = Room.GuessedPlayers room
     ∧ User.Score <$> Room.Players room' !! userID
       = User.Score <$> Room.Players room !! userID)
  ∧ (GuessResultData.Correct result = true →
     Room.GuessedPlayers room'
     = (if Go.contains (Room.GuessedPlayers room) userID
        then Room.GuessedPlayers room else Room.GuessedPlayers room ++ [userID])
     ∧ User.Score <$> Room.Players room' !! userID
       = Some (GuessResultData.TotalScore result)
     ∧ Some (GuessResultData.TotalScore result)
       = (λ u, Go.add (User.Score u) (GuessResultData.Points result))
           <$> Room.Players room !! userID).
Proof.
  intros room' result. subst room' result.
  unfold ValidateGuess, Room.GetPlayer.
  destruct (Room.Players room !! userID) as [user|] eqn:Hu; cbn [fst snd].
  2:{ split; [by repeat split|]. by rewrite Hu. }
  destruct (_ || _).
  { cbn [fst snd]. split; [by repeat split|]. by rewrite Hu. }
  destruct (negb _); cbn [fst snd GuessResultData.Correct GuessResultData.TotalScore
                          GuessResultData.Points].
  - split; [apply same_round_update_player|].
    split; [destruct room; cbn; apply dom_alter_L|].
    split; [intros other Hne; destruct room; cbn; by apply lookup_alter_ne|].
    split; [|done]. intros _. split; [by destruct room|].
    rewrite update_player_lookup, Hu. by destruct user.
  - set (points := CalculateGuesserPoints _ _ _ _ _ _ _).
    set (order := Go.add _ 1).
    set (room1 := update_player userID _ (update_player userID _ room)).
    assert (H1 : same_round room room1).
    { eapply same_round_trans; apply same_round_update_player. }
    assert (Hp1 : Room.Players room1 !! userID
                  = Some (User.AddScore points (User.RecordGuess now true order user))).
    { unfold room1. by rewrite !update_player_lookup, Hu. }
    split; [eapply same_round_trans; [exact H1 | apply same_round_AddGuess]|].
    rewrite AddGuess_Players.
    split; [unfold room1; destruct room; cbn; by rewrite !dom_alter_L|].
    split.
    { intros other Hne. unfold room1. destruct room; cbn.
      by rewrite !lookup_alter_ne. }
    split; [done|]. intros _. rewrite Hp1. cbn [from_option fmap option_fmap option_map].
    split; [|split; [done|]].
    + unfold Room.AddGuess.
      replace (Room.GuessedPlayers room1) with (Room.GuessedPlayers room)
        by (by destruct room).
      destruct (Go.contains _ _); [by destruct room|].
      unfold room1. by destruct room.
    + f_equal. by destruct user.
Qed.

(** The theorem in the game of three, at a correct and at a wrong guess
    of Alice. *)
Lemma ValidateGuess_touches_the_guesser_only_witness :
  let s0 := Scenario.started Scenario.three 3 in
  let right := ValidateGuess s0.2 (110 * Go.Second) s0.1 "alice" "cat" in
  let wrong := ValidateGuess s0.2 (110 * Go.Second) s0.1 "alice" "dog" in
  (GuessResultData.Correct right.2 = true
   ∧ Room.GuessedPlayers right.1 = ["alice"]
   ∧ User.Score <$> Room.Players right.1 !! "alice" = Some 236)
  ∧ (GuessResultData.Correct wrong.2 = false
     ∧ Room.GuessedPlayers wrong.1 = Room.GuessedPlayers s0.1).
Proof.
  split.
  - split; [vm_compute; reflexivity|].
    split; vm_compute; reflexivity.
  - split; [vm_compute; reflexivity|].
    apply (ValidateGuess_touches_the_guesser_only (Scenario.started Scenario.three 3).2
             (110 * Go.Second) (Scenario.started Scenario.three 3).1 "alice" "dog").
    vm_compute; reflexivity.
Defined.

(** ** Points of a guess ([GameEngine]) *)

Lemma order_bonus_decreasing : bonus_decreasing 50 16.
Proof. apply (bool_decide_unpack _). vm_compute. exact I. Qed.

Lemma difficulty_bonus_decreasing : bonus_decreasing 100 16.
Proof. apply (bool_decide_unpack _). vm_compute. exact I. Qed.

Lemma time_bonus_decreasing : bonus_decreasing 25 300.
Proof. apply (bool_decide_unpack _). vm_compute. exact I. Qed.

Lemma bonus_decreasing_step B bmax a b :
  bonus_decreasing B bmax → 1 ≤ b ≤ bmax → 0 ≤ a < b →
  Go.int (bonus B (a + 1) b) ≤ Go.int (bonus B a b)
  ∧ 0 ≤ Go.int (bonus B (a + 1) b) ∧ Go.int (bonus B a b) ≤ B.
Proof.
  intros Ht Hb Ha. unfold bonus_decreasing in Ht. rewrite Forall_seqZ in Ht.
  specialize (Ht b ltac:(lia)). rewrite Forall_seqZ in Ht. apply Ht. lia.
Qed.

Lemma bonus_decreasing_le B bmax a a' b :
  bonus_decreasing B bmax → 1 ≤ b ≤ bmax → 0 ≤ a ≤ a' → a' ≤ b →
  Go.int (bonus B a' b) ≤ Go.int (bonus B a b).
Proof.
  intros Ht Hb Ha Ha'.
  replace a' with (a + Z.of_nat (Z.to_nat (a' - a))) in * by lia.
  induction (Z.to_nat (a' - a)) as [|k IH].
  - replace (a + Z.of_nat 0) with a by lia. lia.
  - etrans; [|apply IH; lia].
    replace (a + Z.of_nat (S k)) with (a + Z.of_nat k + 1) by lia.
    apply (bonus_decreasing_step B bmax); [done|lia|lia].
Qed.

Lemma bonus_decreasing_bounds B bmax a b :
  bonus_decreasing B bmax → 1 ≤ b ≤ bmax → 0 ≤ a ≤ b →
  0 ≤ Go.int (bonus B a b) ≤ B.
Proof.
  intros Ht Hb Ha.
  destruct (decide (a = 0)) as [->|Hne].
  - destruct (bonus_decreasing_step B bmax 0 b Ht Hb) as (H1 & H2 & H3); lia.
  - destruct (bonus_decreasing_step B bmax (a - 1) b Ht Hb) as (H1 & H2 & H3); [lia|].
    replace (a - 1 + 1) with a in * by lia.
    pose proof (bonus_decreasing_le B bmax 0 a b Ht Hb ltac:(lia) ltac:(lia)).
    destruct (bonus_decreasing_step B bmax 0 b Ht Hb) as (_ & _ & H4); lia.
Qed.

Lemma spec_multiplied_mono difficulty x y :
  x ≤ y → spec_multiplied difficulty x ≤ spec_multiplied difficulty y.
Proof.
  intros Hxy. unfold spec_multiplied.
  destruct (String.eqb difficulty "medium"); [apply Z.div_le_mono; lia|].
  destruct (String.eqb difficulty "hard"); [apply Z.div_le_mono; lia|]. done.
Qed.

Lemma spec_multiplied_bounds difficulty x :
  0 ≤ x → x ≤ spec_multiplied difficulty x ≤ (3 * x) `div` 2.
Proof.
  intros Hx. unfold spec_multiplied.
  destruct (String.eqb difficulty "medium").
  { split; [apply Z.div_le_lower_bound; lia|].
    apply Z.div_le_lower_bound; [lia|].
    pose proof (Z.mul_div_le (5 * x) 4 ltac:(lia)). lia. }
  destruct (String.eqb difficulty "hard").
  { split; [apply Z.div_le_lower_bound; lia | lia]. }
  split; [lia|]. apply Z.div_le_lower_bound; lia.
Qed.

(** The points of a guess under the default configuration, in a room of
    at most 16 players and a round of at most 300 seconds: a guess that
    comes earlier in the order, after fewer correct guesses and sooner
    in the round is awarded no fewer points, and every award lies
    between 100 and 412. *)
Theorem earlier_guess_scores_no_less
    (wb : WordBank.t) (totalPlayers roundDuration : Z) (difficulty : string)
    (guessOrder guessOrder' totalGuessers totalGuessers' guessTime guessTime' : Z) :
  1 ≤ totalPlayers ≤ 16 → 1 ≤ roundDuration ≤ 300 →
  1 ≤ guessOrder ≤ guessOrder' → guessOrder' ≤ totalPlayers →
  0 ≤ totalGuessers ≤ totalGuessers' → totalGuessers' ≤ totalPlayers →
  0 ≤ guessTime ≤ guessTime' → guessTime' ≤ roundDuration →
  let points := λ order guessers seconds,
    CalculateGuesserPoints (GameEngine.mk wb config.DefaultPoints)
      order guessers seconds roundDuration totalPlayers difficulty in
  points guessOrder' totalGuessers' guessTime' ≤ points guessOrder totalGuessers guessTime
  ∧ 100 ≤ points guessOrder totalGuessers guessTime ≤ 412.
Proof.
  intros Hn HT Ho Ho' Hg Hg' Ht Ht' points. subst points. cbv beta.
  destruct (CalculateGuesserPoints_default wb guessOrder totalGuessers guessTime
              roundDuration totalPlayers difficulty) as (_ & _ & _ & ->); [lia..|].
  destruct (CalculateGuesserPoints_default wb guessOrder' totalGuessers' guessTime'
              roundDuration totalPlayers difficulty) as (_ & _ & _ & ->); [lia..|].
  pose proof (bonus_decreasing_le 50 16 (guessOrder - 1) (guessOrder' - 1) totalPlayers
                order_bonus_decreasing ltac:(lia) ltac:(lia) ltac:(lia)) as Hob.
  pose proof (bonus_decreasing_le 100 16 totalGuessers totalGuessers' totalPlayers
                difficulty_bonus_decreasing ltac:(lia) ltac:(lia) ltac:(lia)) as Hdb.
  pose proof (bonus_decreasing_le 25 300 guessTime guessTime' roundDuration
                time_bonus_decreasing ltac:(lia) ltac:(lia) ltac:(lia)) as Htb.
  pose proof (bonus_decreasing_bounds 50 16 (guessOrder - 1) totalPlayers
                order_bonus_decreasing ltac:(lia) ltac:(lia)) as Hob0.
  pose proof (bonus_decreasing_bounds 100 16 totalGuessers totalPlayers
                difficulty_bonus_decreasing ltac:(lia) ltac:(lia)) as Hdb0.
  pose proof (bonus_decreasing_bounds 25 300 guessTime roundDuration
                time_bonus_decreasing ltac:(lia) ltac:(lia)) as Htb0.
  split; [apply spec_multiplied_mono; lia|].
  set (x := 100 + _ + _ + _) in *.
  pose proof (spec_multiplied_bounds difficulty x ltac:(unfold x; lia)) as [Hlo Hhi].
  split; [unfold x in *; lia|].
  enough ((3 * x) `div` 2 < 413) by lia.
  apply Z.div_lt_upper_bound; [lia|]. unfold x. lia.
Qed.

(** The theorem in a hard round of five: the first guess after 5
    seconds against the fourth after 50. *)
Lemma earlier_guess_scores_no_less_witness :
  let points := λ order guessers seconds,
    CalculateGuesserPoints Scenario.engine order guessers seconds 60 5 "hard" in
  points 4 4 50 ≤ points 1 1 5
  ∧ points 1 1 5 = 378 ∧ points 4 4 50 = 214.
Proof.
  split; [|split; vm_compute; reflexivity].
  apply (earlier_guess_scores_no_less (GameEngine.wordBank Scenario.engine) 5 60 "hard"
           1 4 1 4 5 50); lia.
Defined.

(** ** The end of a round ([HandleRoundEnd]) *)

Lemma EndGame_accumulated now room id :
  accumulated <$> Room.Players (Room.EndGame now room) !! id
  = accumulated <$> Room.Players room !! id.
Proof.
  destruct room; cbn. rewrite lookup_fmap.
  destruct (Players !! id) as [u|]; [|done]. by destruct u.
Qed.

Lemma StartNewRound_accumulated now word hint room id :
  accumulated <$> Room.Players (Room.StartNewRound now word hint room) !! id
  = accumulated <$> Room.Players room !! id.
Proof.
  unfold Room.StartNewRound.
  match goal with |- context [Room.selectNextDrawer ?r] =>
    destruct (selectNextDrawer_fields r) as (_ & -> & _) end.
  destruct room; cbn. rewrite lookup_fmap.
  destruct (Players !! id) as [u|]; [|done]. by destruct u.
Qed.

Lemma round_closed_accumulated now ge room id :
  accumulated <$> Room.Players (round_closed now ge room) !! id
  = (λ u, if bool_decide (id = Room.CurrentDrawer room)
          then accumulated
                 (User.RecordDrawerTurn
                    (User.AddScore
                       (CalculateDrawerPoints ge (Go.len (Room.GuessedPlayers room))
                          (Room.len_Players room) (Room.RoundTime room)) u))
          else accumulated u) <$> Room.Players room !! id.
Proof.
  unfold round_closed.
  destruct room; cbn. case_bool_decide as Hid.
  - subst id. rewrite lookup_alter_eq. by destruct (Players !! CurrentDrawer).
  - rewrite lookup_alter_ne by done. by destruct (Players !! id).
Qed.

(** The end of a round pays the drawer and nobody else.  When
    [HandleRoundEnd] returns, the score of the drawer has grown by the
    drawer's points (the base plus the bonus for each player who
    guessed) and the drawer has one more turn; the score, the turns and
    the numbers of guesses of every other player are what they were,
    whether the game ends there or the next round begins.  The first
    frame is [round_ended], sent to the whole room: it carries the word
    and these points of the drawer. *)
Theorem round_end_pays_the_drawer_only
    (fuel : nat) (env : Env.t) (hub : Hub.t) (room : Room.t) (ge : GameEngine.t)
    (room' : Room.t) (ge' : GameEngine.t) (es : list Effect) :
  HandleRoundEnd fuel env hub room ge = Done (room', ge') es →
  let drawerPoints :=
    Go.add (config.PointsConfig.DrawerBasePoints (GameEngine.config ge))
      (Go.mul (Go.len (Room.GuessedPlayers room))
         (config.PointsConfig.DrawerBonusPerGuesser (GameEngine.config ge))) in
  (∀ id,
     accumulated <$> Room.Players room' !! id
     = (λ u, if bool_decide (id = Room.CurrentDrawer room)
             then (Go.add (User.Score u) drawerPoints, Go.add (User.TimesDrawer u) 1,
                   User.CorrectGuesses u, User.TotalGuesses u)
             else accumulated u) <$> Room.Players room !! id)
  ∧ ∃ d es',
      es = BroadcastToRoom (Room.ID room) (NewRoundEndedMessage (Env.now env) d) None :: es'
      ∧ RoundEndData.Word d = Room.CurrentWord room
      ∧ RoundEndData.DrawerID d = Room.CurrentDrawer room
      ∧ RoundEndData.DrawerPoints d = drawerPoints.
Proof.
  intros Hdone drawerPoints. split.
  - intros id.
    pose proof (leaves_Done _ _ _ _ _ (HandleRoundEnd_leaves fuel env hub room ge) Hdone)
      as [-> | (word & hint & ->)].
    + rewrite EndGame_accumulated, round_closed_accumulated.
      destruct (Room.Players room !! id) as [u|]; [|done]. cbn.
      case_bool_decide; [|done]. by destruct u.
    + rewrite StartNewRound_accumulated, round_closed_accumulated.
      destruct (Room.Players room !! id) as [u|]; [|done]. cbn.
      case_bool_decide; [|done]. by destruct u.
  - destruct fuel as [|fuel]; [done|]. cbn [HandleRoundEnd] in Hdone.
    destruct (Room.GetPlayer _ _) as [drawer|]; [|done].
    match type of Hdone with emit [BroadcastToRoom ?i (NewRoundEndedMessage _ ?d) None] ?o = _ =>
      destruct o as [s es'| |] eqn:Ho; [|done..];
      exists d, es' end.
    cbn in Hdone. injection Hdone as _ <-.
    split; [by destruct room|]. by destruct room.
Qed.

(** The theorem in the game of three: Alice has guessed, the time is
    up, Bob the drawer is paid 20 + 15 points. *)
Lemma round_end_pays_the_drawer_only_witness :
  let s1 := Scenario.guessed Scenario.three (Scenario.started Scenario.three 3)
              Scenario.alice "cat" in
  let o := HandleRoundEnd 2 (Scenario.at_second 160) (Scenario.hub Scenario.three)
             s1.1 s1.2 in
  o = Done (Scenario.state_of o s1) (effects_of o)
  ∧ (λ id, accumulated <$> Room.Players (Scenario.state_of o s1).1 !! id)
      <$> ["alice"; "bob"; "carol"]
    = [Some (236, 0, 1, 1); Some (35, 1, 0, 0); Some (0, 0, 0, 0)].
Proof.
  intros s1 o.
  assert (E : o = Done (Scenario.state_of o s1) (effects_of o))
    by (vm_compute; reflexivity).
  split; [exact E|].
  pose proof (proj1 (round_end_pays_the_drawer_only 2 (Scenario.at_second 160)
                       (Scenario.hub Scenario.three) s1.1 s1.2
                       (Scenario.state_of o s1).1 (Scenario.state_of o s1).2 (effects_of o)
                       (eq_trans E (f_equal2 Done (surjective_pairing _) eq_refl)))) as H.
  cbn [fmap list_fmap]. rewrite !H. vm_compute. reflexivity.
Defined.

(** ** What every handler keeps

    A property of rooms that the operations of [room.go], and the
    updates of a player that the engine makes, keep is kept by the
    handlers built from them. *)

Section handlers_keep.

Context (P : Room.t → Prop).

Hypothesis keeps_StartGame : ∀ now room, P room → P (Room.StartGame now room).
Hypothesis keeps_StartNewRound :
  ∀ now word hint room, P room → P (Room.StartNewRound now word hint room).
Hypothesis keeps_EndRound : ∀ now room, P room → P (Room.EndRound now room).
Hypothesis keeps_EndGame : ∀ now room, P room → P (Room.EndGame now room).
Hypothesis keeps_AddGuess : ∀ now userID room, P room → P (Room.AddGuess now userID room).1.
Hypothesis keeps_AddDrawCommand :
  ∀ now cmd room, P room → P (Room.AddDrawCommand now cmd room).
Hypothesis keeps_RecordGuess :
  ∀ userID now correct order room,
    P room → P (update_player userID (User.RecordGuess now correct order) room).
Hypothesis keeps_AddScore :
  ∀ userID points room, P room → P (update_player userID (User.AddScore points) room).
Hypothesis keeps_drawer_turn :
  ∀ userID points room,
    P room →
    P (update_player userID
         (λ drawer, User.RecordDrawerTurn (User.AddScore points drawer)) room).

Lemma ValidateGuess_keeps ge now room userID guess :
  P room → P (ValidateGuess ge now room userID guess).1.
Proof.
  intros HP. unfold ValidateGuess.
  destruct (Room.GetPlayer _ _); [|done].
  destruct (_ || _); [done|].
  destruct (negb _); cbn [fst]; [by apply keeps_RecordGuess|].
  by apply keeps_AddGuess, keeps_AddScore, keeps_RecordGuess.
Qed.

Lemma HandleRoundEnd_keeps fuel env hub room ge :
  P room → leaves P (HandleRoundEnd fuel env hub room ge).
Proof.
  intros HP. eapply leaves_impl; [|apply HandleRoundEnd_leaves]. cbn.
  assert (Hc : P (round_closed (Env.now env) ge room)).
  { unfold round_closed. by apply keeps_EndRound, keeps_EndRound, keeps_drawer_turn. }
  intros room' [-> | (word & hint & ->)].
  - by apply keeps_EndGame.
  - by apply keeps_StartNewRound.
Qed.

Lemma handleStartGame_keeps fuel env hub room ge client :
  P room → leaves P (handleStartGame fuel env hub room ge client).
Proof.
  intros HP. unfold handleStartGame.
  destruct (negb (bool_decide _)); [done|]. destruct (negb (Room.CanStart _)); [done|].
  eapply leaves_impl; [|apply HandleGameStart_leaves]. cbn.
  intros room' (word & hint & ->).
  by apply keeps_StartNewRound, keeps_StartGame, keeps_StartGame.
Qed.

Lemma handleDraw_keeps env room ge client cmd :
  P room → leaves P (handleDraw env room ge client cmd).
Proof.
  intros HP. unfold handleDraw. destruct (negb (bool_decide _)); [done|].
  cbn. by apply keeps_AddDrawCommand.
Qed.

Lemma handleSendGuess_keeps fuel env hub room ge client guess :
  P room → leaves P (handleSendGuess fuel env hub room ge client guess).
Proof.
  intros HP. unfold handleSendGuess. destruct (_ || _); [done|].
  pose proof (ValidateGuess_keeps ge (Env.now env) room (client_id client)
                (utils.SanitizeInput guess) HP) as Hv.
  destruct (ValidateGuess _ _ _ _ _) as [room1 result]. cbn [fst] in Hv.
  apply leaves_emit. destruct (negb _); [done|].
  apply leaves_emit. destruct (GuessResultData.RoundEnding result); [|done].
  by apply HandleRoundEnd_keeps.
Qed.

Lemma roundTimerTick_keeps fuel env hub room ge :
  P room → leaves P (roundTimerTick fuel env hub room ge).
Proof.
  intros HP. unfold roundTimerTick. apply leaves_emit.
  destruct (_ <=? _); [by apply HandleRoundEnd_keeps | done].
Qed.

End handlers_keep.

(** ** The order of the players ([room.go]) *)

Lemma remove_first_other v l x : x ≠ v → x ∈ l → x ∈ Go.remove_first v l.
Proof.
  intros Hne. induction l as [|y l IH]; cbn; [done|].
  intros [->|Hx]%elem_of_cons.
  - destruct (decide (y = v)); [done|]. by left.
  - destruct (decide (y = v)); [done|]. right. by apply IH.
Qed.

Lemma remove_first_gone v l : NoDup l → v ∉ Go.remove_first v l.
Proof.
  induction 1 as [|y l Hy Hl IH]; cbn; [apply not_elem_of_nil|].
  destruct (decide (y = v)) as [->|Hne]; [done|].
  intros [->|Hin]%elem_of_cons; [done|]. by apply IH.
Qed.

Lemma same_players_in_order room room' :
  same_players room room' → players_in_order room → players_in_order room'.
Proof.
  unfold players_in_order. intros [-> Hdom] [Hnd Hin]. split; [done|].
  intros id. by rewrite Hin, Hdom.
Qed.

Lemma same_players_fmap (f : User.t → User.t) room :
  same_players room (Room.set_Players (f <$> Room.Players room) room).
Proof.
  destruct room; cbn. split; [done|]. intros id. cbn.
  rewrite lookup_fmap. by rewrite fmap_is_Some.
Qed.

Lemma same_players_update userID f room : same_players room (update_player userID f room).
Proof.
  destruct room; cbn. split; [done|]. intros id. cbn.
  destruct (decide (id = userID)) as [->|Hne].
  - rewrite lookup_alter_eq. by rewrite fmap_is_Some.
  - by rewrite lookup_alter_ne.
Qed.

Lemma players_in_order_fields room room' :
  Room.PlayerOrder room' = Room.PlayerOrder room →
  Room.Players room' = Room.Players room →
  players_in_order room → players_in_order room'.
Proof. unfold players_in_order. by intros -> ->. Qed.

Lemma StartGame_in_order now room :
  players_in_order room → players_in_order (Room.StartGame now room).
Proof.
  intros H. unfold Room.StartGame.
  set (room1 := Room.reset_players _).
  assert (H1 : players_in_order room1).
  { unfold room1, Room.reset_players.
    eapply same_players_in_order; [apply same_players_fmap|].
    eapply players_in_order_fields; [..|exact H]; by destruct room. }
  destruct (Room.PlayerOrder room1) as [|first rest] eqn:E; [done|].
  eapply players_in_order_fields; [..|exact H1]; by destruct room1.
Qed.

Lemma selectNextDrawer_PlayerOrder room :
  Room.PlayerOrder (Room.selectNextDrawer room) = Room.PlayerOrder room.
Proof.
  unfold Room.selectNextDrawer. destruct room; cbn.
  destruct PlayerOrder; [done|]. by destruct (_ !! _).
Qed.

Lemma StartNewRound_in_order now word hint room :
  players_in_order room → players_in_order (Room.StartNewRound now word hint room).
Proof.
  intros H. unfold Room.StartNewRound.
  match goal with |- context [Room.selectNextDrawer ?r] =>
    eapply (players_in_order_fields r);
      [apply selectNextDrawer_PlayerOrder
      |by destruct (selectNextDrawer_fields r) as (_ & -> & _)|] end.
  unfold Room.reset_players.
  eapply same_players_in_order; [apply same_players_fmap|].
  eapply players_in_order_fields; [..|exact H]; by destruct room.
Qed.

Lemma EndGame_in_order now room :
  players_in_order room → players_in_order (Room.EndGame now room).
Proof.
  intros H. unfold Room.EndGame.
  eapply same_players_in_order; [apply same_players_fmap|].
  eapply players_in_order_fields; [..|exact H]; by destruct room.
Qed.

Lemma AddPlayer_in_order now user room :
  players_in_order room → players_in_order (Room.AddPlayer now user room).1.
Proof.
  intros [Hnd Hin]. unfold Room.AddPlayer.
  destruct (_ >=? _); [done|].
  destruct (bool_decide _) eqn:Hpresent; [done|].
  apply bool_decide_eq_false in Hpresent.
  destruct room; cbn in *. split; cbn.
  - apply NoDup_app. split; [done|]. split; [|apply NoDup_singleton].
    intros id Hid ->%list_elem_of_singleton. by apply Hpresent, Hin.
  - intros id. rewrite elem_of_app, list_elem_of_singleton, Hin.
    destruct (decide (id = User.ID user)) as [->|Hne].
    + rewrite lookup_insert_eq. split; [by eauto | by right].
    + rewrite lookup_insert_ne by done. split; [by intros [|] | by left].
Qed.

Lemma assignNewHost_fields room :
  Room.PlayerOrder (Room.assignNewHost room) = Room.PlayerOrder room
  ∧ Room.Players (Room.assignNewHost room) = Room.Players room.
Proof.
  unfold Room.assignNewHost. destruct (_ =? _); [by destruct room|].
  destruct (list_find _ _) as [[i p]|]; by destruct room.
Qed.

Lemma RemovePlayer_in_order now userID room :
  players_in_order room → players_in_order (Room.RemovePlayer now userID room).1.
Proof.
  intros [Hnd Hin]. unfold Room.RemovePlayer.
  destruct (bool_decide _); [|done]. cbn [fst].
  set (room1 := Room.set_GuessedPlayers _ _).
  assert (H1 : players_in_order room1).
  { unfold room1. destruct room; cbn in *. split; cbn.
    - by apply remove_first_NoDup.
    - intros id. destruct (decide (id = userID)) as [->|Hne].
      + rewrite lookup_delete_eq. split; [|by intros [? [=]]].
        intros Hid. by apply remove_first_gone in Hid.
      + rewrite lookup_delete_ne by done. rewrite <- Hin. split.
        * apply remove_first_elem_of.
        * by apply remove_first_other. }
  destruct (_ && _).
  - destruct (assignNewHost_fields room1) as [Ho Hp].
    eapply players_in_order_fields; [..|exact H1].
    + rewrite <- Ho. by destruct (Room.assignNewHost room1).
    + rewrite <- Hp. by destruct (Room.assignNewHost room1).
  - eapply players_in_order_fields; [..|exact H1]; by destruct room1.
Qed.

Lemma step_in_order room room' :
  step room room' → players_in_order room → players_in_order room'.
Proof.
  assert (Hsame : ∀ r r', Room.PlayerOrder r' = Room.PlayerOrder r →
                          Room.Players r' = Room.Players r →
                          players_in_order r → players_in_order r')
    by apply players_in_order_fields.
  assert (Hup : ∀ userID f r, players_in_order r →
                              players_in_order (update_player userID f r)).
  { intros. eapply same_players_in_order; [apply same_players_update | done]. }
  assert (HEndRound : ∀ now r, players_in_order r → players_in_order (Room.EndRound now r)).
  { intros now r. apply Hsame; by destruct r. }
  assert (HAddGuess : ∀ now userID r,
            players_in_order r → players_in_order (Room.AddGuess now userID r).1).
  { intros now userID r. unfold Room.AddGuess.
    destruct (Go.contains _ _); [done|]. apply Hsame; by destruct r. }
  assert (HDraw : ∀ now cmd r,
            players_in_order r → players_in_order (Room.AddDrawCommand now cmd r)).
  { intros now cmd r. apply Hsame; by destruct r. }
  destruct 1 as [now user room | now userID room
                 | fuel env hub ge client room room' ge' es Hdone
                 | env ge client cmd room room' ge' es Hdone
                 | fuel env hub ge client guess room room' ge' es Hdone
                 | fuel env hub ge room room' ge' es Hdone
                 | userID f room]; intros Hok.
  - by apply AddPlayer_in_order.
  - by apply RemovePlayer_in_order.
  - eapply leaves_Done; [|exact Hdone].
    apply handleStartGame_keeps;
      eauto using StartGame_in_order, StartNewRound_in_order, EndGame_in_order.
  - eapply leaves_Done; [|exact Hdone]. apply handleDraw_keeps; eauto.
  - eapply leaves_Done; [|exact Hdone].
    apply handleSendGuess_keeps;
      eauto using StartGame_in_order, StartNewRound_in_order, EndGame_in_order.
  - eapply leaves_Done; [|exact Hdone].
    apply roundTimerTick_keeps;
      eauto using StartGame_in_order, StartNewRound_in_order, EndGame_in_order.
  - by apply Hup.
Qed.

Lemma reachable_in_order room : reachable room → players_in_order room.
Proof.
  intros (id & code & now & hostID & roomType & roomName & settings & Hsteps).
  revert room Hsteps. apply rtc_ind_r.
  - split; [constructor|]. intros id'. cbn. rewrite lookup_empty.
    split; [by intros ?%elem_of_nil | by intros [? [=]]].
  - intros room1 room2 _ Hstep IH. by eapply step_in_order.
Qed.

Lemma players_in_order_len room :
  players_in_order room → Go.len (Room.PlayerOrder room) = Room.len_Players room.
Proof.
  intros [Hnd Hin]. unfold Go.len, Room.len_Players. f_equal.
  rewrite <- size_dom, <- (size_list_to_set (C := gset string)) by done.
  f_equal. apply set_eq. intros id.
  by rewrite elem_of_list_to_set, elem_of_dom, Hin.
Qed.

(** In every room that can be reached, [player_order] lists the
    players of the room, each of them once: the identifiers in the
    order and the keys of [players] are the same, and there are as many
    of the ones as of the others. *)
Theorem player_order_lists_the_players (room : Room.t) :
  reachable room →
  NoDup (Room.PlayerOrder room)
  ∧ (∀ id, id ∈ Room.PlayerOrder room ↔ is_Some (Room.Players room !! id))
  ∧ Go.len (Room.PlayerOrder room) = Room.len_Players room.
Proof.
  intros Hr. pose proof (reachable_in_order room Hr) as Hok.
  destruct Hok as [Hnd Hin]. split; [done|]. split; [done|].
  by apply players_in_order_len.
Qed.

(** The theorem in a room that Alice, Bob and Carol joined and Bob
    left. *)
Lemma player_order_lists_the_players_witness :
  let room := (Room.RemovePlayer (4 * Go.Second) "bob"
                 (Scenario.lobby 8 3 Scenario.three)).1 in
  (reachable room ∧ Room.PlayerOrder room = ["alice"; "carol"])
  ∧ Go.len (Room.PlayerOrder room) = Room.len_Players room.
Proof.
  intros room.
  assert (Hreach : reachable room).
  { exists "room_1", "ABCDEF", 0, "alice", RoomTypePublic, "Doodle", (Scenario.settings 8 3).
    eapply rtc_l; [apply (step_join (1 * Go.Second) Scenario.alice)|].
    eapply rtc_l; [apply (step_join (2 * Go.Second) Scenario.bob)|].
    eapply rtc_l; [apply (step_join (3 * Go.Second) Scenario.carol)|].
    eapply rtc_l; [apply (step_leave (4 * Go.Second) "bob")|]. apply rtc_refl. }
  split; [split; [exact Hreach | vm_compute; reflexivity]|].
  apply (player_order_lists_the_players room Hreach).
Defined.

(** ** Whose turn it is ([selectNextDrawer]) *)

Lemma index_of_absent v l : v ∉ l → Go.index_of v l = None.
Proof.
  induction l as [|x l IH]; cbn; [done|]. intros Hv.
  apply not_elem_of_cons in Hv as [Hne Hv].
  destruct (decide (x = v)); [congruence|]. by rewrite IH.
Qed.

Lemma index_of_lookup v l i :
  NoDup l → l !! i = Some v → Go.index_of v l = Some i.
Proof.
  intros Hnd. revert i. induction Hnd as [|x l Hx Hnd IH]; intros i; cbn; [done|].
  destruct i as [|i]; cbn.
  - intros [= ->]. by rewrite decide_True.
  - intros Hi. destruct (decide (x = v)) as [->|Hne].
    + exfalso. apply Hx. by eapply list_elem_of_lookup_2.
    + by rewrite (IH i Hi).
Qed.

(** The turn passes to the next player in [player_order], and from the
    last to the first.  With the drawer at position [i] of an order of
    [n] different players, the next drawer is the player at position
    [(i + 1) mod n]; a drawer who is not in the order (nobody yet, or a
    player who left) is followed by the first player; nothing but the
    drawer changes, and an empty order changes nothing. *)
Theorem next_drawer_follows_the_order (room : Room.t) :
  let room' := Room.selectNextDrawer room in
  let n := length (Room.PlayerOrder room) in
  (room' = Room.set_CurrentDrawer (Room.CurrentDrawer room') room)
  ∧ (Room.PlayerOrder room = [] → room' = room)
  ∧ (∀ i, NoDup (Room.PlayerOrder room) →
          Room.PlayerOrder room !! i = Some (Room.CurrentDrawer room) →
          Room.PlayerOrder room !! ((i + 1) `mod` n)%nat = Some (Room.CurrentDrawer room'))
  ∧ (Room.CurrentDrawer room ∉ Room.PlayerOrder room → Room.PlayerOrder room ≠ [] →
     Room.PlayerOrder room !! 0%nat = Some (Room.CurrentDrawer room')).
Proof.
  intros room' n. subst room' n. unfold Room.selectNextDrawer.
  destruct (Room.PlayerOrder room) as [|first rest] eqn:Ho.
  { split; [by destruct room|]. split; [done|]. split; [done|]. done. }
  rewrite <- Ho.
  assert (Hlen : 0 < Go.len (Room.PlayerOrder room)).
  { rewrite Ho. unfold Go.len. cbn. lia. }
  assert (Hnext : ∀ k : nat,
            (k < length (Room.PlayerOrder room))%nat →
            ∃ d, Room.PlayerOrder room !! k = Some d
                 ∧ match Room.PlayerOrder room !! k with
                   | Some playerID => Room.set_CurrentDrawer playerID room
                   | None => room
                   end = Room.set_CurrentDrawer d room
                 ∧ Room.CurrentDrawer (Room.set_CurrentDrawer d room) = d).
  { intros k Hk. destruct (lookup_lt_is_Some_2 _ _ Hk) as [d Hd].
    exists d. rewrite Hd. split; [done|]. split; [done|]. by destruct room. }
  split; [|split; [by rewrite Ho|split]].
  - destruct (Room.PlayerOrder room !! _); by destruct room.
  - intros i Hnd Hi. rewrite (index_of_lookup _ _ _ Hnd Hi).
    assert (Hi' : (i < length (Room.PlayerOrder room))%nat) by (by eapply lookup_lt_Some).
    unfold Go.len in *.
    rewrite Z.rem_mod_nonneg by lia.
    replace (Z.of_nat i + 1) with (Z.of_nat (i + 1)) by lia.
    rewrite <- Nat2Z.inj_mod, Nat2Z.id.
    destruct (Hnext ((i + 1) `mod` length (Room.PlayerOrder room))%nat)
      as (d & Hd & -> & ->); [apply Nat.mod_upper_bound; lia | done].
  - intros Hout _. rewrite (index_of_absent _ _ Hout).
    replace (-1 + 1) with 0 by lia. rewrite Z.rem_0_l by lia.
    change (Z.to_nat 0) with 0%nat.
    destruct (Hnext 0%nat) as (d & Hd & -> & ->); [rewrite Ho; cbn; lia | done].
Qed.

(** The theorem in the lobby of three: after Carol, the last, comes
    Alice, the first; and after a drawer who left, Alice again. *)
Lemma next_drawer_follows_the_order_witness :
  let room := Room.set_CurrentDrawer "carol" (Scenario.lobby 8 3 Scenario.three) in
  Room.PlayerOrder room = ["alice"; "bob"; "carol"]
  ∧ Room.PlayerOrder room !! ((2 + 1) `mod` 3)%nat
    = Some (Room.CurrentDrawer (Room.selectNextDrawer room))
  ∧ Room.CurrentDrawer (Room.selectNextDrawer room) = "alice"
  ∧ Room.CurrentDrawer
      (Room.selectNextDrawer
         (Room.set_CurrentDrawer "dave" (Scenario.lobby 8 3 Scenario.three)))
    = "alice".
Proof.
  intros room. split; [vm_compute; reflexivity|].
  split; [|split; vm_compute; reflexivity].
  apply (proj1 (proj2 (proj2 (next_drawer_follows_the_order room))) 2%nat).
  - apply (bool_decide_unpack _). vm_compute. exact I.
  - vm_compute. reflexivity.
Defined.

Lemma selectNextDrawer_elem room :
  Room.PlayerOrder room ≠ [] →
  Room.CurrentDrawer (Room.selectNextDrawer room) ∈ Room.PlayerOrder room.
Proof.
  intros Hne. unfold Room.selectNextDrawer.
  destruct (Room.PlayerOrder room) as [|first rest] eqn:Ho; [done|]. rewrite <- Ho.
  set (current := match Go.index_of _ _ with Some i => Z.of_nat i | None => -1 end).
  assert (Hc : -1 ≤ current) by (unfold current; destruct (Go.index_of _ _); lia).
  assert (Hlen : 0 < Go.len (Room.PlayerOrder room)).
  { rewrite Ho. unfold Go.len. cbn. lia. }
  pose proof (Z.rem_bound_pos (current + 1) (Go.len (Room.PlayerOrder room))
                ltac:(lia) Hlen) as Hk.
  destruct (lookup_lt_is_Some_2 (Room.PlayerOrder room)
              (Z.to_nat (Z.rem (current + 1) (Go.len (Room.PlayerOrder room)))))
    as [d Hd]; [unfold Go.len in *; lia|].
  rewrite Hd. apply list_elem_of_lookup_2 in Hd. by destruct room.
Qed.

Lemma selectNextDrawer_only room :
  Room.selectNextDrawer room
  = Room.set_CurrentDrawer (Room.CurrentDrawer (Room.selectNextDrawer room)) room.
Proof.
  unfold Room.selectNextDrawer. destruct (Room.PlayerOrder room); [by destruct room|].
  destruct (_ !! _); by destruct room.
Qed.

Lemma StartNewRound_fields now word hint room :
  let room' := Room.StartNewRound now word hint room in
  Room.PlayerOrder room' = Room.PlayerOrder room
  ∧ Room.CurrentRound room' = Go.add (Room.CurrentRound room) 1
  ∧ Room.GuessedPlayers room' = []
  ∧ Room.Phase room' = GamePhaseDrawing
  ∧ (Room.PlayerOrder room ≠ [] → Room.CurrentDrawer room' ∈ Room.PlayerOrder room).
Proof.
  unfold Room.StartNewRound.
  match goal with |- context [Room.selectNextDrawer ?r] => set (r0 := r) end.
  assert (H0 : Room.PlayerOrder r0 = Room.PlayerOrder room
               ∧ Room.CurrentRound r0 = Go.add (Room.CurrentRound room) 1
               ∧ Room.GuessedPlayers r0 = [] ∧ Room.Phase r0 = GamePhaseDrawing)
    by (unfold r0; by destruct room).
  destruct H0 as (Ho & Hr & Hg & Hp). cbv zeta.
  pose proof (selectNextDrawer_elem r0) as He. rewrite Ho in He.
  rewrite selectNextDrawer_only.
  set (d := Room.CurrentDrawer (Room.selectNextDrawer r0)) in *.
  clearbody d. destruct r0; cbn in *. by subst.
Qed.

(** A round that begins in a room that can be reached and has a player
    has a drawer: [HandleNewRound] returns whatever the fuel, the
    drawer it selected is a player of the room, the round number has
    grown by one and nobody has guessed yet. *)
Theorem new_round_has_a_drawer
    (fuel : nat) (env : Env.t) (hub : Hub.t) (room : Room.t) (ge : GameEngine.t) :
  reachable room → 1 ≤ Room.len_Players room →
  ∃ room' ge' es,
    HandleNewRound fuel env hub room ge = Done (room', ge') es
    ∧ is_Some (Room.Players room' !! Room.CurrentDrawer room')
    ∧ Room.CurrentRound room' = Go.add (Room.CurrentRound room) 1
    ∧ Room.GuessedPlayers room' = []
    ∧ Room.Phase room' = GamePhaseDrawing.
Proof.
  intros Hr Hn. pose proof (reachable_in_order room Hr) as Hok.
  unfold HandleNewRound, HandleNewRound_with.
  destruct (GetRandomWord _ _) as [[word hint] ge1].
  pose proof (StartNewRound_in_order (Env.now env) word hint room Hok) as [Hnd Hin].
  destruct (StartNewRound_fields (Env.now env) word hint room)
    as (Ho & Hround & Hg & Hp & He).
  set (room1 := Room.StartNewRound _ _ _ _) in *.
  assert (Hd : is_Some (Room.Players room1 !! Room.CurrentDrawer room1)).
  { apply Hin. rewrite Ho. apply He. intros Hnil.
    rewrite <- (players_in_order_len room Hok), Hnil in Hn.
    unfold Go.len in Hn. cbn in Hn. lia. }
  unfold Room.GetPlayer. destruct Hd as [drawer Hd]. rewrite Hd.
  do 3 eexists. split; [reflexivity|]. by rewrite Hd.
Qed.

(** The theorem in the lobby of Alice and Bob. *)
Lemma new_round_has_a_drawer_witness :
  let room := Scenario.lobby 8 3 [Scenario.alice; Scenario.bob] in
  reachable room
  ∧ ∃ room' ge' es,
      HandleNewRound 0 (Scenario.at_second 100) (Scenario.hub [Scenario.alice; Scenario.bob])
        room Scenario.engine = Done (room', ge') es
      ∧ is_Some (Room.Players room' !! Room.CurrentDrawer room').
Proof.
  intros room.
  assert (Hreach : reachable room).
  { exists "room_1", "ABCDEF", 0, "alice", RoomTypePublic, "Doodle", (Scenario.settings 8 3).
    eapply rtc_l; [apply (step_join (1 * Go.Second) Scenario.alice)|].
    eapply rtc_l; [apply (step_join (2 * Go.Second) Scenario.bob)|]. apply rtc_refl. }
  split; [exact Hreach|].
  destruct (new_round_has_a_drawer 0 (Scenario.at_second 100)
              (Scenario.hub [Scenario.alice; Scenario.bob]) room Scenario.engine Hreach)
    as (room' & ge' & es & H & Hd & _); [vm_compute; discriminate|].
  exists room', ge', es. exact (conj H Hd).
Defined.

(** ** Leaving a room ([RemovePlayer]) *)

Lemma assignNewHost_head room first rest :
  players_in_order room → Room.PlayerOrder room = first :: rest →
  Room.HostID (Room.assignNewHost room) = first.
Proof.
  intros Hok Ho. pose proof (players_in_order_len room Hok) as Hlen.
  destruct Hok as [Hnd Hin]. unfold Room.assignNewHost.
  rewrite <- Hlen, Ho. unfold Go.len. cbn [length].
  destruct (Z.of_nat (S (length rest)) =? 0) eqn:E; [apply Z.eqb_eq in E; lia|].
  rewrite <- Ho.
  destruct (list_find _ _) as [[i p]|] eqn:Hf.
  - apply list_find_Some in Hf as (Hi & Hp & Hfirst).
    destruct i as [|i].
    + rewrite Ho in Hi. injection Hi as ->. by destruct room.
    + exfalso. apply (Hfirst 0%nat first); [by rewrite Ho | lia |].
      apply Hin. rewrite Ho. by left.
  - apply list_find_None in Hf. rewrite Forall_forall in Hf.
    exfalso. apply (Hf first); [rewrite Ho; by left|]. apply Hin. rewrite Ho. by left.
Qed.

(** A player who leaves.  [RemovePlayer] refuses a user who is not a
    player and changes nothing.  A player is taken out of [players], of
    [player_order] and of [guessed_players]; the current drawer stays
    what it was, also when it is the drawer who leaves.  When the host
    leaves a room whose order lists its players, the first of the
    remaining players in the order becomes the host; when nobody
    remains, the host stays the user who left. *)
Theorem RemovePlayer_and_the_host (now : Z) (userID : string) (room : Room.t) :
  let room' := (Room.RemovePlayer now userID room).1 in
  (Room.Players room !! userID = None → Room.RemovePlayer now userID room = (room, false))
  ∧ (is_Some (Room.Players room !! userID) →
     (Room.RemovePlayer now userID room).2 = true
     ∧ Room.Players room' = delete userID (Room.Players room)
     ∧ Room.PlayerOrder room' = Go.remove_first userID (Room.PlayerOrder room)
     ∧ Room.GuessedPlayers room' = Go.remove_first userID (Room.GuessedPlayers room)
     ∧ Room.CurrentDrawer room' = Room.CurrentDrawer room
     ∧ (Room.HostID room ≠ userID → Room.HostID room' = Room.HostID room)
     ∧ (Room.HostID room = userID → players_in_order room →
        Room.HostID room' = default userID (head (Room.PlayerOrder room')))).
Proof.
  intros room'. split.
  { intros Hnone. unfold Room.RemovePlayer. rewrite Hnone.
    by rewrite bool_decide_eq_false_2 by (by intros [? [=]]). }
  intros Hsome.
  pose proof (RemovePlayer_in_order now userID room) as Hkeeps. fold room' in Hkeeps.
  subst room'. unfold Room.RemovePlayer in *.
  rewrite bool_decide_eq_true_2 in * by done. cbn [fst snd] in *.
  set (room1 := Room.set_GuessedPlayers _ _) in *.
  assert (H1 : Room.Players room1 = delete userID (Room.Players room)
               ∧ Room.PlayerOrder room1 = Go.remove_first userID (Room.PlayerOrder room)
               ∧ Room.GuessedPlayers room1
                 = Go.remove_first userID (Room.GuessedPlayers room)
               ∧ Room.CurrentDrawer room1 = Room.CurrentDrawer room
               ∧ Room.HostID room1 = Room.HostID room) by (by destruct room).
  destruct H1 as (Hp & Ho & Hg & Hd & Hh).
  assert (Ha : Room.Players (Room.assignNewHost room1) = Room.Players room1
               ∧ Room.PlayerOrder (Room.assignNewHost room1) = Room.PlayerOrder room1
               ∧ Room.GuessedPlayers (Room.assignNewHost room1)
                 = Room.GuessedPlayers room1
               ∧ Room.CurrentDrawer (Room.assignNewHost room1)
                 = Room.CurrentDrawer room1).
  { unfold Room.assignNewHost. destruct (_ =? _); [by destruct room1|].
    destruct (list_find _ _) as [[i p]|]; by destruct room1. }
  destruct Ha as (Hap & Hao & Hag & Had).
  assert (HL : ∀ r, Room.Players (Room.set_LastActivity now r) = Room.Players r
                    ∧ Room.PlayerOrder (Room.set_LastActivity now r) = Room.PlayerOrder r
                    ∧ Room.GuessedPlayers (Room.set_LastActivity now r)
                      = Room.GuessedPlayers r
                    ∧ Room.CurrentDrawer (Room.set_LastActivity now r)
                      = Room.CurrentDrawer r
                    ∧ Room.HostID (Room.set_LastActivity now r) = Room.HostID r)
    by (by intros []).
  destruct (bool_decide (Room.HostID room1 = userID)) eqn:Hhost; cbn [andb] in *.
  - apply bool_decide_eq_true in Hhost. rewrite Hh in Hhost.
    destruct (0 <? Room.len_Players room1) eqn:Hlen.
    + destruct (HL (Room.assignNewHost room1)) as (-> & -> & -> & -> & ->).
      rewrite Hap, Hao, Hag, Had, Hp, Ho, Hg, Hd.
      do 5 (split; [done|]). split; [done|]. intros _ Hok.
      specialize (Hkeeps Hok).
      assert (Hok1 : players_in_order room1).
      { eapply players_in_order_fields; [..|exact Hkeeps].
        - destruct (HL (Room.assignNewHost room1)) as (_ & -> & _). done.
        - destruct (HL (Room.assignNewHost room1)) as (-> & _). done. }
      destruct (Room.PlayerOrder room1) as [|first rest] eqn:E.
      * pose proof (players_in_order_len room1 Hok1) as Hl. rewrite E in Hl.
        apply Z.ltb_lt in Hlen. unfold Go.len in Hl. cbn in Hl. lia.
      * rewrite <- Ho. cbn. by apply (assignNewHost_head room1 first rest).
    + destruct (HL room1) as (-> & -> & -> & -> & ->).
      rewrite Hp, Ho, Hg, Hd, Hh.
      do 5 (split; [done|]). split; [done|]. intros _ Hok.
      specialize (Hkeeps Hok).
      assert (Hok1 : players_in_order room1).
      { eapply players_in_order_fields; [..|exact Hkeeps].
        - destruct (HL room1) as (_ & -> & _). done.
        - destruct (HL room1) as (-> & _). done. }
      pose proof (players_in_order_len room1 Hok1) as Hl.
      apply Z.ltb_ge in Hlen. rewrite <- Ho.
      destruct (Room.PlayerOrder room1); [done|]. unfold Go.len in Hl. cbn in Hl. lia.
  - apply bool_decide_eq_false in Hhost. rewrite Hh in Hhost.
    destruct (HL room1) as (-> & -> & -> & -> & ->).
    rewrite Hp, Ho, Hg, Hd, Hh. do 5 (split; [done|]). split; [done|]. done.
Qed.

(** The theorem in the lobby of three: Alice, the host, leaves, and
    Bob is the host. *)
Lemma RemovePlayer_and_the_host_witness :
  let room := Scenario.lobby 8 3 Scenario.three in
  let room' := (Room.RemovePlayer (10 * Go.Second) "alice" room).1 in
  Room.HostID room = "alice"
  ∧ Room.PlayerOrder room' = ["bob"; "carol"]
  ∧ Room.HostID room' = default "alice" (head (Room.PlayerOrder room'))
  ∧ Room.HostID room' = "bob".
Proof.
  intros room room'. split; [vm_compute; reflexivity|].
  split; [vm_compute; reflexivity|]. split; [|vm_compute; reflexivity].
  refine (proj2 (proj2 (proj2 (proj2 (proj2 (proj2
    (proj2 (RemovePlayer_and_the_host (10 * Go.Second) "alice" room) _)))))) _ _).
  - vm_compute. eauto.
  - vm_compute. reflexivity.
  - split.
    + apply (bool_decide_unpack _). vm_compute. exact I.
    + intros id. destruct (reachable_in_order room) as [_ H]; [|apply H].
      exists "room_1", "ABCDEF", 0, "alice", RoomTypePublic, "Doodle", (Scenario.settings 8 3).
      eapply rtc_l; [apply (step_join (1 * Go.Second) Scenario.alice)|].
      eapply rtc_l; [apply (step_join (2 * Go.Second) Scenario.bob)|].
      eapply rtc_l; [apply (step_join (3 * Go.Second) Scenario.carol)|]. apply rtc_refl.
Defined.

(** ** Who is ready ([SetReady]) *)

Lemma nobody_ready_fmap (f : User.t → User.t) room :
  (∀ u, User.IsReady (f u) = false) →
  nobody_ready (Room.set_Players (f <$> Room.Players room) room).
Proof.
  intros Hf id user. destruct room; cbn. rewrite lookup_fmap.
  destruct (Players !! id); cbn; [|done]. by intros [= <-].
Qed.

Lemma nobody_ready_update userID f room :
  (∀ u, User.IsReady u = false → User.IsReady (f u) = false) →
  nobody_ready room → nobody_ready (update_player userID f room).
Proof.
  intros Hf Hr id user. destruct room; cbn in *.
  destruct (decide (id = userID)) as [->|Hne].
  - rewrite lookup_alter_eq. destruct (Players !! userID) as [u|] eqn:E; [|done].
    cbn. intros [= <-]. apply Hf. by apply (Hr userID).
  - rewrite lookup_alter_ne by done. apply Hr.
Qed.

Lemma nobody_ready_fields room room' :
  Room.Players room' = Room.Players room → nobody_ready room → nobody_ready room'.
Proof. unfold nobody_ready. by intros ->. Qed.

Lemma StartGame_nobody_ready now room : nobody_ready (Room.StartGame now room).
Proof.
  unfold Room.StartGame. set (room1 := Room.reset_players _).
  assert (H1 : nobody_ready room1).
  { unfold room1, Room.reset_players. apply nobody_ready_fmap. by intros []. }
  destruct (Room.PlayerOrder room1); [done|].
  eapply nobody_ready_fields; [|exact H1]. by destruct room1.
Qed.

Lemma StartNewRound_nobody_ready now word hint room :
  nobody_ready (Room.StartNewRound now word hint room).
Proof.
  unfold Room.StartNewRound.
  match goal with |- context [Room.selectNextDrawer ?r] =>
    eapply (nobody_ready_fields r);
      [by destruct (selectNextDrawer_fields r) as (_ & -> & _)|] end.
  unfold Room.reset_players. apply nobody_ready_fmap. by intros [].
Qed.

Lemma EndGame_nobody_ready now room : nobody_ready (Room.EndGame now room).
Proof. unfold Room.EndGame. apply nobody_ready_fmap. by intros []. Qed.

Lemma CanStart_nobody_ready room : nobody_ready room → Room.CanStart room = false.
Proof.
  intros Hr. unfold Room.CanStart.
  destruct (negb (bool_decide _)); [done|].
  destruct (Room.len_Players room <? 2) eqn:Hlen; [done|].
  apply bool_decide_eq_false. intros Hall.
  apply Z.ltb_ge in Hlen. unfold Room.len_Players in Hlen.
  destruct (map_choose (Room.Players room)) as (id & user & Hu).
  { intros Hempty. rewrite Hempty, map_size_empty in Hlen. lia. }
  specialize (Hall id user Hu). cbn in Hall. rewrite (Hr id user Hu) in Hall. done.
Qed.

(** Nobody is ever ready, and no game starts.  A user is created not
    ready; [handleConnect] does not change that, and no handler calls
    [SetReady] but [EndGame], with false.  So: a new room has no ready
    player; if no player of a room is ready, none is after a user who
    is not ready has joined, after a player has left, after the record
    of a player was updated by [handleConnect], and after each of the
    handlers; and in such a room [start_game] is refused, whoever sends
    it: the answer is one error frame ([NOT_HOST] or [CANNOT_START])
    and the room is unchanged. *)
Theorem nobody_is_ever_ready :
  (∀ id now username avatar, User.IsReady (NewUser id now username avatar) = false)
  ∧ (∀ now username avatar user,
       User.IsReady user = false →
       User.IsReady (connect_user now username avatar user) = false)
  ∧ (∀ id code now hostID roomType roomName settings,
       nobody_ready (Room.NewRoom id code now hostID roomType roomName settings))
  ∧ (∀ room, nobody_ready room →
       (∀ now user, User.IsReady user = false →
                    nobody_ready (Room.AddPlayer now user room).1)
       ∧ (∀ now userID, nobody_ready (Room.RemovePlayer now userID room).1)
       ∧ (∀ now userID username avatar,
            nobody_ready (update_player userID (connect_user now username avatar) room))
       ∧ (∀ fuel env hub ge client,
            leaves nobody_ready (handleStartGame fuel env hub room ge client))
       ∧ (∀ env ge client cmd, leaves nobody_ready (handleDraw env room ge client cmd))
       ∧ (∀ fuel env hub ge client guess,
            leaves nobody_ready (handleSendGuess fuel env hub room ge client guess))
       ∧ (∀ fuel env hub ge, leaves nobody_ready (roundTimerTick fuel env hub room ge))
       ∧ (∀ fuel env hub ge client,
            handleStartGame fuel env hub room ge client
            = Done (room, ge)
                [if bool_decide (Room.HostID room = client_id client)
                 then sendClientError (Env.now env) client
                        "Not enough players or not all ready" "CANNOT_START"
                 else sendClientError (Env.now env) client
                        "Only host can start game" "NOT_HOST"])).
Proof.
  split; [done|]. split; [by intros ??? [] ?|]. split; [by intros ??????? ??|].
  intros room Hr.
  assert (Hfields : ∀ r r', Room.Players r' = Room.Players r →
                            nobody_ready r → nobody_ready r')
    by apply nobody_ready_fields.
  assert (HEndRound : ∀ now r, nobody_ready r → nobody_ready (Room.EndRound now r)).
  { intros now r. apply Hfields. by destruct r. }
  assert (HAddGuess : ∀ now userID r,
            nobody_ready r → nobody_ready (Room.AddGuess now userID r).1).
  { intros now userID r. apply Hfields. apply AddGuess_Players. }
  assert (HDraw : ∀ now cmd r,
            nobody_ready r → nobody_ready (Room.AddDrawCommand now cmd r)).
  { intros now cmd r. apply Hfields. by destruct r. }
  assert (HRecord : ∀ userID now correct order r,
            nobody_ready r →
            nobody_ready (update_player userID (User.RecordGuess now correct order) r)).
  { intros. apply nobody_ready_update; [|done]. intros [] ?. by destruct correct. }
  assert (HScore : ∀ userID points r,
            nobody_ready r → nobody_ready (update_player userID (User.AddScore points) r)).
  { intros. apply nobody_ready_update; [|done]. by intros []. }
  assert (HTurn : ∀ userID points r,
            nobody_ready r →
            nobody_ready (update_player userID
                            (λ drawer, User.RecordDrawerTurn (User.AddScore points drawer))
                            r)).
  { intros. apply nobody_ready_update; [|done]. by intros []. }
  assert (HStartGame : ∀ now r, nobody_ready r → nobody_ready (Room.StartGame now r))
    by (intros; apply StartGame_nobody_ready).
  assert (HStartNewRound : ∀ now word hint r,
            nobody_ready r → nobody_ready (Room.StartNewRound now word hint r))
    by (intros; apply StartNewRound_nobody_ready).
  assert (HEndGame : ∀ now r, nobody_ready r → nobody_ready (Room.EndGame now r))
    by (intros; apply EndGame_nobody_ready).
  repeat split.
  - intros now user Huser. unfold Room.AddPlayer.
    destruct (_ >=? _); [done|]. destruct (bool_decide _); [done|].
    intros id u. destruct room; cbn in *.
    destruct (decide (id = User.ID user)) as [->|Hne].
    + rewrite lookup_insert_eq. by intros [= <-].
    + rewrite lookup_insert_ne by done. apply Hr.
  - intros now userID. unfold Room.RemovePlayer. destruct (bool_decide _); [|done].
    cbn [fst]. set (room1 := Room.set_GuessedPlayers _ _).
    assert (H1 : nobody_ready room1).
    { intros id u. unfold room1. destruct room; cbn in *.
      intros Hu. apply lookup_delete_Some in Hu as [_ Hu]. by apply (Hr id). }
    destruct (_ && _).
    + eapply Hfields; [|exact H1].
      destruct (assignNewHost_fields room1) as [_ <-].
      by destruct (Room.assignNewHost room1).
    + eapply Hfields; [|exact H1]. by destruct room1.
  - intros now userID username avatar. apply nobody_ready_update; [|done]. by intros [].
  - intros. apply handleStartGame_keeps; eauto.
  - intros. apply handleDraw_keeps; eauto.
  - intros. apply handleSendGuess_keeps; eauto.
  - intros. apply roundTimerTick_keeps; eauto.
  - intros fuel env hub ge client. unfold handleStartGame.
    destruct (bool_decide _); [|done]. cbn [negb].
    by rewrite CanStart_nobody_ready.
Qed.

(** The theorem for two users as the server creates them: Alice, the
    host, asks to start the game with Bob. *)
Lemma nobody_is_ever_ready_witness :
  let alice := NewUser "alice" (1 * Go.Second) "Alice" "*" in
  let bob := NewUser "bob" (2 * Go.Second) "Bob" "*" in
  let room0 := Room.NewRoom "room_1" "ABCDEF" 0 "alice" RoomTypePublic "Doodle"
                 (Scenario.settings 8 3) in
  let room := (Room.AddPlayer (2 * Go.Second) bob
                 (Room.AddPlayer (1 * Go.Second) alice room0).1).1 in
  Room.len_Players room = 2
  ∧ handleStartGame 2 (Scenario.at_second 100) (Scenario.hub [alice; bob]) room
      Scenario.engine (Client.mk alice "room_1")
    = Done (room, Scenario.engine)
        [sendClientError (100 * Go.Second) (Client.mk alice "room_1")
           "Not enough players or not all ready" "CANNOT_START"].
Proof.
  intros alice bob room0 room. split; [vm_compute; reflexivity|].
  destruct nobody_is_ever_ready as (Hnew & _ & Hroom & Hkeeps).
  pose proof (Hroom "room_1" "ABCDEF" 0 "alice" RoomTypePublic "Doodle"
                (Scenario.settings 8 3)) as H0.
  pose proof (proj1 (Hkeeps _ H0) (1 * Go.Second) alice (Hnew _ _ _ _)) as H1.
  pose proof (proj1 (Hkeeps _ H1) (2 * Go.Second) bob (Hnew _ _ _ _)) as H2.
  destruct (Hkeeps _ H2) as (_ & _ & _ & _ & _ & _ & _ & Hstart).
  etrans; [apply Hstart|]. vm_compute. reflexivity.
Defined.

(** ** A round without its drawer ([HandleRoundEnd]) *)

(** When the current drawer is not a player of the room, the end of
    the round stops at [drawer.Username], a nil dereference, before any
    frame of it is sent: so does the tick of the timer that finds the
    time up, after its timer frame.  A room gets there when the drawer
    leaves, [RemovePlayer] keeping the drawer it removes as current
    drawer; and when the game has ended, the drawer then being the
    empty identifier. *)
Theorem round_end_without_drawer_panics :
  (∀ fuel env hub room ge,
     drawer_missing room →
     HandleRoundEnd (S fuel) env hub room ge = Panic []
     ∧ (Room.GetTimeLeft (Env.now env) room ≤ 0 →
        roundTimerTick (S fuel) env hub room ge
        = Panic [BroadcastToRoom (Room.ID room)
                   (NewTimerMessage (Env.now env) (Room.GetTimeLeft (Env.now env) room)
                      (Room.Phase room)) None]))
  ∧ (∀ now room,
       is_Some (Room.Players room !! Room.CurrentDrawer room) →
       drawer_missing (Room.RemovePlayer now (Room.CurrentDrawer room) room).1)
  ∧ (∀ now room, Room.Players room !! "" = None → drawer_missing (Room.EndGame now room)).
Proof.
  split; [|split].
  - intros fuel env hub room ge Hd.
    assert (He : HandleRoundEnd (S fuel) env hub room ge = Panic [])
      by (by apply HandleRoundEnd_no_drawer).
    split; [done|]. intros Hleft. unfold roundTimerTick.
    apply Z.leb_le in Hleft. by rewrite Hleft, He.
  - intros now room Hsome. unfold drawer_missing, Room.RemovePlayer.
    rewrite bool_decide_eq_true_2 by done. cbn [fst].
    set (room1 := Room.set_GuessedPlayers _ _).
    assert (H1 : Room.Players room1 !! Room.CurrentDrawer room = None
                 ∧ Room.CurrentDrawer room1 = Room.CurrentDrawer room).
    { unfold room1. destruct room; cbn. by rewrite lookup_delete_eq. }
    destruct H1 as [Hp Hd].
    assert (Ha : Room.Players (Room.assignNewHost room1) = Room.Players room1
                 ∧ Room.CurrentDrawer (Room.assignNewHost room1)
                   = Room.CurrentDrawer room1).
    { unfold Room.assignNewHost. destruct (_ =? _); [by destruct room1|].
      destruct (list_find _ _) as [[i p]|]; by destruct room1. }
    destruct Ha as [Hap Had].
    destruct (_ && _).
    + replace (Room.Players (Room.set_LastActivity now (Room.assignNewHost room1)))
        with (Room.Players room1) by (rewrite <- Hap; by destruct (Room.assignNewHost room1)).
      replace (Room.CurrentDrawer (Room.set_LastActivity now (Room.assignNewHost room1)))
        with (Room.CurrentDrawer room1)
        by (rewrite <- Had; by destruct (Room.assignNewHost room1)).
      by rewrite Hd.
    + replace (Room.Players (Room.set_LastActivity now room1))
        with (Room.Players room1) by (by destruct room1).
      replace (Room.CurrentDrawer (Room.set_LastActivity now room1))
        with (Room.CurrentDrawer room1) by (by destruct room1).
      by rewrite Hd.
  - intros now room Hnone. unfold drawer_missing. destruct room; cbn in *.
    by rewrite lookup_fmap, Hnone.
Qed.

(** The theorem in the game of three: Bob, who draws, leaves, and the
    timer finds the time up. *)
Lemma round_end_without_drawer_panics_witness :
  let s0 := Scenario.started Scenario.three 3 in
  let room := (Room.RemovePlayer (120 * Go.Second) "bob" s0.1).1 in
  (Room.CurrentDrawer s0.1 = "bob" ∧ drawer_missing room)
  ∧ Room.GetTimeLeft (160 * Go.Second) room = 0
  ∧ effects_of (roundTimerTick 2 (Scenario.at_second 160) (Scenario.hub Scenario.three)
                  room s0.2)
    = [BroadcastToRoom "room_1" (NewTimerMessage (160 * Go.Second) 0 GamePhaseDrawing) None]
  ∧ roundTimerTick 2 (Scenario.at_second 160) (Scenario.hub Scenario.three) room s0.2
    = Panic (effects_of (roundTimerTick 2 (Scenario.at_second 160)
                           (Scenario.hub Scenario.three) room s0.2)).
Proof.
  intros s0 room.
  assert (Hd : drawer_missing room) by (vm_compute; reflexivity).
  split; [split; [vm_compute; reflexivity | exact Hd]|].
  split; [vm_compute; reflexivity|]. split; [vm_compute; reflexivity|].
  etrans.
  - apply (proj1 round_end_without_drawer_panics 1%nat (Scenario.at_second 160)
             (Scenario.hub Scenario.three) room s0.2 Hd).
    vm_compute. discriminate.
  - vm_compute. reflexivity.
Defined.

(** ** Drawing ([handleDrawStart], [handleDrawMove], [handleDrawEnd]) *)

(** Only the current drawer draws.  A draw message of another client is
    answered with [NOT_DRAWER], to that client alone, and changes
    nothing.  A draw message of the drawer appends one command, stamped
    with the time, to the drawing of the room and touches neither the
    players nor the round; it is relayed to the clients of the room,
    never back to the drawer and never to a client of another room. *)
Theorem only_the_drawer_draws
    (env : Env.t) (room : Room.t) (ge : GameEngine.t) (client : Client.t)
    (cmd : DrawCommand.t) :
  (Room.CurrentDrawer room ≠ client_id client →
   handleDraw env room ge client cmd
   = Done (room, ge)
       [sendClientError (Env.now env) client "Not your turn to draw" "NOT_DRAWER"])
  ∧ (Room.CurrentDrawer room = client_id client →
     ∃ room' m,
       handleDraw env room ge client cmd
       = Done (room', ge) [BroadcastToRoom (Room.ID room) m (Some (client_id client))]
       ∧ Room.DrawingData room'
         = Room.DrawingData room ++ [DrawCommand.set_Timestamp (Env.now env) cmd]
       ∧ Room.Players room' = Room.Players room
       ∧ Room.GuessedPlayers room' = Room.GuessedPlayers room
       ∧ Room.CurrentDrawer room' = Room.CurrentDrawer room
       ∧ Room.CurrentWord room' = Room.CurrentWord room
       ∧ Room.State room' = Room.State room ∧ Room.Phase room' = Room.Phase room
       ∧ ∀ hub c m',
           (c, m') ∈ delivered hub (effects_of (handleDraw env room ge client cmd)) →
           m' = m ∧ c ≠ client_id client
           ∧ c ∈ default ∅ (Hub.clientsByRoom hub !! Room.ID room)).
Proof.
  unfold handleDraw. split.
  - intros Hne. by rewrite bool_decide_eq_false_2.
  - intros Heq. rewrite bool_decide_eq_true_2 by done. cbn [negb].
    do 2 eexists. split.
    { f_equal. f_equal. f_equal. by destruct room. }
    do 7 (split; [by destruct room|]).
    intros hub c m' Hin. cbn [effects_of] in Hin.
    apply elem_of_delivered in Hin as (e & He & Hf & Hc).
    apply list_elem_of_singleton in He as ->. cbn in Hf, Hc.
    injection Hf as <-. apply elem_of_difference in Hc as [Hc Hne].
    split; [done|]. split; [intros ->; apply Hne; by apply elem_of_singleton|].
    by destruct room.
Qed.

(** The theorem in the game of three: Bob draws, and Alice tries to. *)
Lemma only_the_drawer_draws_witness :
  let s0 := Scenario.started Scenario.three 3 in
  let stroke := DrawCommand.mk "start" 1%float 2%float "red" 3%float 0 in
  handleDraw (Scenario.at_second 105) s0.1 s0.2 (Scenario.client Scenario.alice) stroke
  = Done s0 [sendClientError (105 * Go.Second) (Scenario.client Scenario.alice)
               "Not your turn to draw" "NOT_DRAWER"]
  ∧ (fst <$> delivered (Scenario.hub Scenario.three)
               (effects_of (handleDraw (Scenario.at_second 105) s0.1 s0.2
                              (Scenario.client Scenario.bob) stroke)))
    = ["carol"; "alice"].
Proof.
  intros s0 stroke. split; [|vm_compute; reflexivity].
  etrans.
  - apply (proj1 (only_the_drawer_draws (Scenario.at_second 105) s0.1 s0.2
                    (Scenario.client Scenario.alice) stroke)).
    vm_compute. discriminate.
  - vm_compute. reflexivity.
Defined.

(** ** Leaving through the registry ([LeaveRoom]) *)

Lemma RemovePlayer_result now userID room :
  (Room.Players room !! userID = None → Room.RemovePlayer now userID room = (room, false))
  ∧ (is_Some (Room.Players room !! userID) →
     (Room.RemovePlayer now userID room).2 = true
     ∧ Room.Code (Room.RemovePlayer now userID room).1 = Room.Code room).
Proof.
  unfold Room.RemovePlayer. split.
  - intros Hnone. rewrite Hnone.
    by rewrite bool_decide_eq_false_2 by (by intros [? [=]]).
  - intros Hsome. rewrite bool_decide_eq_true_2 by done. cbn [fst snd].
    split; [done|]. destruct (_ && _); [|by destruct room].
    unfold Room.assignNewHost. destruct (_ =? _); [by destruct room|].
    destruct (list_find _ _) as [[i q]|]; by destruct room.
Qed.

(** [LeaveRoom] answers false and changes nothing when the room is not
    registered or the user is not one of its players.  Otherwise the
    player is removed from the room, and the room stays registered
    exactly when a player is left in it: with the last player the room
    leaves the index by identifier and the index by code, the entries
    of the other identifiers and codes being kept. *)
Theorem LeaveRoom_last_player_closes_the_room
    (now : Z) (roomID userID : string) (rm : RoomManager.t) :
  let rm' := (RoomManager.LeaveRoom now roomID userID rm).1 in
  (RoomManager.GetRoom roomID rm ≫= RoomManager.deref rm = None →
   RoomManager.LeaveRoom now roomID userID rm = (rm, false))
  ∧ (∀ p room,
       RoomManager.GetRoom roomID rm = Some p → RoomManager.deref rm p = Some room →
       (Room.Players room !! userID = None →
        RoomManager.LeaveRoom now roomID userID rm = (rm, false))
       ∧ (is_Some (Room.Players room !! userID) →
          let room' := (Room.RemovePlayer now userID room).1 in
          (RoomManager.LeaveRoom now roomID userID rm).2 = true
          ∧ RoomManager.deref rm' p = Some room'
          ∧ (∀ q, q ≠ p → RoomManager.deref rm' q = RoomManager.deref rm q)
          ∧ (∀ id, id ≠ roomID → RoomManager.GetRoom id rm' = RoomManager.GetRoom id rm)
          ∧ (∀ code, code ≠ Room.Code room →
               RoomManager.GetRoomByCode code rm' = RoomManager.GetRoomByCode code rm)
          ∧ (Room.len_Players room' = 0 →
             RoomManager.GetRoom roomID rm' = None
             ∧ RoomManager.GetRoomByCode (Room.Code room) rm' = None)
          ∧ (Room.len_Players room' ≠ 0 →
             RoomManager.GetRoom roomID rm' = Some p
             ∧ RoomManager.GetRoomByCode (Room.Code room) rm'
               = RoomManager.GetRoomByCode (Room.Code room) rm))).
Proof.
  intros rm'. subst rm'. unfold RoomManager.LeaveRoom. split.
  { destruct (RoomManager.GetRoom roomID rm) as [p|]; cbn; [|done].
    by intros ->. }
  intros p room Hp Hroom. rewrite Hp, Hroom.
  destruct (RemovePlayer_result now userID room) as [Hnone Hsome].
  split.
  - intros Hu. rewrite (Hnone Hu).
    unfold RoomManager.assign. rewrite list_insert_id by done. by destruct rm.
  - intros Hu. destruct (Hsome Hu) as (Hok & Hcode).
    destruct (Room.RemovePlayer now userID room) as [room1 removed]. cbn [fst snd] in *.
    subst removed.
    assert (Hderef : ∀ rm0, RoomManager.store rm0 = <[p := room1]> (RoomManager.store rm) →
                            RoomManager.deref rm0 p = Some room1
                            ∧ ∀ q, q ≠ p → RoomManager.deref rm0 q = RoomManager.deref rm q).
    { intros rm0 Hs. unfold RoomManager.deref. rewrite Hs. split.
      - apply list_lookup_insert_eq. by eapply lookup_lt_Some.
      - intros q Hq. by rewrite list_lookup_insert_ne. }
    unfold Room.GetPlayerCount.
    destruct (Room.len_Players room1 =? 0) eqn:Hlen.
    + apply Z.eqb_eq in Hlen. cbn [fst snd]. split; [done|].
      destruct (Hderef (RoomManager.mk (RoomManager.store (RoomManager.assign p room1 rm))
                          (delete roomID (RoomManager.rooms (RoomManager.assign p room1 rm)))
                          (delete (Room.Code room1)
                             (RoomManager.roomByCode (RoomManager.assign p room1 rm)))))
        as [Hd1 Hd2]; [done|].
      split; [done|]. split; [done|].
      unfold RoomManager.GetRoom, RoomManager.GetRoomByCode. cbn. rewrite Hcode.
      split; [intros id Hid; by rewrite lookup_delete_ne|].
      split; [intros code Hc; by rewrite lookup_delete_ne|].
      split; [intros _; by rewrite !lookup_delete_eq|]. done.
    + apply Z.eqb_neq in Hlen. cbn [fst snd]. split; [done|].
      destruct (Hderef (RoomManager.assign p room1 rm)) as [Hd1 Hd2]; [done|].
      split; [done|]. split; [done|]. split; [done|]. split; [done|].
      split; [done|]. intros _. done.
Qed.

(** The theorem in a room that Alice created and leaves. *)
Lemma LeaveRoom_last_player_closes_the_room_witness :
  let rm0 := (RoomManager.CreateRoom "room_1" "ABCDEF" 0 "alice" RoomTypePublic "Doodle"
                (Scenario.settings 8 3) RoomManager.NewRoomManager).1 in
  let rm := (RoomManager.JoinRoom (1 * Go.Second) "room_1" "alice" Scenario.alice rm0).1 in
  let rm' := (RoomManager.LeaveRoom (5 * Go.Second) "room_1" "alice" rm).1 in
  (RoomManager.GetRoom "room_1" rm = Some 0%nat
   ∧ RoomManager.GetRoomByCode "ABCDEF" rm = Some 0%nat)
  ∧ RoomManager.GetRoom "room_1" rm' = None
  ∧ RoomManager.GetRoomByCode "ABCDEF" rm' = None.
Proof.
  intros rm0 rm rm'. split; [split; vm_compute; reflexivity|].
  destruct (LeaveRoom_last_player_closes_the_room (5 * Go.Second) "room_1" "alice" rm)
    as [_ H].
  destruct (H 0%nat (Scenario.lobby 8 3 [Scenario.alice])) as [_ Hleave];
    [vm_compute; reflexivity..|].
  destruct Hleave as (_ & _ & _ & _ & _ & Hgone & _); [vm_compute; eauto|].
  apply Hgone. vm_compute. reflexivity.
Defined.

(** ** Cleaning the registry ([cleanupInactiveRooms]) *)

Ltac same_test :=
  match goal with
  | |- (if bool_decide ?P then _ else _) = (if bool_decide ?Q then _ else _) =>
      rewrite (bool_decide_ext P Q); [reflexivity|]
  end.

(** The registry after the turns of the loop for the identifiers [l]. *)
Lemma cleanup_rooms_fold now timeout rm l :
  let rm' := foldl (RoomManager.cleanup_room now timeout) rm l in
  RoomManager.store rm' = RoomManager.store rm
  ∧ (∀ id, RoomManager.rooms rm' !! id
           = if bool_decide (id ∈ l ∧ is_Some (stale now timeout rm id))
             then None else RoomManager.rooms rm !! id)
  ∧ (∀ id room, id ∈ l → stale now timeout rm id = Some room →
                RoomManager.roomByCode rm' !! Room.Code room = None)
  ∧ (∀ code, (∀ id room, id ∈ l → stale now timeout rm id = Some room →
                         Room.Code room ≠ code) →
             RoomManager.roomByCode rm' !! code = RoomManager.roomByCode rm !! code).
Proof.
  induction l as [|x l IH] using rev_ind; cbn zeta.
  { cbn. split; [done|]. split.
    - intros id. rewrite bool_decide_eq_false_2; [done|]. by intros [?%elem_of_nil _].
    - split; [by intros ?? ?%elem_of_nil | done]. }
  rewrite foldl_app. cbn [foldl].
  destruct IH as (Hstore & Hrooms & Hgone & Hkept).
  set (r := foldl _ rm l) in *.
  (* the turn for [x] sees the room that the registry held at first *)
  assert (Hx : RoomManager.rooms r !! x ≫= RoomManager.deref r
               = if bool_decide (x ∈ l ∧ is_Some (stale now timeout rm x))
                 then None else RoomManager.rooms rm !! x ≫= RoomManager.deref rm).
  { rewrite Hrooms. case_bool_decide; [done|].
    unfold RoomManager.deref. by rewrite Hstore. }
  unfold RoomManager.cleanup_room. rewrite Hx.
  assert (Hstale : ∀ id, stale now timeout rm id
                         = room ← RoomManager.rooms rm !! id ≫= RoomManager.deref rm;
                           if Room.IsActive now timeout room then None else Some room)
    by done.
  case_bool_decide as Hdone.
  { (* the room of [x] was removed in an earlier turn *)
    destruct Hdone as [Hxl Hxs]. split; [done|]. split; [|split].
    - intros id. rewrite Hrooms. same_test.
      rewrite elem_of_app, list_elem_of_singleton. split; [tauto|].
      intros [[?| ->] ?]; tauto.
    - intros id room [Hid| ->%list_elem_of_singleton]%elem_of_app Hs; by eapply Hgone.
    - intros code Hcode. apply Hkept. intros id room Hid. apply Hcode.
      apply elem_of_app. by left. }
  destruct (RoomManager.rooms rm !! x ≫= RoomManager.deref rm) as [room|] eqn:Hroom;
    cbn [mbind option_bind].
  2:{ (* no room under [x] *)
    assert (Hns : stale now timeout rm x = None) by (by rewrite Hstale, Hroom).
    split; [done|]. split; [|split].
    - intros id. rewrite Hrooms. same_test.
      rewrite elem_of_app, list_elem_of_singleton. split; [tauto|].
      intros [[?| ->] Hs]; [tauto|]. rewrite Hns in Hs. by destruct Hs.
    - intros id room [Hid| ->%list_elem_of_singleton]%elem_of_app Hs;
        [by eapply Hgone | congruence].
    - intros code Hcode. apply Hkept. intros id room Hid. apply Hcode.
      apply elem_of_app. by left. }
  destruct (Room.IsActive now timeout room) eqn:Hactive; cbn [negb].
  { (* the room of [x] is active *)
    assert (Hns : stale now timeout rm x = None) by (by rewrite Hstale, Hroom; cbn; rewrite Hactive).
    split; [done|]. split; [|split].
    - intros id. rewrite Hrooms. same_test.
      rewrite elem_of_app, list_elem_of_singleton. split; [tauto|].
      intros [[?| ->] Hs]; [tauto|]. rewrite Hns in Hs. by destruct Hs.
    - intros id room' [Hid| ->%list_elem_of_singleton]%elem_of_app Hs;
        [by eapply Hgone | congruence].
    - intros code Hcode. apply Hkept. intros id room' Hid. apply Hcode.
      apply elem_of_app. by left. }
  (* the room of [x] is removed in this turn *)
  assert (Hs : stale now timeout rm x = Some room)
    by (by rewrite Hstale, Hroom; cbn; rewrite Hactive).
  cbn. split; [done|]. split; [|split].
  - intros id. destruct (decide (id = x)) as [->|Hne].
    + rewrite lookup_delete_eq. rewrite bool_decide_eq_true_2; [done|].
      split; [apply elem_of_app; right; by left | by rewrite Hs].
    + rewrite lookup_delete_ne by done. rewrite Hrooms. same_test.
      rewrite elem_of_app, list_elem_of_singleton. tauto.
  - intros id room' [Hid| ->%list_elem_of_singleton]%elem_of_app Hs'.
    + destruct (decide (Room.Code room = Room.Code room')) as [->|Hne].
      * by rewrite lookup_delete_eq.
      * rewrite lookup_delete_ne by done. by eapply Hgone.
    + rewrite Hs in Hs'. injection Hs' as <-. by rewrite lookup_delete_eq.
  - intros code Hcode. rewrite lookup_delete_ne.
    + apply Hkept. intros id room' Hid. apply Hcode. apply elem_of_app. by left.
    + apply (Hcode x room); [|done]. apply elem_of_app. right. by left.
Qed.

(** [cleanupInactiveRooms] removes from the registry exactly the rooms
    that have been inactive for longer than the timeout, whatever the order
    in which the loop visits the rooms: afterwards a room is found
    by its identifier when it was found before and is not stale, no stale room
    is left, the code of every removed room is free, and the other codes
    lead where they led. *)
Theorem cleanup_removes_the_stale_rooms
    (range_rooms : gmap string nat → list string) (now timeout : Z)
    (rm : RoomManager.t) :
  (∀ id, is_Some (RoomManager.rooms rm !! id) → id ∈ range_rooms (RoomManager.rooms rm)) →
  let rm' := RoomManager.cleanupInactiveRooms range_rooms now timeout rm in
  (∀ id, RoomManager.GetRoom id rm'
         = match stale now timeout rm id with
           | Some _ => None
           | None => RoomManager.GetRoom id rm
           end)
  ∧ (∀ id, RoomManager.GetRoom id rm' ≫= RoomManager.deref rm'
           = match stale now timeout rm id with
             | Some _ => None
             | None => RoomManager.GetRoom id rm ≫= RoomManager.deref rm
             end)
  ∧ (∀ id, stale now timeout rm' id = None)
  ∧ (∀ id room, stale now timeout rm id = Some room →
                RoomManager.GetRoomByCode (Room.Code room) rm' = None)
  ∧ (∀ code, (∀ id room, stale now timeout rm id = Some room → Room.Code room ≠ code) →
             RoomManager.GetRoomByCode code rm' = RoomManager.GetRoomByCode code rm).
Proof.
  intros Hrange rm'.
  destruct (cleanup_rooms_fold now timeout rm (range_rooms (RoomManager.rooms rm)))
    as (Hstore & Hrooms & Hgone & Hkept).
  fold (RoomManager.cleanupInactiveRooms range_rooms now timeout rm) in Hstore, Hrooms, Hgone, Hkept.
  fold rm' in Hstore, Hrooms, Hgone, Hkept.
  assert (Hin : ∀ id, is_Some (stale now timeout rm id) →
                      id ∈ range_rooms (RoomManager.rooms rm)).
  { intros id [room Hs]. apply Hrange. unfold stale, RoomManager.GetRoom in Hs.
    destruct (RoomManager.rooms rm !! id); [eauto | done]. }
  assert (Hget : ∀ id, RoomManager.GetRoom id rm'
                       = match stale now timeout rm id with
                         | Some _ => None
                         | None => RoomManager.GetRoom id rm
                         end).
  { intros id. unfold RoomManager.GetRoom at 1. rewrite Hrooms.
    destruct (stale now timeout rm id) as [room|] eqn:Hs.
    - rewrite bool_decide_eq_true_2; [done|]. split; [apply Hin; by rewrite Hs | eauto].
    - rewrite bool_decide_eq_false_2; [done|]. intros [_ []]. done. }
  assert (Hderef : ∀ id, RoomManager.GetRoom id rm' ≫= RoomManager.deref rm'
                         = match stale now timeout rm id with
                           | Some _ => None
                           | None => RoomManager.GetRoom id rm ≫= RoomManager.deref rm
                           end).
  { intros id. rewrite Hget. destruct (stale now timeout rm id); [done|].
    unfold RoomManager.deref. by rewrite Hstore. }
  split; [done|]. split; [done|]. split; [|split].
  - intros id. unfold stale at 1. rewrite Hderef.
    destruct (stale now timeout rm id) as [room|] eqn:Hs; [done|]. exact Hs.
  - intros id room Hs. eapply Hgone; [|exact Hs]. apply Hin. by rewrite Hs.
  - intros code Hcode. apply Hkept. intros id room _. apply Hcode.
Qed.

(** The theorem in a registry of two rooms, of which the first one has
    been idle for two minutes and the second one for twenty seconds. *)
Lemma cleanup_removes_the_stale_rooms_witness :
  let rm1 := (RoomManager.CreateRoom "room_1" "ABCDEF" 0 "alice" RoomTypePublic "Doodle"
                (Scenario.settings 8 3) RoomManager.NewRoomManager).1 in
  let rm := (RoomManager.CreateRoom "room_2" "GHJKLM" (100 * Go.Second) "bob"
               RoomTypePublic "Sketch" (Scenario.settings 8 3) rm1).1 in
  let rm' := RoomManager.cleanupInactiveRooms registered (120 * Go.Second)
               (60 * Go.Second) rm in
  (∀ id, is_Some (RoomManager.rooms rm !! id) → id ∈ registered (RoomManager.rooms rm))
  ∧ RoomManager.GetRoom "room_1" rm = Some 0%nat
  ∧ RoomManager.GetRoom "room_1" rm' = None
  ∧ RoomManager.GetRoomByCode "ABCDEF" rm' = None
  ∧ RoomManager.GetRoom "room_2" rm' = Some 1%nat
  ∧ RoomManager.GetRoomByCode "GHJKLM" rm' = Some 1%nat.
Proof.
  intros rm1 rm rm'.
  assert (Hrange : ∀ id, is_Some (RoomManager.rooms rm !! id) →
                         id ∈ registered (RoomManager.rooms rm)).
  { intros id [p Hp]. apply list_elem_of_fmap. exists (id, p).
    split; [done|]. by apply elem_of_map_to_list. }
  split; [exact Hrange|]. split; [vm_compute; reflexivity|].
  destruct (cleanup_removes_the_stale_rooms registered (120 * Go.Second)
              (60 * Go.Second) rm Hrange) as (Hget & _ & _ & Hgone & Hkept).
  fold rm' in Hget, Hgone, Hkept.
  assert (H1 : ∃ room, stale (120 * Go.Second) (60 * Go.Second) rm "room_1" = Some room
                       ∧ Room.Code room = "ABCDEF")
    by (eexists; split; vm_compute; reflexivity).
  assert (H2 : stale (120 * Go.Second) (60 * Go.Second) rm "room_2" = None)
    by (vm_compute; reflexivity).
  destruct H1 as (room & H1 & Hcode).
  split; [by rewrite Hget, H1|].
  split; [rewrite <- Hcode; by eapply Hgone|].
  split; [rewrite Hget, H2; vm_compute; reflexivity|].
  apply (bool_decide_unpack _). vm_compute. exact I.
Defined.

(** ** The configuration ([config]) *)

Lemma GetDefaultConfig_valid : config.validateConfig config.GetDefaultConfig = None.
Proof. reflexivity. Qed.

Lemma after_call_valid AppConfig c :
  (∀ cfg, AppConfig = Some cfg → config.validateConfig cfg = None) →
  ∀ cfg, after_call AppConfig c = Some cfg → config.validateConfig cfg = None.
Proof.
  intros Hvalid cfg.
  assert (Hget : ∀ cfg', (config.GetConfig AppConfig).1 = Some cfg' →
                         config.validateConfig cfg' = None).
  { intros cfg'. unfold config.GetConfig. destruct AppConfig; cbn; [auto|].
    intros [= <-]. apply GetDefaultConfig_valid. }
  destruct c as [file| | | |updates|updates]; cbn [after_call].
  - unfold config.LoadConfig.
    destruct (config.validateConfig _) eqn:Hv; cbn [fst]; [apply Hvalid|]. by intros [= <-].
  - apply Hget.
  - unfold config.GetServerAddress. destruct (config.GetConfig AppConfig) eqn:Hg.
    cbn. intros H. by apply Hget.
  - unfold config.GetWebSocketURL. destruct (config.GetConfig AppConfig) eqn:Hg.
    cbn. intros H. by apply Hget.
  - unfold config.UpdateGameConfig. destruct (config.GetConfig AppConfig) eqn:Hg.
    destruct (config.validateConfig _) eqn:Hv; cbn.
    + intros H. by apply Hget.
    + by intros [= <-].
  - unfold config.UpdatePointsConfig. destruct (config.GetConfig AppConfig) eqn:Hg.
    destruct (config.validateConfig _) eqn:Hv; cbn.
    + intros H. by apply Hget.
    + by intros [= <-].
Qed.

Lemma after_calls_valid calls cfg :
  after_calls calls = Some cfg → config.validateConfig cfg = None.
Proof.
  unfold after_calls. revert cfg.
  induction calls as [|c calls IH] using rev_ind; [done|].
  rewrite foldl_app. cbn [foldl]. by apply after_call_valid.
Qed.

Lemma valid_Port cfg :
  config.validateConfig cfg = None →
  config.ServerConfig.Port (config.Config.Server cfg) ≠ "".
Proof.
  unfold config.validateConfig. intros H Hp. rewrite Hp in H. done.
Qed.

(** Whatever the program loads and whatever updates it asks for, the
    configuration in force passes [validateConfig]: a configuration that does
    not is never installed, neither by [LoadConfig] nor by an update, and an
    unreadable file gives the defaults, which are valid.  So the game always
    has room for the players that it needs to start, and [GetServerAddress]
    finds the first byte of the port that it reads. *)
Theorem configuration_stays_valid (calls : list config_call) :
  let AppConfig := after_calls calls in
  let cfg := (config.GetConfig AppConfig).2 in
  (∀ installed, AppConfig = Some installed → config.validateConfig installed = None)
  ∧ config.validateConfig cfg = None
  ∧ 2 ≤ config.GameConfig.MinPlayersToStart (config.Config.Game cfg)
      ≤ config.GameConfig.MaxPlayersPerRoom (config.Config.Game cfg)
  ∧ is_Some (config.GetServerAddress AppConfig).2
  ∧ (∀ file, (config.LoadConfig file AppConfig).2 = inl (default config.GetDefaultConfig file)
             ∨ (∃ loaded err, file = Some loaded
                  ∧ config.validateConfig loaded = Some err
                  ∧ config.LoadConfig file AppConfig
                    = (AppConfig, inr ("invalid configuration: " +:+ err)))).
Proof.
  intros AppConfig cfg.
  assert (Hvalid : ∀ installed, AppConfig = Some installed →
                                config.validateConfig installed = None)
    by (intros ?; apply after_calls_valid).
  assert (Hcfg : config.validateConfig cfg = None).
  { subst cfg. unfold config.GetConfig. destruct AppConfig; cbn; [auto|].
    apply GetDefaultConfig_valid. }
  split; [done|]. split; [done|]. split; [|split].
  - revert Hcfg. unfold config.validateConfig.
    repeat (case_match; [done|]). intros _. lia.
  - pose proof (valid_Port _ Hcfg) as Hp. clear Hcfg. revert Hp. subst cfg.
    unfold config.GetServerAddress.
    destruct (config.GetConfig AppConfig) as [a c]. cbn. intros Hp.
    destruct (config.ServerConfig.Port _) as [|b port]; [done|].
    unfold utils.byte_at. change (0 <? 0) with false. change (Z.to_nat 0) with 0%nat.
    cbn [String.get mbind option_bind]. by destruct (negb _).
  - intros file. unfold config.LoadConfig.
    destruct file as [loaded|]; cbn.
    + destruct (config.validateConfig loaded) as [err|] eqn:Hv; cbn; [|by left].
      right. by exists loaded, err.
    + by left.
Qed.
